(* ===== verification/_CoqProject ===== *)
-Q . S2P
Prelude.v
Xid.v
GoJson.v
Http.v
Crud.v
ParseId.v
ListModifiers.v
Mock.v
Handler.v
MockFacts.v
Server.v
Invariant.v
Refinement.v
Uniqueness.v
Failures.v
Typing.v
Observation.v
Walkthrough.v
Scenarios.v
Drain.v
Benchmarks.v
Witnesses.v
