(* ===== verification/Prelude.v ===== *)
(** * A verification development of induzo/crud

    induzo/crud is a Go library of generic REST handlers.  Each of the six
    handlers of [src/rest/handler.go] takes a manager [crud.MgrI]
    ([src/mgr.go]).  It parses the [{ID}] route parameter
    ([src/rest/parseid.go]) or the query string
    ([src/rest/listmodifiers.go]), decodes the JSON body, calls one
    method of the manager and renders the result or a [gohttperror]
    response.  [src/mock] is the in-memory reference manager.
    [src/example/main.go] mounts the handlers on one [mock.NewMgr()] under
    [/e].  The handler tests ([src/rest/handler_test.go]) drive them
    against [mgrMock] ([src/rest/mock_test.go]), which is line for line
    the same code as [mock.Mgr].

    ** Files, in dependency order

    - [Prelude.v] (this file) holds the effect monad [M S A := S -> outcome
      S A] of the Go code.  A run returns [Normal a s] or [Panicked msg s],
      and a panic keeps the state it reached.  The file also has the
      tactics [munfold], [mrun], [mstep] and [minv], and generic lemmas on
      base-[b] digits, modular arithmetic and map folds.  [preserves P m]
      states that a program keeps a state predicate [P], returning or
      panicking; its bind rule composes it.
    - [Xid.v] is [github.com/rs/xid], modelled from its documented format.
      It holds the 20-character base32hex text ([ID_String], [FromString])
      and the generator [NewWithTime] (time, machine id, pid, 24-bit
      counter).
    - [GoJson.v] is [encoding/json] as the handlers observe it.  It has a
      JSON AST, [float64] rounding (ties to even) of integer literals,
      [ParseInt64], the amd64 [int(float64)] conversion, field-name
      matching and the decoding into [map[string]interface{}].
    - [Http.v] holds requests, responses and [gohttperror].
    - [Crud.v] is [src/mgr.go] and [src/updates.go].  [MgrI] is a type
      class over the manager's state, its [interface{}] values and its
      errors.  The class [JSONValue] is [encoding/json]'s reflection on
      those values.
    - [ParseId.v] is [src/rest/parseid.go].
    - [ListModifiers.v] is [src/rest/listmodifiers.go], over a model of
      [net/url]'s [ParseQuery].
    - [Mock.v] is [src/mock].  A [World] holds the [Mgr] record (six
      failure flags and [EntityList : id -> address]), a heap of [Entity]
      objects, the next free address, the xid generator and the clock.  The
      map holds pointers as the Go code does, so aliasing and writes
      through pointers are explicit.  Each method of [*Mgr] is one
      definition of the same name.
    - [Handler.v] is [src/rest/handler.go].  Each handler is written
      against the classes of [Crud.v], in a [Section] with [Context].
      [handler_for] and [serve] are the routes of [src/example/main.go]
      and the server's recovery of a panicking handler.
      [handlers_preserve] is stated against the interface: a state
      property kept by every method and by the decoder is kept by every
      handler.  [handlers_preserve_no_create] drops [Create] from the
      hypotheses for the five routes other than POST.
    - [MockFacts.v] has one lemma per branch of each mock method.
    - [Server.v] has the handlers on the mock: create, fetch, delete,
      patch and put, and the behaviours that differ from the spec.
    - [Invariant.v] defines the world invariant [inv] (fresh allocation,
      no dangling pointer, no two ids sharing an object, no failure flag).
      It also defines the abstract [view] of a world: the map from id to
      entity.
    - [Refinement.v] is the contract [spec_step] of an abstract
      id-to-entity store, together with the simulation [serve_sim]: every
      handler refines the contract and keeps [inv].  It lifts both to
      request sequences ([serve_all], [spec_trace]) and to the worlds a
      running server reaches ([reachable]).
    - [Observation.v] gives the contract as a function, [spec_serve], on
      the store, the generator and the clock ([AState], [abs_of]).  It is
      one behaviour of [spec_step], and the handlers on the mock compute
      it exactly ([serve_all_functional]).
    - [Uniqueness.v] is a burst of POSTs in one clock second.  It counts
      the entities the store keeps, through the 24-bit counter of
      [xid.New].
    - [Typing.v] checks the model against Go's static types: the
      stored entities keep a 96-bit id and a 64-bit status.  It
      instantiates [handlers_preserve] with the mock.  Go's types
      guarantee this of the program, so it is a sanity check of the
      model's integers, not a property of the code.
    - [Failures.v] covers the [Want...Error] flags the tests set: every
      handler fails cleanly with 400 or 500.
    - [Walkthrough.v] runs the spec's walk-through, and the POST/PATCH
      pair with the key [STATUS_ID], from every world satisfying [inv].
    - [Scenarios.v] models the six test tables of [handler_test.go]: the
      setup, the handler call, and the status and body checks of each
      case.  It evaluates them ([handler_tests_pass]), and proves two
      facts about the tests that hold for every input.  [ListModifiers.v]
      evaluates the table of [listmodifiers_test.go] in the same way.
    - [Drain.v] is a client of the server: the loop [drain] lists the
      store and deletes the first id the listing shows, until the
      listing is 404.  It composes [Entity.to_json] with
      [parseIDFromRequest].
    - [Benchmarks.v] models the six benchmarks of [handler_test.go]: each
      setup, then a loop of [b.N] requests on one manager ([bench_loop]).
    - [Witnesses.v] instantiates every theorem that has a hypothesis at a
      concrete world.

    ** What the theorems show

    - Refinement ([Refinement.v]).  Any sequence of requests served from
      [mock.NewMgr()] is a run of the abstract store, error paths
      included.  A single step refines the contract from any world
      satisfying [inv], and every handler keeps [inv].  No two ids ever
      share an object.  The only request answered without a response is
      a PATCH whose [status_id] is not a number.
    - Observation ([Observation.v]).  The server started on
      [mock.NewMgr()] answers every sequence of requests as
      [spec_serve] does, the id each POST draws included.  Two worlds
      satisfying [inv] with the same store, generator and clock answer
      alike, so the heap layout is not observable.  GET lists in the
      model's iteration order of [m.EntityList].  Go leaves that order
      unspecified, so for the program the list is exact up to
      permutation, as [spec_step] states it.
    - Id uniqueness ([Uniqueness.v]).  Up to [2^24] POSTs in one second
      keep that many entities.  The [2^24 + 1]-th POST gets the first id
      again and silently replaces the first entity.
    - Integer range ([MockFacts.v]).  A PATCH beyond the 64-bit [int]
      range stores [math.MinInt64].
    - Injected failures ([Failures.v]).  With the flag of its method set,
      every handler answers 400 or 500 and the store is unchanged.
    - Handler contracts ([Handler.v]) hold for every manager.  The status
      of every response belongs to its route's table.  A malformed id,
      POST body or PATCH body is answered 400 before the manager runs.
    - Mock behaviour ([Server.v], [MockFacts.v]):
      - POST then GET returns the entity with its new id.
      - DELETE then GET is 404.
      - An empty list is 404.
      - A PATCH without [status_id] is 500, not 400.
      - PATCH goes through [float64].
      - PUT with [null] answers 200 [{}].
      - PUT drops the id.
      - A non-numeric [status_id] panics.
      - A [status_id] beyond the [float64] range is 400.
      - POST folds the case of field names and PATCH does not, so
        [{"STATUS_ID": n}] is created by POST and refused (500) by PATCH,
        from every world satisfying [inv] ([Walkthrough.v]).
    - Parsing: [parseIDFromRequest] accepts exactly the canonical text
      of a non-nil id.  [xid.FromString] and [ID.String] are inverse on
      canonical text ([Xid.v]).  [ListModifiersFromURL] gives each key
      its values in order ([ListModifiers.v]).
    - Walk-through ([Walkthrough.v]).  From every world satisfying
      [inv] after the epoch, the spec's walk-through answers 201, 204,
      200, 202 and 404.
    - Tests ([Scenarios.v]).  POST and PATCH on the mock never answer
      200, for any request and state.  So the body checks of their
      tests, guarded by [StatusOK], are dead code.  [k+1] [Create] calls
      with one pointer store one object under every id, and the listing
      shows copies of that one entity.  The GETList test's length check
      cannot tell this apart from distinct entities.
    - Draining ([Drain.v]).  When every stored entity carries its key
      as a non-nil id, the list-and-delete loop empties the store, one
      entity per round, and ends on a 404 (liveness).  It stops by
      itself: fuel beyond the store's size changes nothing
      (termination).  When the first listed entity carries the nil id,
      as a PUT whose body has no id leaves it, the entity is listed
      with ["id": null].  The loop then stops with the store unchanged.
    - Benchmarks ([Benchmarks.v]).  For every [b.N], every iteration of
      each benchmark takes its handler's success path.  The proof runs
      the simulation of [Refinement.v] along the loop, carrying [inv] and
      the fact that the benchmark's id is stored.  The GET-list setup
      aliases one object under five ids, so it is run concretely instead.

    ** Bounds

    - Identifiers are integers below [2^96].
    - The xid counter is 24 bits wide, so [News_NoDup] assumes at most
      [2^24] calls in one second.  [NewWithTime_wraps] shows the window is
      exact.
    - [int] is 64 bits wide.  JSON numbers decoded into [interface{}] are
      [float64], exact up to [2^53] ([f64_exact]).
    - The model of the program has no fuel: every definition is
      structurally recursive, and each request is one terminating run of
      the monad.  Only the client loop [drain] takes fuel.  More rounds
      than stored entities are enough ([drain_empties]), and more fuel
      than that gives the same result ([drain_stops]).

    ** Not modelled

    - The deferred [log.Fatalf] on a failed [render.Render]: writes are
      assumed to succeed.
    - The HTTP listener, its timeouts and [log.Fatalf] on
      [ListenAndServe].
    - [context.Context]: no manager reads it.
    - The JSON scanner and string escapes: a body is a JSON value or
      malformed.
    - The timer calls of the benchmarks ([b.ResetTimer], [b.StopTimer],
      [b.StartTimer]): they measure time and change no state.
    - [src/updates.go], which only declares the type [PartialUpdateData].
      It is the abbreviation [gmap string json] of [Crud.v], not a
      definition of its own: the decoder's result must convert to it
      without unfolding.
    - A decode error in a test's body check: the model leaves the
      decoded entity zero, where Go keeps the fields read before the
      error.  No body of the tests fails to decode.
    - Go's map iteration order: [GetList] follows stdpp's order, and the
      contract states the list up to permutation. *)

From stdpp Require Import base gmap strings list.
From Stdlib Require Import ZArith Lia.

Declare Scope crud_scope.
Delimit Scope crud_scope with crud.
Open Scope Z_scope.

(** ** The effect monad of the Go code

    A handler or a manager method runs on a state [S] (the manager, the
    heap of entity objects, the id generator) and either returns normally
    or panics.  A panic keeps the state reached at the point of the panic:
    the Go runtime does not roll back what was written before it. *)

Inductive outcome (S A : Type) : Type :=
| Normal (a : A) (s : S)
| Panicked (msg : string) (s : S).
Arguments Normal {S A} a s.
Arguments Panicked {S A} msg s.

Definition M (S A : Type) : Type := S -> outcome S A.

#[export] Instance M_ret {S} : MRet (M S) := fun _ a s => Normal a s.
#[export] Instance M_bind {S} : MBind (M S) := fun _ _ k m s =>
  match m s with
  | Normal a s' => k a s'
  | Panicked e s' => Panicked e s'
  end.

Definition get {S} : M S S := fun s => Normal s s.
Definition put {S} (s : S) : M S unit := fun _ => Normal tt s.
Definition modify {S} (f : S -> S) : M S unit := fun s => Normal tt (f s).
Definition panic {S A} (msg : string) : M S A := fun s => Panicked msg s.

(** The state an outcome ends in, panic or not. *)
Definition final_state {S A} (o : outcome S A) : S :=
  match o with Normal _ s => s | Panicked _ s => s end.

Notation "s ⊢ m ⇓ a ⊣ s'" := (m s = Normal a s')
  (at level 70, m at next level, a at next level) : crud_scope.

(** ** Proof automation shared by the components *)

Create HintDb crud.

(** Unfold the monad operations so that a concrete run reduces. *)
Ltac munfold :=
  unfold mbind, mret, M_bind, M_ret, get, put, modify, panic in *.

(** Replace the constant powers [2 ^ n] of the goal and the context by
    their values, so that [lia] sees numerals. *)
Ltac zpow_eval :=
  repeat match goal with
  | |- context [2 ^ ?n] =>
      let v := eval vm_compute in (2 ^ n) in
      lazymatch v with Zpos _ => progress change (2 ^ n) with v in * end
  | H : context [2 ^ ?n] |- _ =>
      let v := eval vm_compute in (2 ^ n) in
      lazymatch v with Zpos _ => progress change (2 ^ n) with v in * end
  end.

(** Close a bound on machine-width integers. *)
Ltac zbound := zpow_eval; lia.

Section MonadLemmas.
Context {S A B : Type}.

Lemma bind_normal (m : M S A) (k : A -> M S B) s a s' :
    m s = Normal a s' -> (x ← m; k x) s = k a s'.
  Proof. intros H. munfold. by rewrite H. Qed.

Lemma bind_panicked (m : M S A) (k : A -> M S B) s e s' :
    m s = Panicked e s' -> (x ← m; k x) s = Panicked e s'.
  Proof. intros H. munfold. by rewrite H. Qed.
Lemma bind_normal_inv (m : M S A) (k : A -> M S B) s b s' :
    (x ← m; k x) s = Normal b s' -> exists a s1, m s = Normal a s1 /\ k a s1 = Normal b s'.
  Proof. munfold. destruct (m s); [eauto|discriminate]. Qed.

Lemma bind_panicked_inv (m : M S A) (k : A -> M S B) s e s' :
    (x ← m; k x) s = Panicked e s' ->
    m s = Panicked e s' \/ exists a s1, m s = Normal a s1 /\ k a s1 = Panicked e s'.
  Proof. munfold. destruct (m s); [eauto|left; congruence]. Qed.
End MonadLemmas.

(** Run the first step of a monadic program with the equation [lem]
    gives for it, discharging [lem]'s hypotheses from the context. *)
Ltac mrun lem :=
  erewrite bind_normal by (eapply lem; eassumption); cbv beta iota.

(** Run the first step of a monadic program with the equation [H] (a
    term, hypotheses given) for it, whose right side reduces to a
    [Normal] outcome. *)
Ltac mstep H :=
  erewrite bind_normal by (rewrite H; reflexivity); cbv beta iota.

(** Decompose a hypothesis [H : prog s = Normal a s'] of a monadic
    program into the runs of its steps, splitting the branches. *)
Ltac minv H :=
  repeat match type of H with
  | mbind _ _ _ = Normal _ _ =>
      let a := fresh "a" in let s1 := fresh "s" in let Hm := fresh "Hm" in
      apply bind_normal_inv in H as (a & s1 & Hm & H); cbv beta in H
  | (match ?c with _ => _ end) _ = Normal _ _ => destruct c eqn:?
  | mret _ _ = Normal _ _ => injection H as <- <-
  | (if ?c then _ else _) _ = Normal _ _ => destruct c eqn:?
  end.

(** ** State predicates kept by a program

    [preserves P m]: from a state satisfying [P], the state [m] ends in
    satisfies [P], whether [m] returns or panics.  Programs are built
    with [mbind], so the bind rule composes it, as a postcondition of a
    monadic program is composed in a program logic. *)

Section Preserves.
Context {S : Type} (P : S -> Prop).

Definition preserves {A} (m : M S A) : Prop := forall s, P s -> P (final_state (m s)).

Lemma preserves_ret {A} (a : A) : preserves (mret a).
  Proof. by intros s Hs. Qed.

Lemma preserves_get : preserves get.
  Proof. by intros s Hs. Qed.

Lemma preserves_bind {A B} (m : M S A) (k : A -> M S B) :
    preserves m -> (forall a, preserves (k a)) -> preserves (x ← m; k x).
  Proof.
    intros Hm Hk s Hs. specialize (Hm s Hs). munfold.
    destruct (m s) as [a s'|e s']; [by apply Hk|done].
  Qed.
End Preserves.

#[export] Hint Resolve preserves_ret preserves_get : crud.

(** Split a [preserves] goal along the binds and the branches of a
    program, closing the leaves with the [crud] hints and [hyps]. *)
Ltac preserve_solve :=
  repeat first
    [ apply preserves_bind; [|intros ?]
    | solve [eauto with crud]
    | match goal with
      | |- preserves _ (match ?x with _ => _ end) => destruct x
      | |- preserves _ (if ?b then _ else _) => destruct b
      end ].

(** ** Positional digits in base [b]

    Both the xid text encoding (base 32, fixed width 20) and the JSON
    rendering of integers (base 10) write a number as its digits, most
    significant first. *)

Fixpoint digits (b : Z) (n : nat) (v : Z) : list Z :=
  match n with
  | O => []
  | S n' => digits b n' (v / b) ++ [v mod b]
  end.

Definition undigits (b : Z) (l : list Z) : Z :=
  fold_left (fun acc d => acc * b + d) l 0.

Definition digit_ok (b d : Z) : Prop := 0 <= d < b.

Section Digits.
Context (b : Z) (Hb : 1 < b).

Lemma undigits_snoc l d : undigits b (l ++ [d]) = undigits b l * b + d.
  Proof. unfold undigits. by rewrite fold_left_app. Qed.

Lemma Z_mod_mul_r v c :
    0 < c -> v mod (b * c) = v mod b + b * ((v / b) mod c).
  Proof.
    intros Hc. symmetry. apply (Z.mod_unique _ _ ((v / b) / c)); [left|].
    - pose proof (Z.mod_pos_bound v b ltac:(lia)).
      pose proof (Z.mod_pos_bound (v / b) c Hc). nia.
    - pose proof (Z.div_mod v b ltac:(lia)).
      pose proof (Z.div_mod (v / b) c ltac:(lia)). nia.
  Qed.

Lemma length_digits n v : length (digits b n v) = n.
  Proof.
    revert v; induction n as [|n IH]; intros v; [done|].
    simpl. rewrite length_app, IH. simpl. lia.
  Qed.

Lemma digits_ok n v : Forall (digit_ok b) (digits b n v).
  Proof.
    revert v; induction n as [|n IH]; intros v; simpl; [constructor|].
    apply Forall_app; split; [apply IH|].
    constructor; [|constructor]. unfold digit_ok.
    apply Z.mod_pos_bound. lia.
  Qed.

Lemma undigits_digits n v : undigits b (digits b n v) = v mod b ^ Z.of_nat n.
  Proof.
    revert v; induction n as [|n IH]; intros v.
    - simpl. by rewrite Z.mod_1_r.
    - simpl digits. rewrite undigits_snoc, IH, Nat2Z.inj_succ, Z.pow_succ_r by lia.
      rewrite Z_mod_mul_r by (apply Z.pow_pos_nonneg; lia). ring.
  Qed.

Lemma undigits_bound l :
    Forall (digit_ok b) l -> 0 <= undigits b l < b ^ Z.of_nat (length l).
  Proof.
    induction l as [|d l IH] using rev_ind; intros Hl; [unfold undigits; simpl; lia|].
    apply Forall_app in Hl as [Hl Hd]. apply Forall_inv in Hd. unfold digit_ok in Hd.
    specialize (IH Hl). rewrite undigits_snoc, length_app. simpl length.
    rewrite Nat2Z.inj_add, Z.pow_add_r by lia. simpl (b ^ Z.of_nat 1). nia.
  Qed.

Lemma digits_undigits l :
    Forall (digit_ok b) l -> digits b (length l) (undigits b l) = l.
  Proof.
    induction l as [|d l IH] using rev_ind; intros Hl; [done|].
    apply Forall_app in Hl as [Hl Hd]. apply Forall_inv in Hd. unfold digit_ok in Hd.
    rewrite length_app, Nat.add_1_r. simpl digits. rewrite undigits_snoc.
    rewrite Z.div_add_l, Z.div_small, Z.add_0_r by lia.
    rewrite Z.add_comm, Z.mod_add, Z.mod_small by lia. by rewrite IH.
  Qed.
End Digits.

(** ** Machine-width arithmetic *)

Section Modular.
Lemma Z_mod_pow2_narrow (a b : Z) (n m : Z) :
    0 <= n <= m -> (a mod 2 ^ m + b) mod 2 ^ n = (a + b) mod 2 ^ n.
  Proof.
    intros Hnm.
    assert (H2n : 2 ^ n <> 0) by (apply Z.pow_nonzero; lia).
    rewrite Z.add_mod, Z.mod_mod_divide, <- Z.add_mod by (done || (exists (2 ^ (m - n));
      rewrite <- Z.pow_add_r by lia; f_equal; lia)).
    reflexivity.
  Qed.

Lemma Z_mod_mod_pow2 (a n m : Z) :
    0 <= n <= m -> (a mod 2 ^ m) mod 2 ^ n = a mod 2 ^ n.
  Proof.
    intros Hnm. apply Z.mod_mod_divide. exists (2 ^ (m - n)).
    rewrite <- Z.pow_add_r by lia. f_equal. lia.
  Qed.

Lemma Z_mod_eq_close (a b m : Z) :
    0 < m -> a mod m = b mod m -> 0 <= b - a < m -> a = b.
  Proof.
    intros Hm Heq Hd.
    pose proof (Z.div_mod a m ltac:(lia)). pose proof (Z.div_mod b m ltac:(lia)).
    pose proof (Z.mod_pos_bound a m Hm). pose proof (Z.mod_pos_bound b m Hm).
    assert (b / m = a / m) by nia. nia.
  Qed.

(** The low [n] bits of [hi * 2^n + lo] are [lo]. *)
Lemma Z_mod_add_shifted (hi lo n : Z) :
    0 <= n -> 0 <= lo < 2 ^ n -> (hi * 2 ^ n + lo) mod 2 ^ n = lo.
  Proof.
    intros Hn Hlo. rewrite Z.add_comm, Z.mod_add, Z.mod_small by (lia || (apply Z.pow_nonzero; lia)).
    reflexivity.
  Qed.
End Modular.

(** ** A left fold that may fail (Go loops that return on the first error) *)
Fixpoint fold_opt {A B} (f : A -> B -> option A) (a : A) (l : list B) : option A :=
  match l with
  | [] => Some a
  | x :: l' => f a x ≫= fun a' => fold_opt f a' l'
  end.

Lemma fold_opt_app {A B} (f : A -> B -> option A) a l1 l2 :
  fold_opt f a (l1 ++ l2) = fold_opt f a l1 ≫= fun a' => fold_opt f a' l2.
Proof.
  revert a; induction l1 as [|x l1 IH]; intros a; simpl; [done|].
  destruct (f a x); simpl; [apply IH|done].
Qed.

(** ** Maps *)

(** [for k, v := range m { rf[k] = v }] into an empty map copies [m]. *)
Lemma map_fold_copy `{Countable K} {V} (m : gmap K V) :
  map_fold (fun k v (rf : gmap K V) => <[k := v]> rf) ∅ m = m.
Proof.
  induction m as [|i x m Hi IH] using map_ind; [apply map_fold_empty|].
  rewrite map_fold_insert_L; [by rewrite IH| |done].
  intros j1 j2 z1 z2 y Hne _ _. by apply insert_insert_ne.
Qed.

Lemma last_cons_default {A} (x : A) l : last (x :: l) = Some (default x (last l)).
Proof. induction l as [|y l IH]; [done|]. destruct l; [done|]. simpl in *. done. Qed.

(** Inserting the members of a list in order: a key keeps its last value. *)
Lemma foldl_insert_lookup `{Countable K} {V} (l : list (K * V)) (m : gmap K V) k :
  foldl (fun m kv => <[kv.1 := kv.2]> m) m l !! k =
    match last (map snd (filter (fun kv => kv.1 = k) l)) with
    | Some v => Some v
    | None => m !! k
    end.
Proof.
  revert m; induction l as [|[k' v] l IH]; intros m; [done|]. simpl. rewrite IH.
  rewrite filter_cons. simpl. case_decide as Hk; simpl.
  - subst. rewrite last_cons_default.
    destruct (last _); simpl; [done|by rewrite lookup_insert_eq].
  - by rewrite lookup_insert_ne.
Qed.
