(* ===== verification/Xid.v ===== *)
(** * The identifier type [xid.ID] (github.com/rs/xid)

    The manager keys its entities by [xid.ID], and the handlers parse the
    [{ID}] path parameter with [xid.FromString].  The library is not part
    of the repository: its behaviour is modelled here from its documented
    format (12 raw bytes, 20 characters of base32hex text in lower case,
    the last character carrying 4 zero padding bits) so that the handler
    theorems can speak about concrete identifiers.

    An [ID] is the big-endian integer of its 12 bytes, [0 <= id < 2^96];
    Go compares [ID] values (arrays) by content, which is [Z] equality. *)

From stdpp Require Import base gmap strings list.
From Stdlib Require Import ZArith Lia Ascii.
From Stdlib Require String.
From S2P Require Import Prelude.

Open Scope Z_scope.

Module Encoding.

Definition rawLen : nat := 12.
Definition encodedLen : nat := 20.
Definition encoding : string := "0123456789abcdefghijklmnopqrstuv".

(** The error value [xid.ErrInvalidID]. *)
Definition ErrInvalidID : string := "xid: invalid ID".

Definition ID_bound : Z := 2 ^ (8 * Z.of_nat rawLen).
Definition valid_id (id : Z) : Prop := 0 <= id < ID_bound.

Definition NilID : Z := 0.
Definition ID_IsNil (id : Z) : bool := id =? NilID.

(** [encoding[d]] for a 5-bit digit [d]. *)
Definition enc_char (d : Z) : ascii :=
    match String.get (Z.to_nat d) encoding with Some c => c | None => "0"%char end.

(** The [dec] table: [0xFF] (here [None]) outside the alphabet. *)
Definition dec (c : ascii) : option Z :=
    let n := Z.of_N (N_of_ascii c) in
    if (48 <=? n) && (n <=? 57) then Some (n - 48)
    else if (97 <=? n) && (n <=? 118) then Some (n - 87)
    else None.

(** [ID.String]: the 96 bits followed by 4 zero bits, as 20 base32
    digits, most significant first. *)
Definition ID_String (id : Z) : string :=
    String.string_of_list_ascii (map enc_char (digits 32 encodedLen (id * 16))).

(** [ID.UnmarshalText]: length check, alphabet check, then [decode],
    which rejects a last character whose 4 padding bits are not 0. *)
Definition ID_UnmarshalText (s : string) : option Z :=
    let cs := String.list_ascii_of_string s in
    if negb (Nat.eqb (length cs) encodedLen) then None
    else match mapM dec cs with
         | None => None
         | Some ds =>
             let n := undigits 32 ds in
             if n mod 16 =? 0 then Some (n / 16) else None
         end.

(** [xid.FromString]: decodes into a fresh zero [ID]; every failure
    leaves (or resets) it to [nilID]. *)
Definition FromString (s : string) : Z * option string :=
    match ID_UnmarshalText s with
    | Some id => (id, None)
    | None => (NilID, Some ErrInvalidID)
    end.

(** [ID.MarshalJSON]: [null] for the nil id, the quoted text otherwise;
    [ID.UnmarshalJSON] receives the raw JSON text of the value. *)
Definition ID_UnmarshalJSON (raw : string) : option Z :=
    if String.eqb raw "null" then Some NilID
    else if Nat.ltb (String.length raw) 2 then None
    else ID_UnmarshalText (String.substring 1 (String.length raw - 2) raw).

End Encoding.

Module EncodingFacts.
  Import Encoding.

Lemma dec_enc_char d : digit_ok 32 d -> dec (enc_char d) = Some d.
  Proof.
    intros Hd. unfold digit_ok in Hd.
    assert (Hall : Forall (fun n => dec (enc_char n) = Some n) (map Z.of_nat (seq 0 32)))
      by (vm_compute; repeat constructor).
    rewrite Forall_forall in Hall. apply Hall, list_elem_of_In, in_map_iff.
    exists (Z.to_nat d). split; [lia|]. apply in_seq. lia.
  Qed.

Lemma enc_char_dec c d : dec c = Some d -> enc_char d = c /\ digit_ok 32 d.
  Proof.
    unfold digit_ok.
    intros H.
    destruct c as [[] [] [] [] [] [] [] []]; vm_compute in H;
      try discriminate H; injection H as <-; split; (reflexivity || lia).
  Qed.

Lemma mapM_dec_enc ds :
    Forall (digit_ok 32) ds -> mapM dec (map enc_char ds) = Some ds.
  Proof.
    induction 1 as [|d ds Hd _ IH]; [done|].
    simpl. by rewrite dec_enc_char, IH.
  Qed.

Lemma mapM_dec_inv cs ds :
    mapM dec cs = Some ds -> map enc_char ds = cs /\ Forall (digit_ok 32) ds.
  Proof.
    revert ds; induction cs as [|c cs IH]; intros ds H; simpl in H.
    - injection H as <-. split; constructor.
    - destruct (dec c) as [d|] eqn:Hc; [|discriminate].
      destruct (mapM dec cs) as [ds'|]; [|discriminate].
      injection H as <-. apply enc_char_dec in Hc as [<- Hd].
      destruct (IH ds' eq_refl) as [<- Hds]. split; [done|by constructor].
  Qed.

Lemma ID_String_chars id :
    String.list_ascii_of_string (ID_String id) = map enc_char (digits 32 encodedLen (id * 16)).
  Proof. apply String.list_ascii_of_string_of_list_ascii. Qed.

Lemma ID_bound_digits : 32 ^ Z.of_nat encodedLen = ID_bound * 16.
  Proof. reflexivity. Qed.
End EncodingFacts.

Module Roundtrip.
  Import Encoding EncodingFacts.

Lemma FromString_ID_String id :
    valid_id id -> FromString (ID_String id) = (id, None).
  Proof.
    intros Hid. unfold valid_id in Hid.
    unfold FromString, ID_UnmarshalText. rewrite ID_String_chars.
    rewrite length_map, length_digits by lia. simpl negb. cbv iota.
    rewrite mapM_dec_enc by (apply digits_ok; lia).
    rewrite undigits_digits, ID_bound_digits, (Z.mod_small (id * 16)) by lia.
    rewrite Z.mod_mul, Z.div_mul by lia. reflexivity.
  Qed.

Lemma FromString_canonical s id :
    FromString s = (id, None) -> valid_id id /\ ID_String id = s.
  Proof.
    unfold FromString, ID_UnmarshalText.
    destruct (Nat.eqb_spec (length (String.list_ascii_of_string s)) encodedLen)
      as [Hlen|]; [|discriminate]. simpl negb. cbv iota.
    destruct (mapM dec (String.list_ascii_of_string s)) as [ds|] eqn:Hds; [|discriminate].
    apply mapM_dec_inv in Hds as Hinv. destruct Hinv as [Henc Hok].
    assert (Hlen' : length ds = length (String.list_ascii_of_string s))
      by (rewrite <- Henc, length_map; done).
    destruct (Z.eqb_spec (undigits 32 ds mod 16) 0) as [Hm|]; [|discriminate].
    intros [= <-].
    pose proof (undigits_bound 32 ltac:(lia) ds Hok) as Hb.
    rewrite Hlen', Hlen, ID_bound_digits in Hb.
    assert (Hmul : undigits 32 ds / 16 * 16 = undigits 32 ds)
      by (pose proof (Z.div_mod (undigits 32 ds) 16); lia).
    split; [unfold valid_id; lia|].
    unfold ID_String. rewrite Hmul, <- Hlen, <- Hlen', digits_undigits, Henc by (done || lia).
    apply String.string_of_list_ascii_of_string.
  Qed.

(** Every id [UnmarshalJSON] decodes (the nil id for [null]) is a
    96-bit value. *)
Lemma ID_UnmarshalJSON_valid raw id : ID_UnmarshalJSON raw = Some id -> valid_id id.
  Proof.
    unfold ID_UnmarshalJSON. destruct (String.eqb raw "null").
    - intros [= <-]. unfold valid_id, NilID, ID_bound. simpl. lia.
    - destruct (Nat.ltb _ _); [discriminate|]. intros H.
      apply (FromString_canonical (String.substring 1 (String.length raw - 2) raw)).
      unfold FromString. by rewrite H.
  Qed.

(** [xid.FromString] and [ID.String] are inverse: a text parses
    without error exactly when it is the [String] of a 96-bit id, and
    it parses to that id.  Every id survives printing and parsing, and
    no two texts name the same id. *)
Theorem FromString_iff s id :
    FromString s = (id, None) <-> valid_id id /\ ID_String id = s.
  Proof.
    split; [apply FromString_canonical|].
    intros [Hv <-]. by apply FromString_ID_String.
  Qed.
End Roundtrip.

(** ** [xid.New]: time, machine, process id and a 24-bit counter *)
Module Generator.
  Import Encoding.

(** The process-wide inputs of [NewWithTime]: the 3-byte [machineID],
    the process id and the [objectIDCounter] (a [uint32] incremented
    atomically by every call, starting from a random value). *)
Record Gen := mkGen { machineID : Z; pid : Z; objectIDCounter : Z }.

(** [NewWithTime t]: 4 bytes of [uint32(t.Unix())], 3 of machine id,
    2 of pid, and the 3 low bytes of the incremented counter. *)
Definition NewWithTime (t : Z) (g : Gen) : Z * Gen :=
    let i := (objectIDCounter g + 1) mod 2 ^ 32 in
    ((t mod 2 ^ 32) * 2 ^ 64 + (machineID g mod 2 ^ 24) * 2 ^ 40
       + (pid g mod 2 ^ 16) * 2 ^ 24 + i mod 2 ^ 24,
     mkGen (machineID g) (pid g) i).

(** Successive [xid.New()] calls at the clock readings [ts]. *)
Fixpoint News (ts : list Z) (g : Gen) : list Z * Gen :=
    match ts with
    | [] => ([], g)
    | t :: ts' =>
        let (id, g1) := NewWithTime t g in
        let (ids, g2) := News ts' g1 in (id :: ids, g2)
    end.

Lemma NewWithTime_low t g :
    (fst (NewWithTime t g)) mod 2 ^ 24 = (objectIDCounter g + 1) mod 2 ^ 24.
  Proof.
    simpl fst. set (i := (objectIDCounter g + 1) mod 2 ^ 32).
    transitivity ((((t mod 2 ^ 32) * 2 ^ 40 + (machineID g mod 2 ^ 24) * 2 ^ 16
      + pid g mod 2 ^ 16) * 2 ^ 24 + i mod 2 ^ 24) mod 2 ^ 24); [f_equal; ring|].
    rewrite Z_mod_add_shifted by (lia || (apply Z.mod_pos_bound; lia)).
    apply Z.mod_mod_divide. by exists (2 ^ 8).
  Qed.

Lemma NewWithTime_counter t g :
    objectIDCounter (snd (NewWithTime t g)) = (objectIDCounter g + 1) mod 2 ^ 32.
  Proof. reflexivity. Qed.

  Arguments NewWithTime : simpl never.
  #[local] Arguments Z.pow : simpl never.

Lemma News_cons t ts g :
    News (t :: ts) g =
      (fst (NewWithTime t g) :: fst (News ts (snd (NewWithTime t g))),
       snd (News ts (snd (NewWithTime t g)))).
  Proof. simpl. by destruct (NewWithTime t g), (News ts _). Qed.

Lemma News_length ts g : length (fst (News ts g)) = length ts.
  Proof.
    revert g; induction ts as [|t ts IH]; intros g; [done|].
    rewrite News_cons. simpl. by rewrite IH.
  Qed.

Lemma News_low ts g k id :
    fst (News ts g) !! k = Some id ->
    id mod 2 ^ 24 = (objectIDCounter g + Z.of_nat k + 1) mod 2 ^ 24.
  Proof.
    revert g k; induction ts as [|t ts IH]; intros g k; [done|].
    rewrite News_cons.
    pose proof (NewWithTime_low t g) as Hlow. pose proof (NewWithTime_counter t g) as Hc.
    destruct (NewWithTime t g) as [id1 g1]. simpl in Hlow, Hc |- *.
    destruct k as [|k]; simpl.
    - intros [= <-]. rewrite Hlow. f_equal; lia.
    - intros Hk. rewrite (IH _ k Hk), Hc.
      rewrite <- Z.add_assoc, <- Z.add_assoc, Z_mod_pow2_narrow by lia. f_equal; lia.
  Qed.

(** identifier uniqueness holds for any [2^24] consecutive calls of
    [xid.New], whatever the clock does: the counter bytes differ. *)
Theorem News_NoDup ts g :
    Z.of_nat (length ts) <= 2 ^ 24 -> NoDup (fst (News ts g)).
  Proof.
    intros Hb. apply NoDup_alt. intros i j x Hi Hj.
    pose proof (lookup_lt_Some _ _ _ Hi). pose proof (lookup_lt_Some _ _ _ Hj).
    rewrite News_length in *.
    apply News_low in Hi, Hj. rewrite Hi in Hj.
    destruct (Nat.lt_total i j) as [Hij|[Hij|Hij]]; [exfalso| done |exfalso].
    - pose proof (Z_mod_eq_close _ _ (2 ^ 24) ltac:(lia) Hj ltac:(lia)). lia.
    - symmetry in Hj. pose proof (Z_mod_eq_close _ _ (2 ^ 24) ltac:(lia) Hj ltac:(lia)). lia.
  Qed.

(** [New()] after [k] earlier calls, each at clock reading [t']. *)
Definition next (t' : Z) (g : Gen) : Gen := snd (NewWithTime t' g).

Lemma iter_next k t' g :
    machineID (Nat.iter k (next t') g) = machineID g /\
    pid (Nat.iter k (next t') g) = pid g /\
    objectIDCounter (Nat.iter k (next t') g) mod 2 ^ 32
      = (objectIDCounter g + Z.of_nat k) mod 2 ^ 32.
  Proof.
    induction k as [|k (Hm & Hp & Hc)]; [cbn [Nat.iter Z.of_nat]; split_and!; [done|done|]; by rewrite Z.add_0_r|].
    rewrite Nat.iter_succ.
    assert (Hn : forall g', machineID (next t' g') = machineID g' /\ pid (next t' g') = pid g'
      /\ objectIDCounter (next t' g') = (objectIDCounter g' + 1) mod 2 ^ 32) by done.
    destruct (Hn (Nat.iter k (next t') g)) as (-> & -> & ->).
    split_and!; [exact Hm|exact Hp|].
    rewrite Z.mod_mod, <- Z.add_mod_idemp_l, Hc, Z.add_mod_idemp_l by lia. f_equal; lia.
  Qed.

(** [xid.New] always returns a 96-bit value. *)
Lemma NewWithTime_valid t g : valid_id (fst (NewWithTime t g)).
  Proof.
    unfold valid_id, ID_bound, NewWithTime. cbn [fst].
    pose proof (Z.mod_pos_bound t (2 ^ 32) ltac:(lia)).
    pose proof (Z.mod_pos_bound (machineID g) (2 ^ 24) ltac:(lia)).
    pose proof (Z.mod_pos_bound (pid g) (2 ^ 16) ltac:(lia)).
    pose proof (Z.mod_pos_bound ((objectIDCounter g + 1) mod 2 ^ 32) (2 ^ 24) ltac:(lia)).
    zpow_eval. set (a := t mod _) in *. set (b := machineID g mod _) in *.
    set (d := pid g mod _) in *. set (e := (_ mod _) mod _) in *. lia.
  Qed.

(** [xid.New] never returns the nil id once the clock is past the
    epoch (modulo 2^32), and always returns a 96-bit value. *)
Lemma NewWithTime_valid_nonnil t g :
    0 < t mod 2 ^ 32 ->
    valid_id (fst (NewWithTime t g)) /\ ID_IsNil (fst (NewWithTime t g)) = false.
  Proof.
    intros Ht. unfold valid_id, ID_bound, ID_IsNil, NilID, NewWithTime. cbn [fst].
    pose proof (Z.mod_pos_bound t (2 ^ 32) ltac:(lia)).
    pose proof (Z.mod_pos_bound (machineID g) (2 ^ 24) ltac:(lia)).
    pose proof (Z.mod_pos_bound (pid g) (2 ^ 16) ltac:(lia)).
    pose proof (Z.mod_pos_bound ((objectIDCounter g + 1) mod 2 ^ 32) (2 ^ 24) ltac:(lia)).
    zpow_eval. rewrite Z.eqb_neq.
    set (a := t mod _) in *. set (b := machineID g mod _) in *.
    set (d := pid g mod _) in *. set (e := (_ mod _) mod _) in *.
    split; [split|]; lia.
  Qed.

(** the uniqueness window is exact: [2^24] calls after a call made
    in the same second, [xid.New] returns the same id again. *)
Theorem NewWithTime_wraps t t' g :
    fst (NewWithTime t (Nat.iter (Z.to_nat (2 ^ 24)) (next t') g)) = fst (NewWithTime t g).
  Proof.
    destruct (iter_next (Z.to_nat (2 ^ 24)) t' g) as (Hm & Hp & Hc).
    set (g' := Nat.iter _ _ g) in *. clearbody g'.
    rewrite Z2Nat.id in Hc by lia.
    unfold NewWithTime. cbn [fst]. rewrite Hm, Hp. f_equal.
    rewrite !(Z_mod_mod_pow2 _ 24 32) by lia.
    rewrite <- Z.add_mod_idemp_l, <- (Z_mod_mod_pow2 (objectIDCounter g') 24 32), Hc by lia.
    rewrite Z_mod_mod_pow2, Z.add_mod_idemp_l by lia.
    replace (objectIDCounter g + 2 ^ 24 + 1) with ((objectIDCounter g + 1) + 1 * 2 ^ 24) by ring.
    apply Z.mod_add. lia.
  Qed.

(** [k] calls at one clock reading leave the generator [k] steps on. *)
Lemma News_repeat_gen k t g : snd (News (repeat t k) g) = Nat.iter k (next t) g.
  Proof.
    revert g; induction k as [|k IH]; intros g; [done|].
    cbn [repeat]. rewrite News_cons, Nat.iter_succ_r. apply IH.
  Qed.

Lemma News_app ts1 ts2 g :
    fst (News (ts1 ++ ts2) g) = fst (News ts1 g) ++ fst (News ts2 (snd (News ts1 g))).
  Proof.
    revert g; induction ts1 as [|t ts IH]; intros g; [done|].
    rewrite <- app_comm_cons, !News_cons. simpl. by rewrite IH.
  Qed.
End Generator.
