(* ===== verification/GoJson.v ===== *)
(** * JSON values as Go's [encoding/json] decodes them

    The handlers decode request bodies with [json.NewDecoder(..).Decode]
    into three kinds of targets: a struct behind a pointer (POST), an
    [interface{}] holding such a pointer (PUT) and a
    [map[string]interface{}] (PATCH).  This file holds what the library
    does for those targets on the value it reads: JSON documents as an
    AST ([json]), the conversion of number literals to [float64] and to
    64-bit [int], field-name matching, and the decoding of a merge-patch
    document into [crud.PartialUpdateData].  The JSON text syntax (the
    scanner) is not modelled: a request body is either the first JSON
    value of the stream or malformed.  Number literals are the integer
    ones; strings are taken without escape sequences. *)

From stdpp Require Import base gmap strings list.
From Stdlib Require Import ZArith Lia Ascii DecimalString.
From Stdlib Require String.
From S2P Require Import Prelude.

Open Scope Z_scope.

#[local] Set Warnings "-register-all".
Inductive json : Type :=
| JNull
| JBool (b : bool)
| JNum (n : Z)
| JStr (s : string)
| JArr (l : list json)
| JObj (kvs : list (string * json)).

Module Text.
Definition dquote : ascii := "034"%char.
Definition quote (s : string) : string :=
    String.String dquote (String.append s (String.String dquote String.EmptyString)).
Definition Z_to_dec (z : Z) : string := NilZero.string_of_int (Z.to_int z).

(** The compact text of a value: what a custom [UnmarshalJSON] method
    receives for a body written without insignificant white space. *)
Fixpoint json_raw (j : json) : string :=
    match j with
    | JNull => "null"
    | JBool true => "true"
    | JBool false => "false"
    | JNum n => Z_to_dec n
    | JStr s => quote s
    | JArr l => String.append "[" (String.append (String.concat "," (map json_raw l)) "]")
    | JObj kvs =>
        String.append "{" (String.append
          (String.concat "," (map (fun kv => String.append (quote kv.1)
                                    (String.append ":" (json_raw kv.2))) kvs)) "}")
    end.
End Text.

(** ** Numbers *)
Module Numbers.
(** [float64] rounding of an integer literal (round to nearest, ties
    to even, 53 significant bits): what [strconv.ParseFloat] computes. *)
Definition f64_round (z : Z) : Z :=
    let a := Z.abs z in
    if a <? 2 ^ 53 then z else
    let k := Z.log2 a - 52 in
    let q := a / 2 ^ k in
    let r := a mod 2 ^ k in
    let half := 2 ^ (k - 1) in
    let q' := if (half <? r) || ((r =? half) && Z.odd q) then q + 1 else q in
    Z.sgn z * (q' * 2 ^ k).

(** [strconv.ParseFloat(s, 64)]: a literal that rounds to infinity is a
    range error, which [encoding/json] reports as an [UnmarshalTypeError]. *)
Definition ParseFloat (z : Z) : option Z :=
    let f := f64_round z in
    if 2 ^ 1024 <=? Z.abs f then None else Some f.

(** [strconv.ParseInt(s, 10, 64)] for the literal of an [int] field. *)
Definition ParseInt64 (z : Z) : option Z :=
    if (- 2 ^ 63 <=? z) && (z <? 2 ^ 63) then Some z else None.

(** The Go conversion [int(f)] of an integral [float64] on amd64
    ([CVTTSD2SQ]): out of range gives the "integer indefinite" value
    [0x8000000000000000]. *)
Definition f64_to_int (f : Z) : Z :=
    if (- 2 ^ 63 <=? f) && (f <? 2 ^ 63) then f else - 2 ^ 63.
End Numbers.

(** ** Decoding into [interface{}] values and maps *)
Module Decode.
  Import Numbers.

(** [json.Unmarshal] into an [interface{}]: numbers become [float64]
    (here the rounded integer kept as [JNum]); every number of the
    document must be in range. *)
Fixpoint decode_any (j : json) : option json :=
    match j with
    | JNum n => JNum <$> ParseFloat n
    | JArr l => JArr <$> mapM decode_any l
    | JObj kvs =>
        JObj <$> mapM (fun kv => (fun v => (kv.1, v)) <$> decode_any kv.2) kvs
    | _ => Some j
    end.

(** Inserting the members in order: a repeated key keeps its last value. *)
Definition map_of_members (kvs : list (string * json)) : gmap string json :=
    foldl (fun m kv => <[kv.1 := kv.2]> m) ∅ kvs.

(** [json.Decode(&updates)] with [updates] a non-nil
    [map[string]interface{}]: an object fills the map, [null] sets it to
    the nil map (which reads as empty), anything else is a type error. *)
Definition decode_map (j : json) : option (gmap string json) :=
    match j with
    | JNull => Some ∅
    | JObj kvs =>
        kvs' ← mapM (fun kv => (fun v => (kv.1, v)) <$> decode_any kv.2) kvs;
        Some (map_of_members kvs')
    | _ => None
    end.

(** Struct field lookup by key: exact or ASCII case-insensitive match
    (Go's [foldName]; the special Unicode foldings are not modelled). *)
Definition lower (c : ascii) : ascii :=
    let n := N_of_ascii c in
    if ((65 <=? n) && (n <=? 90))%N then ascii_of_N (n + 32) else c.
Definition fold_name (s : string) : string :=
    String.string_of_list_ascii (map lower (String.list_ascii_of_string s)).
Definition field_matches (tag key : string) : bool :=
    String.eqb (fold_name key) (fold_name tag).
End Decode.

Module NumberFacts.
  Import Numbers.

(** an integer literal of magnitude at most [2^53] is read into a
    [float64] exactly, and converts back to the same Go [int]. *)
Theorem f64_exact z :
    Z.abs z <= 2 ^ 53 -> ParseFloat z = Some z /\ f64_to_int (f64_round z) = z.
  Proof.
    intros Hz.
    assert (Hr : f64_round z = z).
    { unfold f64_round. destruct (Z.ltb_spec (Z.abs z) (2 ^ 53)) as [|Hge]; [done|].
      assert (Z.abs z = 2 ^ 53) as Ha by lia.
      destruct (Z.abs_spec z) as [[_ Hz']|[_ Hz']]; rewrite Hz' in Ha.
      - rewrite Ha. subst z. reflexivity.
      - assert (z = - 2 ^ 53) as -> by lia. reflexivity. }
    unfold ParseFloat, f64_to_int. rewrite Hr.
    destruct (Z.leb_spec (2 ^ 1024) (Z.abs z)); [lia|].
    split; [done|]. rewrite Z.abs_le in Hz.
    destruct (Z.leb_spec (- 2 ^ 63) z), (Z.ltb_spec z (2 ^ 63)); simpl; lia.
  Qed.

Lemma f64_round_beyond : f64_round (2 ^ 53 + 1) = 2 ^ 53.
  Proof. reflexivity. Qed.
End NumberFacts.
