(* ===== verification/Http.v ===== *)
(** * The HTTP surface: requests, responses and [gohttperror]

    What a handler reads from an [*http.Request] (the [{ID}] route
    parameter that chi extracts, the raw query string, the body) and what
    it writes to the [http.ResponseWriter] (a status code and a body), with
    the error payloads of the [github.com/induzo/gohttperror] package that
    [render.Render] writes.  The library's status texts are not modelled;
    an error response keeps its status code and the text of the wrapped
    Go error. *)

From stdpp Require Import base gmap strings list.
From Stdlib Require Import ZArith.
From S2P Require Import Prelude GoJson.

Open Scope Z_scope.

Module Status.
Definition StatusOK : Z := 200.
Definition StatusCreated : Z := 201.
Definition StatusAccepted : Z := 202.
Definition StatusNoContent : Z := 204.
Definition StatusBadRequest : Z := 400.
Definition StatusForbidden : Z := 403.
Definition StatusNotFound : Z := 404.
Definition StatusInternalServerError : Z := 500.
End Status.
Import Status.

(** [*gohttperror.ErrResponse]: the status it renders with and the text
    of the wrapped error ([None] when it wraps none). *)
Record ErrResponse := mkErrResponse {
  HTTPStatusCode : Z;
  ErrorText : option string
}.

Module gohttperror.
Definition ErrBadRequest (err : string) : ErrResponse := mkErrResponse StatusBadRequest (Some err).
Definition ErrInternal (err : string) : ErrResponse := mkErrResponse StatusInternalServerError (Some err).
Definition ErrForbidden (err : string) : ErrResponse := mkErrResponse StatusForbidden (Some err).
Definition ErrNotFound : ErrResponse := mkErrResponse StatusNotFound None.
End gohttperror.

(** The part of an [*http.Request] the handlers read.  [ReqBody] is the
    first JSON value of the body, [None] when the body is empty or does
    not start with a well-formed value ([Decode] fails on it). *)
Record Request := mkRequest {
  URLParamID : string;
  RawQuery : string;
  ReqBody : option json
}.

(** The bytes the [io.TeeReader] copied while the decoder read the body;
    the manager receives them as its [io.Reader] argument. *)
Definition payload_of (r : Request) : string :=
  match ReqBody r with Some j => Text.json_raw j | None => "" end.

Inductive RespBody :=
| NoBody
| JSONBody (j : json)
| ErrBody (e : ErrResponse).

Record Response := mkResponse { StatusCode : Z; Body : RespBody }.

(** [render.Render(w, r, errResponse)]: the status of the error and its
    JSON payload. *)
Definition render_error (e : ErrResponse) : Response :=
  mkResponse (HTTPStatusCode e) (ErrBody e).
