(* ===== verification/Crud.v ===== *)
(** * Package [crud]: the manager interface [MgrI] and its data

    [src/mgr.go] declares [MgrI], the interface every entity manager
    implements; [src/updates.go] declares [PartialUpdateData]; the type
    [ListModifiers] (a [map[string][]string], from a file of the package
    that is not in the sources) is taken from the spec and from its use
    in [src/rest/listmodifiers.go].

    Go's [interface{}] is one universal type: the manager's entities, the
    values its methods return and the nil interface all live in [V].  A
    manager's state [S] is everything its methods read or write (its
    map, the heap of entity objects, the id generator); each method is an
    action of the monad [M S] of the prelude, so it may panic.  The
    [context.Context] arguments are not modelled: no manager of the
    repository reads them. *)

From stdpp Require Import base gmap strings list.
From Stdlib Require Import ZArith.
From S2P Require Import Prelude GoJson Http.

Open Scope Z_scope.

(** [crud.ListModifiers]: query-parameter name to its values, in order. *)
Abbreviation ListModifiers := (gmap string (list string)).

(** [crud.PartialUpdateData = map[string]interface{}], the decoded
    merge-patch document (its values as decoded by [Decode.decode_any]). *)
Abbreviation PartialUpdateData := (gmap string json).

(** [crud.MgrI], over the manager's state [S], the [interface{}] values
    [V] and its error values [Er].  Identifiers are [xid.ID] values,
    i.e. integers (see [Xid.v]).  [ErrorString] is the [Error()] method of
    the manager's errors. *)
Class MgrI (S V Er : Type) := {
  NewEmptyEntity : M S V;
  Create : V -> string -> M S (V * option Er);
  Delete : Z -> M S (option Er);
  Get : Z -> M S (V * option Er);
  GetList : ListModifiers -> M S (V * option Er);
  Update : Z -> V -> string -> M S (V * option Er);
  PartialUpdate : Z -> PartialUpdateData -> string -> M S (option Er);
  MapErrorToHTTPError : Er -> ErrResponse;
  ErrorString : Er -> string
}.

(** What [encoding/json] does, by reflection, with the [interface{}]
    values a manager hands to the handlers: [DecodeInto j v] is
    [json.Decode(v)] writing the value [j] through the pointer held by [v]
    ([None]: the decoder reports an error), [Marshal] is the encoding
    [render.DefaultResponder] writes.  [NilValue] is the nil interface. *)
Class JSONValue (S V : Type) := {
  NilValue : V;
  DecodeInto : json -> V -> S -> option S;
  Marshal : S -> V -> json
}.

(** The text of the decoder's errors, which the handlers wrap in a
    [400] response; the library's message itself is not modelled. *)
Definition json_decode_error : string := "json: cannot decode request body".
