(* ===== verification/ParseId.v ===== *)
(** * [src/rest/parseid.go]: the [{ID}] path parameter

    [parseIDFromRequest] reads chi's [ID] route parameter and parses it
    with [xid.FromString]; it rejects a parse error and the nil id.
    [GetTestContextWithID] is the test helper that puts [ID.String()] in
    the route parameters.  The theorems characterise the accepted
    parameters exactly: the canonical text of a non-nil 96-bit id. *)

From stdpp Require Import base gmap strings list.
From Stdlib Require Import ZArith Lia.
From Stdlib Require String.
From S2P Require Import Prelude Xid Http.

Open Scope Z_scope.
Import Xid.Encoding.

(** [fmt]'s [%v] of an [error] value, [<nil>] for the nil error. *)
Definition fmt_error (e : option string) : string :=
  match e with Some s => s | None => "<nil>" end.

(** [parseIDFromRequest]: [inl ID], or [inr] the text of the error. *)
Definition parseIDFromRequest (r : Request) : Z + string :=
  let idStr := URLParamID r in
  let '(ID, errConv) := FromString idStr in
  if ID_IsNil ID || bool_decide (is_Some errConv) then
    inr (String.append "parseIDFromRequest(" (String.append idStr
          (String.append "): " (fmt_error errConv))))
  else inl ID.

(** [GetTestContextWithID] followed by [req.WithContext]: the request's
    route parameter [ID] becomes [ID.String()]. *)
Definition GetTestContextWithID (r : Request) (ID : Z) : Request :=
  mkRequest (ID_String ID) (RawQuery r) (ReqBody r).

Module ParseIdFacts.
  Import Xid.Roundtrip.

(** The id [parseIDFromRequest] returns is non-nil, 96 bits wide, and
    the parameter is its canonical text. *)
Lemma parseIDFromRequest_sound r id :
    parseIDFromRequest r = inl id ->
    valid_id id /\ ID_IsNil id = false /\ ID_String id = URLParamID r.
  Proof.
    unfold parseIDFromRequest. destruct (FromString (URLParamID r)) as [ID err] eqn:Hf.
    destruct (ID_IsNil ID) eqn:Hnil; [discriminate|].
    destruct err as [e|]; [discriminate|]. intros [= <-].
    apply FromString_canonical in Hf as [Hv Hs]. done.
  Qed.

(** The canonical text of a non-nil id parses to it. *)
Lemma parseIDFromRequest_complete r id :
    valid_id id -> ID_IsNil id = false -> ID_String id = URLParamID r ->
    parseIDFromRequest r = inl id.
  Proof.
    intros Hv Hnil Hs. unfold parseIDFromRequest.
    rewrite <- Hs, FromString_ID_String, Hnil by done. reflexivity.
  Qed.

(** C15: [parseIDFromRequest] accepts a route parameter exactly when it
    is the canonical text (20 lower-case base32hex characters) of a
    non-nil 96-bit id, and then returns that id; every other parameter,
    the nil id's text and upper-case spellings included, is an error. *)
Theorem parseIDFromRequest_spec r id :
    parseIDFromRequest r = inl id <->
    valid_id id /\ ID_IsNil id = false /\ ID_String id = URLParamID r.
  Proof.
    split; [apply parseIDFromRequest_sound|].
    intros (Hv & Hn & Hs). by apply parseIDFromRequest_complete.
  Qed.

(** The test helper builds a request whose parameter parses back to
    the id it was given, for every non-nil id. *)
Lemma GetTestContextWithID_parse r id :
    valid_id id -> ID_IsNil id = false ->
    parseIDFromRequest (GetTestContextWithID r id) = inl id.
  Proof. intros Hv Hn. by apply parseIDFromRequest_complete. Qed.

(** The nil id [xid.ID{}] of the "bad id" test cases is rejected. *)
Lemma GetTestContextWithID_nil r :
    parseIDFromRequest (GetTestContextWithID r NilID) =
      inr "parseIDFromRequest(00000000000000000000): <nil>".
  Proof. vm_compute. reflexivity. Qed.

Lemma parseIDFromRequest_inl_valid r id :
    parseIDFromRequest r = inl id -> valid_id id /\ ID_IsNil id = false.
  Proof. intros H. apply parseIDFromRequest_sound in H. tauto. Qed.
End ParseIdFacts.
