(* ===== verification/ListModifiers.v ===== *)
(** * [src/rest/listmodifiers.go]: query string to [crud.ListModifiers]

    [ListModifiersFromURL] copies [u.Query()] into a fresh
    [crud.ListModifiers].  [u.Query()] is [net/url]'s [ParseQuery] of the
    raw query with its error dropped; it is modelled here from the
    library's code: split on [&], skip segments with a [;] or an empty
    key, cut each at the first [=], unescape both sides ([%XX] and [+]),
    skip a segment that does not unescape, append the value to the key's
    list.  The theorems show that the copy loop is the identity on
    [u.Query()], and that the manager receives, for each key, exactly the
    values given for it, in order.  [ListModifiersTests] runs the table of
    [src/rest/listmodifiers_test.go]. *)

From stdpp Require Import base gmap strings list.
From Stdlib Require Import ZArith Lia Ascii.
From Stdlib Require String.
From S2P Require Import Prelude Http Crud.

Module Url.
Definition ishex (c : ascii) : bool :=
    let n := N_of_ascii c in
    ((48 <=? n) && (n <=? 57) || (65 <=? n) && (n <=? 70) || (97 <=? n) && (n <=? 102))%N.

Definition unhex (c : ascii) : N :=
    let n := N_of_ascii c in
    if (n <=? 57)%N then (n - 48)%N else if (n <=? 70)%N then (n - 55)%N else (n - 87)%N.

(** [unescape(s, encodeQueryComponent)]: [None] is an [EscapeError]. *)
Fixpoint unescape (cs : list ascii) : option (list ascii) :=
    match cs with
    | [] => Some []
    | c :: rest =>
        if Ascii.eqb c "%" then
          match rest with
          | a :: b :: rest' =>
              if ishex a && ishex b
              then (fun u => ascii_of_N (unhex a * 16 + unhex b) :: u) <$> unescape rest'
              else None
          | _ => None
          end
        else if Ascii.eqb c "+" then (fun u => " "%char :: u) <$> unescape rest
        else (fun u => c :: u) <$> unescape rest
    end.

(** [strings.Cut(s, sep)] on characters: before, after, found. *)
Fixpoint cut (sep : ascii) (cs : list ascii) : list ascii * list ascii :=
    match cs with
    | [] => ([], [])
    | c :: rest =>
        if Ascii.eqb c sep then ([], rest)
        else let '(before, after) := cut sep rest in (c :: before, after)
    end.

(** The segments the [for query != ""] loop cuts at each [&].  An
    empty last segment, which the loop never reaches, is skipped below
    like every empty key. *)
Fixpoint segments (cs : list ascii) (cur : list ascii) : list (list ascii) :=
    match cs with
    | [] => [rev cur]
    | c :: rest => if Ascii.eqb c "&" then rev cur :: segments rest [] else segments rest (c :: cur)
    end.

(** One iteration of the loop body: the pair it appends, if any. *)
Definition parse_segment (key : list ascii) : option (string * string) :=
    if existsb (fun c => Ascii.eqb c ";") key then None else
    if bool_decide (key = []) then None else
    let '(k, v) := cut "=" key in
    k' ← unescape k; v' ← unescape v;
    Some (String.string_of_list_ascii k', String.string_of_list_ascii v').

(** The pairs [parseQuery] appends, in order. *)
Definition query_pairs (query : string) : list (string * string) :=
    omap parse_segment (segments (String.list_ascii_of_string query) []).

(** [m[key] = append(m[key], value)] over the pairs. *)
Definition add_value (m : gmap string (list string)) (kv : string * string)
      : gmap string (list string) :=
    <[kv.1 := default [] (m !! kv.1) ++ [kv.2]]> m.

(** [url.ParseQuery] with its error dropped, as [u.Query()] does. *)
Definition Query (query : string) : gmap string (list string) :=
    foldl add_value ∅ (query_pairs query).
End Url.

(** [ListModifiersFromURL]: [make] then copy every entry of [u.Query()]. *)
Definition ListModifiersFromURL (r : Request) : ListModifiers :=
  map_fold (fun k v (rf : ListModifiers) => <[k := v]> rf) ∅ (Url.Query (RawQuery r)).

Module ListModifiersFacts.
  Import Url.

(** The values given for [k], in the order of the query. *)
Definition values_of (k : string) (pairs : list (string * string)) : list string :=
    map snd (filter (fun kv => kv.1 = k) pairs).

Lemma foldl_add_value_lookup pairs m k :
    foldl add_value m pairs !! k =
      match values_of k pairs with
      | [] => m !! k
      | vs => Some (default [] (m !! k) ++ vs)
      end.
  Proof.
    unfold values_of. revert m; induction pairs as [|[k' v] pairs IH]; intros m; [done|].
    simpl. rewrite IH, filter_cons. simpl. case_decide as Hk; simpl.
    - subst. unfold add_value. simpl. rewrite lookup_insert_eq. simpl.
      destruct (map snd _); [done|]. by rewrite <- app_assoc.
    - unfold add_value. simpl. by rewrite lookup_insert_ne.
  Qed.

(** C34: the list modifiers handed to [GetList] hold, for each key of the
    query, exactly the values given for it, in the order given; a key
    with no (well-formed) value is absent. *)
Theorem ListModifiersFromURL_values r k :
    ListModifiersFromURL r !! k =
      match values_of k (query_pairs (RawQuery r)) with
      | [] => None
      | vs => Some vs
      end.
  Proof.
    unfold ListModifiersFromURL. rewrite map_fold_copy. unfold Query.
    rewrite foldl_add_value_lookup, lookup_empty. by destruct (values_of _ _).
  Qed.

(** The copy loop of [ListModifiersFromURL] ([make], then
    [rf[k] = v] for every entry) is the identity: the manager receives
    [u.Query()] itself. *)
Lemma ListModifiersFromURL_Query r : ListModifiersFromURL r = Query (RawQuery r).
  Proof. apply map_fold_copy. Qed.

End ListModifiersFacts.

(** ** [src/rest/listmodifiers_test.go] *)
Module ListModifiersTests.

(** [url.Parse(u).RawQuery]: what follows the first [?], up to a [#]. *)
Definition url_RawQuery (u : string) : string :=
  String.string_of_list_ascii
    (Url.cut "#" (Url.cut "?" (String.list_ascii_of_string u)).2).1.

(** One row of the test table. *)
Record LMTest := mkLMTest { lm_name : string; lm_url : string; lm_want : ListModifiers }.

Definition TestListModifiersFromURL_tests : list LMTest := [
  mkLMTest "different querystring params" "http://test.com?premier=1"
    {[ "premier" := ["1"] ]};
  mkLMTest "same querystring param name" "http://test.com?orderby=test%20ASC&orderby=pol%20DESC"
    {[ "orderby" := ["test ASC"; "pol DESC"] ]} ].

(** The body of [t.Run]: [reflect.DeepEqual] of the two maps. *)
Definition run_LM (tt : LMTest) : bool :=
  bool_decide (ListModifiersFromURL (mkRequest "" (url_RawQuery (lm_url tt)) None) = lm_want tt).

(** Both cases of [TestListModifiersFromURL] pass. *)
Lemma TestListModifiersFromURL_pass : forallb run_LM TestListModifiersFromURL_tests = true.
  Proof. vm_compute. reflexivity. Qed.
End ListModifiersTests.
