(* ===== verification/Mock.v ===== *)
(** * [src/mock]: the reference in-memory manager

    [mock.Mgr] keeps a Go map from [xid.ID] to [*Entity] and six flags
    that inject a failure into one method each.  Because the map holds
    pointers, the model has a heap: [heap] maps addresses to [Entity]
    objects, [EntityList] maps ids to addresses, so that two ids may share
    one object (the handler tests call [Create] repeatedly with the same
    pointer) and [PartialUpdate] writes through the pointer.  The world
    also holds the [xid] generator and the clock [time.Now()] reads.

    [Mgr] is an instance of [Crud.MgrI]; [encoding/json]'s reflection on
    [*Entity] (the [json] tags of [src/mock/entity.go]) is the instance of
    [Crud.JSONValue].  [src/rest/mock_test.go] declares [mgrMock] and
    [entityMock], line for line the same code under other names; this file
    models both. *)

From stdpp Require Import base gmap strings list.
From Stdlib Require Import ZArith Lia.
From Stdlib Require String.
From S2P Require Import Prelude Xid GoJson Http Crud.

Open Scope Z_scope.
Import Xid.Encoding Xid.Generator.

(** ** [src/mock/entity.go] *)
Module Entity.
Record Entity := mkEntity { ID : Z; StatusID : Z }.

Definition zero : Entity := mkEntity 0 0.

(** One member of a JSON object decoded into the struct: the [json]
    tags [id] ([xid.ID]'s [UnmarshalJSON] on the raw text) and
    [status_id] (an [int]: [null] leaves it, an integer literal must fit
    64 bits, any other value is a type error); other keys are ignored. *)
Definition decode_member (e : Entity) (kv : string * json) : option Entity :=
    if Decode.field_matches "id" kv.1 then
      (fun id => mkEntity id (StatusID e)) <$> ID_UnmarshalJSON (Text.json_raw kv.2)
    else if Decode.field_matches "status_id" kv.1 then
      match kv.2 with
      | JNull => Some e
      | JNum n => (fun n => mkEntity (ID e) n) <$> Numbers.ParseInt64 n
      | _ => None
      end
    else Some e.

(** [json.Decode] into an existing [Entity]: [null] is a no-op, an
    object is decoded member by member, any other value is an error. *)
Definition decode (j : json) (e : Entity) : option Entity :=
    match j with
    | JNull => Some e
    | JObj kvs => fold_opt decode_member e kvs
    | _ => None
    end.

(** [json.Marshal]: [ID.MarshalJSON] writes [null] for the nil id. *)
Definition to_json (e : Entity) : json :=
    JObj [("id", if ID_IsNil (ID e) then JNull else JStr (ID_String (ID e)));
          ("status_id", JNum (StatusID e))].
End Entity.

(** ** [src/mock/manager.go] *)
Module Manager.
  Import Entity.

(** The package-level sentinel errors and the [fmt.Errorf] values
    (each a distinct error, never equal to a sentinel). *)
Inductive MockErr :=
  | ErrNotFound
  | ErrBadRequest
  | ErrForbidden
  | Errorf (msg : string).

Definition Error (e : MockErr) : string :=
    match e with
    | ErrNotFound => "entity not found"
    | ErrBadRequest => "bad request"
    | ErrForbidden => "forbidden"
    | Errorf msg => msg
    end.

(** The [interface{}] values the manager and the handlers exchange. *)
Inductive Val :=
  | VNil                  (* the nil interface *)
  | VEnt (p : Z)          (* a [*Entity], by its address *)
  | VList (ps : list Z)   (* a [[]*Entity] *)
  | VErr (e : MockErr).   (* an [error] value returned as a result *)

(** [mock.Mgr]. *)
Record Mgr := mkMgr {
    WantCreateError : bool;
    WantDeleteError : bool;
    WantGetError : bool;
    WantGetListError : bool;
    WantUpdateError : bool;
    WantPartialUpdateError : bool;
    EntityList : gmap Z Z
  }.

Definition set_EntityList (l : gmap Z Z) (m : Mgr) : Mgr :=
    mkMgr (WantCreateError m) (WantDeleteError m) (WantGetError m)
      (WantGetListError m) (WantUpdateError m) (WantPartialUpdateError m) l.

(** The manager together with the memory its pointers refer to. *)
Record World := mkWorld {
    mgr : Mgr;
    heap : gmap Z Entity;
    next_ptr : Z;
    gen : Gen;
    clock : Z
  }.

Definition set_mgr (m : Mgr) (w : World) : World :=
    mkWorld m (heap w) (next_ptr w) (gen w) (clock w).
Definition set_heap (h : gmap Z Entity) (w : World) : World :=
    mkWorld (mgr w) h (next_ptr w) (gen w) (clock w).
Definition set_gen (g : Gen) (w : World) : World :=
    mkWorld (mgr w) (heap w) (next_ptr w) g (clock w).
Definition map_EntityList (f : gmap Z Z -> gmap Z Z) (w : World) : World :=
    set_mgr (set_EntityList (f (EntityList (mgr w))) (mgr w)) w.

Definition lookup_id (id : Z) (w : World) : option Z := EntityList (mgr w) !! id.

(** [NewMgr]. *)
Definition NewMgr : Mgr := mkMgr false false false false false false ∅.

(** [NewEmptyEntity]: [&Entity{}], a fresh object. *)
Definition NewEmptyEntity : M World Val := fun w =>
    let p := next_ptr w in
    Normal (VEnt p) (mkWorld (mgr w) (<[p := zero]> (heap w)) (p + 1) (gen w) (clock w)).

(** [ec.ID = xid.New()] then [m.EntityList[ec.ID] = ec]. *)
Definition store_new (p : Z) (ec : Entity) : M World Z := fun w =>
    let (id, g') := NewWithTime (clock w) (gen w) in
    Normal id (map_EntityList <[id := p]>
                 (set_gen g' (set_heap (<[p := mkEntity id (StatusID ec)]> (heap w)) w))).

(** Dereferencing a pointer; the model never holds a dangling one. *)
Definition deref (p : Z) : M World Entity := fun w =>
    match heap w !! p with
    | Some e => Normal e w
    | None => Panicked "runtime error: invalid memory address or nil pointer dereference" w
    end.

(** [Create]. *)
Definition Create (e : Val) (pl : string) : M World (Val * option MockErr) :=
    w ← get;
    if WantCreateError (mgr w) then mret (VNil, Some (Errorf "Error create")) else
    match e with
    | VEnt p => ec ← deref p; _ ← store_new p ec; mret (VEnt p, None)
    | _ => mret (VNil, Some (Errorf "Mgr Create: impossible to cast e to Entity"))
    end.

(** [Delete]. *)
Definition Delete (id : Z) : M World (option MockErr) :=
    w ← get;
    if WantDeleteError (mgr w) then mret (Some (Errorf "Error delete")) else
    match lookup_id id w with
    | None => mret (Some ErrNotFound)
    | Some _ => _ ← modify (map_EntityList (delete id)); mret None
    end.

(** [Get]. *)
Definition Get (id : Z) : M World (Val * option MockErr) :=
    w ← get;
    if WantGetError (mgr w) then mret (VNil, Some (Errorf "Error get")) else
    match lookup_id id w with
    | Some p => mret (VEnt p, None)
    | None => mret (VNil, Some ErrNotFound)
    end.

(** [GetList]: the modifiers are ignored; the values of the map in its
    iteration order (Go leaves the order unspecified: the model uses
    stdpp's, and the theorems hold up to permutation). *)
Definition GetList (lm : ListModifiers) : M World (Val * option MockErr) :=
    w ← get;
    if WantGetListError (mgr w) then mret (VNil, Some (Errorf "Error getlist")) else
    if bool_decide (size (EntityList (mgr w)) = 0%nat) then mret (VNil, Some ErrNotFound) else
    mret (VList (map snd (map_to_list (EntityList (mgr w)))), None).

(** [Update].  A value that is not a [*Entity] makes it return the
    error value as the result and a nil error, as the code does. *)
Definition Update (id : Z) (newE : Val) (pl : string) : M World (Val * option MockErr) :=
    w ← get;
    if WantUpdateError (mgr w) then mret (VNil, Some (Errorf "Error update")) else
    match lookup_id id w with
    | None => mret (VNil, Some ErrNotFound)
    | Some _ =>
        match newE with
        | VEnt p => _ ← modify (map_EntityList <[id := p]>); mret (VEnt p, None)
        | _ => mret (VErr ErrBadRequest, None)
        end
    end.

(** The dynamic type [%T] of a decoded JSON value in a panic message. *)
Definition go_type_name (j : json) : string :=
    match j with
    | JNull => "nil" | JBool _ => "bool" | JNum _ => "float64" | JStr _ => "string"
    | JArr _ => "[]interface {}" | JObj _ => "map[string]interface {}"
    end.

(** [pud["status_id"].(float64)]: a failed type assertion panics. *)
Definition assert_float64 (v : json) : M World Z :=
    match v with
    | JNum f => mret f
    | _ => panic (String.append "interface conversion: interface {} is "
                   (String.append (go_type_name v) ", not float64"))
    end.

(** [PartialUpdate]: the required key is checked before the id; the
    assignment evaluates the type assertion before it writes. *)
Definition PartialUpdate (id : Z) (pud : PartialUpdateData) (pl : string)
      : M World (option MockErr) :=
    w ← get;
    if WantPartialUpdateError (mgr w) then mret (Some (Errorf "Error partial update")) else
    match pud !! "status_id" with
    | None => mret (Some ErrBadRequest)
    | Some v =>
        match lookup_id id w with
        | None => mret (Some ErrNotFound)
        | Some p =>
            f ← assert_float64 v;
            ent ← deref p;
            _ ← modify (fun w => set_heap (<[p := mkEntity (ID ent) (Numbers.f64_to_int f)]> (heap w)) w);
            mret None
        end
    end.

(** [MapErrorToHTTPError]: sentinels compared by identity. *)
Definition MapErrorToHTTPError (e : MockErr) : ErrResponse :=
    match e with
    | ErrNotFound => gohttperror.ErrNotFound
    | ErrForbidden => gohttperror.ErrForbidden (Error e)
    | _ => gohttperror.ErrInternal (Error e)
    end.
End Manager.

(** ** The mock as an implementation of the interfaces *)
Module Instances.
  Import Entity Manager.

(** [json.Decode(v)] for the values the mock hands out: through a
    [*Entity] into the object; [json.Decode(nil)] is an
    [InvalidUnmarshalError]. *)
Definition decode_into (j : json) (v : Val) (w : World) : option World :=
    match v with
    | VEnt p =>
        match heap w !! p with
        | Some e => (fun e' => set_heap (<[p := e']> (heap w)) w) <$> Entity.decode j e
        | None => None
        end
    | _ => None
    end.

Definition marshal_ptr (w : World) (p : Z) : json :=
    match heap w !! p with Some e => to_json e | None => JNull end.

(** [json.Marshal]; an [*errors.errorString] has no exported field. *)
Definition marshal (w : World) (v : Val) : json :=
    match v with
    | VNil => JNull
    | VEnt p => marshal_ptr w p
    | VList ps => JArr (map (marshal_ptr w) ps)
    | VErr _ => JObj []
    end.

#[export] Instance mock_MgrI : MgrI World Val MockErr := {|
    Crud.NewEmptyEntity := Manager.NewEmptyEntity;
    Crud.Create := Manager.Create;
    Crud.Delete := Manager.Delete;
    Crud.Get := Manager.Get;
    Crud.GetList := Manager.GetList;
    Crud.Update := Manager.Update;
    Crud.PartialUpdate := Manager.PartialUpdate;
    Crud.MapErrorToHTTPError := Manager.MapErrorToHTTPError;
    Crud.ErrorString := Manager.Error
  |}.

#[export] Instance mock_JSONValue : JSONValue World Val := {|
    NilValue := VNil;
    DecodeInto := decode_into;
    Marshal := marshal
  |}.
End Instances.
