(* ===== verification/Handler.v ===== *)
(** * [src/rest/handler.go]: the six HTTP handlers

    Each constructor closes over a manager [cmgr] and returns a
    [func(w, r)].  Here a handler is a function from the request to an
    action of the manager's monad producing the response, written
    against the interfaces [MgrI] and [JSONValue] of [Crud.v] so that the
    theorems below hold for every manager.

    Each handler's [defer] calls [log.Fatalf] when [render.Render] fails
    to write an error response; the model assumes writes succeed.  A
    panic of the manager propagates out of the handler ([Panicked]); the
    HTTP server recovers it per connection ([serve]). *)

From stdpp Require Import base gmap strings list.
From Stdlib Require Import ZArith.
From S2P Require Import Prelude Xid GoJson Http Crud ParseId ListModifiers.
Import Xid.Encoding.

Open Scope Z_scope.
Import Status.

Section Handlers.
Context {S V Er : Type} `{!MgrI S V Er} `{!JSONValue S V}.

(** [json.NewDecoder(pl).Decode(ent)]: [true] when it succeeded. *)
Definition decode_entity (b : option json) (ent : V) : M S bool := fun s =>
    match b ≫= fun j => DecodeInto j ent s with
    | Some s' => Normal true s'
    | None => Normal false s
    end.

(** [json.NewDecoder(pl).Decode(&ent)] with [ent] an [interface{}]
    holding a non-nil pointer to a struct: [null] sets [ent] to the nil
    interface, any other value is decoded through the pointer. *)
Definition decode_iface (b : option json) (ent : V) : M S (option V) := fun s =>
    match b with
    | Some JNull => Normal (Some NilValue) s
    | Some j =>
        match DecodeInto j ent s with
        | Some s' => Normal (Some ent) s'
        | None => Normal None s
        end
    | None => Normal None s
    end.

(** [render.DefaultResponder(w, r, v)] after [w.WriteHeader(code)]. *)
Definition respond (code : Z) (v : V) : M S Response :=
    s ← get; mret (mkResponse code (JSONBody (Marshal s v))).

Definition bad_request (err : string) : M S Response :=
    mret (render_error (gohttperror.ErrBadRequest err)).

Definition mapped_error (e : Er) : M S Response :=
    mret (render_error (MapErrorToHTTPError e)).

(** [POSTHandler]. *)
Definition POSTHandler (r : Request) : M S Response :=
    ent ← NewEmptyEntity;
    ok ← decode_entity (ReqBody r) ent;
    if negb ok then bad_request json_decode_error else
    '(e, err) ← Create ent (payload_of r);
    match err with
    | Some err => mret (render_error (gohttperror.ErrInternal (ErrorString err)))
    | None => respond StatusCreated e
    end.

(** [GETListHandler]. *)
Definition GETListHandler (r : Request) : M S Response :=
    '(es, errGL) ← GetList (ListModifiersFromURL r);
    match errGL with
    | Some errGL => mapped_error errGL
    | None => respond StatusOK es
    end.

(** [GETHandler]. *)
Definition GETHandler (r : Request) : M S Response :=
    match parseIDFromRequest r with
    | inr errParse => bad_request errParse
    | inl ID =>
        '(e, errG) ← Get ID;
        match errG with
        | Some errG => mapped_error errG
        | None => respond StatusOK e
        end
    end.

(** [DELETEHandler]. *)
Definition DELETEHandler (r : Request) : M S Response :=
    match parseIDFromRequest r with
    | inr errParse => bad_request errParse
    | inl ID =>
        err ← Delete ID;
        match err with
        | Some err => mapped_error err
        | None => mret (mkResponse StatusAccepted NoBody)
        end
    end.

(** [PUTHandler]. *)
Definition PUTHandler (r : Request) : M S Response :=
    match parseIDFromRequest r with
    | inr errParse => bad_request errParse
    | inl ID =>
        ent ← NewEmptyEntity;
        dec ← decode_iface (ReqBody r) ent;
        match dec with
        | None => bad_request json_decode_error
        | Some ent =>
            '(e, errU) ← Update ID ent (payload_of r);
            match errU with
            | Some errU => mapped_error errU
            | None => respond StatusOK e
            end
        end
    end.

(** [PATCHHandler]: [updates := crud.PartialUpdateData{}] then
    [Decode(&updates)]. *)
Definition PATCHHandler (r : Request) : M S Response :=
    match parseIDFromRequest r with
    | inr errParse => bad_request errParse
    | inl ID =>
        match ReqBody r ≫= Decode.decode_map with
        | None => bad_request json_decode_error
        | Some updates =>
            err ← PartialUpdate ID updates (payload_of r);
            match err with
            | Some err => mapped_error err
            | None => mret (mkResponse StatusNoContent NoBody)
            end
        end
    end.
End Handlers.

(** The routes of [src/example/main.go] under [/e]. *)
Inductive Route := RGetList | RPost | RGet | RPatch | RPut | RDelete.

Definition handler_for {S V Er} `{!MgrI S V Er} `{!JSONValue S V}
    (rt : Route) : Request -> M S Response :=
  match rt with
  | RGetList => GETListHandler
  | RPost => POSTHandler
  | RGet => GETHandler
  | RPatch => PATCHHandler
  | RPut => PUTHandler
  | RDelete => DELETEHandler
  end.

(** [net/http] serving one request: a panic in the handler is recovered
    by the server, which drops the connection without a response. *)
Definition serve {S V Er} `{!MgrI S V Er} `{!JSONValue S V}
    (rt : Route) (r : Request) (s : S) : option Response * S :=
  match handler_for rt r s with
  | Normal resp s' => (Some resp, s')
  | Panicked _ s' => (None, s')
  end.

(** ** What every manager gets from the handlers *)

Definition takes_id (rt : Route) : bool :=
  match rt with RGetList | RPost => false | _ => true end.

Definition success_status (rt : Route) : Z :=
  match rt with
  | RGetList | RGet | RPut => StatusOK
  | RPost => StatusCreated
  | RPatch => StatusNoContent
  | RDelete => StatusAccepted
  end.

(** The status codes a route may answer with (spec, section 6), given
    the codes [mapped] the manager's [MapErrorToHTTPError] produces. *)
Definition status_allowed (mapped : Z -> Prop) (rt : Route) (c : Z) : Prop :=
  c = success_status rt \/
  (c = StatusBadRequest /\ rt <> RGetList) \/
  (rt <> RPost /\ mapped c) \/
  (rt = RPost /\ c = StatusInternalServerError).

(** Unfold a handler and the helpers it is written with. *)
Ltac unfold_handlers :=
    unfold handler_for, POSTHandler, GETListHandler, GETHandler, PATCHHandler,
      PUTHandler, DELETEHandler, bad_request, mapped_error, respond,
      decode_entity, decode_iface in *.

Section HandlerFacts.
Context {S V Er : Type} `{!MgrI S V Er} `{!JSONValue S V}.

Lemma decode_entity_ok b j ent s s' :
    b = Some j -> DecodeInto j ent s = Some s' -> decode_entity b ent s = Normal true s'.
  Proof. intros -> Hd. unfold decode_entity. simpl. by rewrite Hd. Qed.

Lemma decode_iface_null b ent s :
    b = Some JNull -> decode_iface b ent s = Normal (Some NilValue) s.
  Proof. by intros ->. Qed.

Lemma decode_iface_ok b j ent s s' :
    b = Some j -> j <> JNull -> DecodeInto j ent s = Some s' ->
    decode_iface b ent s = Normal (Some ent) s'.
  Proof. intros -> Hj Hd. unfold decode_iface. destruct j; try done; by rewrite Hd. Qed.


(** C6: whatever the manager does, every response a handler completes
    with carries a status of its route's table: the success code, 400
    for a bad id or body, a code of the manager's error mapping, and 500
    for a failed create. *)
Theorem handler_status (mapped : Z -> Prop) rt r s resp s' :
    (forall e, mapped (HTTPStatusCode (MapErrorToHTTPError e))) ->
    handler_for rt r s = Normal resp s' ->
    status_allowed mapped rt (StatusCode resp).
  Proof.
    intros Hmap H. unfold status_allowed.
    destruct rt; unfold_handlers; minv H; simpl.
    all: first [ left; reflexivity
               | right; left; split; [reflexivity|discriminate]
               | right; right; left; split; [discriminate|apply Hmap]
               | right; right; right; split; reflexivity ].
  Qed.

(** C14: a route parameter that is not the text of a non-nil identifier
    is answered 400 by the four [{ID}] handlers, before any manager
    method runs: the manager's state is left as it was. *)
Theorem malformed_id_rejected rt r s :
    takes_id rt = true ->
    (forall id, valid_id id -> Xid.Encoding.ID_IsNil id = false ->
       Xid.Encoding.ID_String id <> URLParamID r) ->
    exists err, handler_for rt r s =
      Normal (mkResponse StatusBadRequest (ErrBody (gohttperror.ErrBadRequest err))) s.
  Proof.
    intros Hrt Hbad.
    destruct (parseIDFromRequest r) as [id|err] eqn:Hp.
    - apply ParseIdFacts.parseIDFromRequest_sound in Hp as (Hv & Hn & Hs).
      by destruct (Hbad id Hv Hn Hs).
    - exists err. destruct rt; try discriminate; unfold_handlers; by rewrite Hp.
  Qed.

(** C29: a POST body that does not decode into the fresh entity is
    answered 400 and [Create] is not called: the state is the one
    [NewEmptyEntity] left. *)
Theorem POST_bad_body r s ent s1 :
    NewEmptyEntity s = Normal ent s1 ->
    ReqBody r ≫= (fun j => DecodeInto j ent s1) = None ->
    POSTHandler r s =
      Normal (render_error (gohttperror.ErrBadRequest json_decode_error)) s1.
  Proof.
    intros Hnew Hdec. unfold_handlers. munfold. rewrite Hnew. simpl.
    rewrite Hdec. reflexivity.
  Qed.

(** C30: a PATCH body that is not a JSON object (or [null]) whose numbers
    fit a [float64] is answered 400 without calling the manager. *)
Theorem PATCH_bad_body r s id :
    parseIDFromRequest r = inl id ->
    ReqBody r ≫= Decode.decode_map = None ->
    PATCHHandler r s =
      Normal (render_error (gohttperror.ErrBadRequest json_decode_error)) s.
  Proof. intros Hp Hdec. unfold_handlers. by rewrite Hp, Hdec. Qed.
End HandlerFacts.

(** ** State predicates every handler keeps

    A property of the manager's state that [NewEmptyEntity], each method
    of [MgrI] and the JSON decoder keep, whatever their arguments, is
    kept by every handler, on every branch, panics included: the handlers
    write the state only through these calls. *)
Section Preservation.
Context {S V Er : Type} `{!MgrI S V Er} `{!JSONValue S V} (P : S -> Prop).
Hypothesis HNew : preserves P NewEmptyEntity.
Hypothesis HCreate : forall v pl, preserves P (Create v pl).
Hypothesis HDelete : forall id, preserves P (Delete id).
Hypothesis HGet : forall id, preserves P (Get id).
Hypothesis HGetList : forall lm, preserves P (GetList lm).
Hypothesis HUpdate : forall id v pl, preserves P (Update id v pl).
Hypothesis HPartialUpdate : forall id pud pl, preserves P (PartialUpdate id pud pl).
Hypothesis HDecode : forall j v s s', P s -> DecodeInto j v s = Some s' -> P s'.

Lemma decode_entity_preserves b v : preserves P (decode_entity b v).
  Proof.
    intros s Hs. unfold decode_entity.
    destruct (b ≫= _) as [s'|] eqn:Hd; [|done]. simpl.
    destruct b as [j|]; [|discriminate]. by apply (HDecode j v s).
  Qed.

Lemma decode_iface_preserves b v : preserves P (decode_iface b v).
  Proof.
    intros s Hs. unfold decode_iface.
    destruct b as [[]|]; try done; destruct (DecodeInto _ v s) eqn:Hd; try done;
      simpl; by eapply HDecode.
  Qed.

#[local] Hint Resolve HNew HCreate HDelete HGet HGetList HUpdate HPartialUpdate
  decode_entity_preserves decode_iface_preserves : crud.

(** Every handler keeps any state property the manager's methods and
    the decoder keep. *)
Lemma handlers_preserve rt r : preserves P (handler_for rt r).
  Proof.
    destruct rt; unfold handler_for, POSTHandler, GETListHandler, GETHandler, PATCHHandler,
      PUTHandler, DELETEHandler, bad_request, mapped_error, respond; preserve_solve.
  Qed.

(** The five handlers other than POST never call [Create]: they keep a
    property [Create] alone may break. *)
Lemma handlers_preserve_no_create rt r : rt <> RPost -> preserves P (handler_for rt r).
  Proof.
    intros Hrt. destruct rt; [|done|..]; unfold handler_for, GETListHandler, GETHandler, PATCHHandler,
      PUTHandler, DELETEHandler, bad_request, mapped_error, respond; preserve_solve.
  Qed.
End Preservation.
