(* ===== verification/MockFacts.v ===== *)
(** * The reference manager's operations, one lemma per branch

    How each method of [mock.Mgr] runs on an arbitrary world: the
    branches of its guards in the order the code tests them, the errors
    it returns and what it writes.  The handler-level theorems of
    [Server.v] are assembled from these. *)

From stdpp Require Import base gmap strings list.
From Stdlib Require Import ZArith Lia.
From S2P Require Import Prelude Xid GoJson Http Crud Mock.

Open Scope Z_scope.
Import Xid.Encoding Xid.Generator Mock.Entity Mock.Manager Mock.Instances.

(** The world after [NewEmptyEntity] allocated its object. *)
Definition alloc (w : World) : World :=
  mkWorld (mgr w) (<[next_ptr w := zero]> (heap w)) (next_ptr w + 1) (gen w) (clock w).

(** The world after [Create] stored object [p] (holding [ec]) under a new id. *)
Definition created (w : World) (p : Z) (ec : Entity) : World :=
  let (id, g') := NewWithTime (clock w) (gen w) in
  map_EntityList <[id := p]> (set_gen g' (set_heap (<[p := mkEntity id (StatusID ec)]> (heap w)) w)).

Definition new_id (w : World) : Z := fst (NewWithTime (clock w) (gen w)).

Lemma created_heap w p ec q :
  heap (created w p ec) !! q =
    if bool_decide (q = p) then Some (mkEntity (new_id w) (StatusID ec)) else heap w !! q.
Proof.
  unfold created, new_id. destruct (NewWithTime _ _) as [id g']. simpl.
  case_bool_decide; subst; [by rewrite lookup_insert_eq | by rewrite lookup_insert_ne].
Qed.

Lemma created_lookup w p ec id :
  lookup_id id (created w p ec) =
    if bool_decide (id = new_id w) then Some p else lookup_id id w.
Proof.
  unfold created, new_id, lookup_id. destruct (NewWithTime _ _) as [id' g']. simpl.
  case_bool_decide; subst; [by rewrite lookup_insert_eq | by rewrite lookup_insert_ne].
Qed.

(** Decoding the body [{k: n}] into an object, for a key [k] the struct
    decoder matches to the [status_id] field. *)
Lemma decode_status_key k n e :
  Decode.field_matches "id" k = false -> Decode.field_matches "status_id" k = true ->
  - 2 ^ 63 <= n < 2 ^ 63 ->
  Entity.decode (JObj [(k, JNum n)]) e = Some (mkEntity (ID e) n).
Proof.
  intros Hid Hst Hn. unfold Entity.decode, decode_member, Numbers.ParseInt64.
  cbn [fold_opt fst snd]. rewrite Hid, Hst.
  rewrite (proj2 (Z.leb_le _ _)), (proj2 (Z.ltb_lt _ _)) by lia. reflexivity.
Qed.

Lemma decode_status_only n e :
  - 2 ^ 63 <= n < 2 ^ 63 ->
  Entity.decode (JObj [("status_id", JNum n)]) e = Some (mkEntity (ID e) n).
Proof. apply decode_status_key; reflexivity. Qed.

Section Runs.
Context (w : World).

Lemma NewEmptyEntity_run : Manager.NewEmptyEntity w = Normal (VEnt (next_ptr w)) (alloc w).
  Proof. reflexivity. Qed.

Lemma decode_into_run j p e e' :
    heap w !! p = Some e -> Entity.decode j e = Some e' ->
    decode_into j (VEnt p) w = Some (set_heap (<[p := e']> (heap w)) w).
  Proof. intros Hp Hd. unfold decode_into. by rewrite Hp, Hd. Qed.

Lemma Create_run p ec pl :
    WantCreateError (mgr w) = false -> heap w !! p = Some ec ->
    Manager.Create (VEnt p) pl w = Normal (VEnt p, None) (created w p ec).
  Proof.
    intros Hf Hp. unfold Manager.Create, deref, store_new, created. munfold.
    rewrite Hf, Hp. by destruct (NewWithTime _ _).
  Qed.

Lemma Get_found id p :
    WantGetError (mgr w) = false -> lookup_id id w = Some p ->
    Manager.Get id w = Normal (VEnt p, None) w.
  Proof. intros Hf Hid. unfold Manager.Get. munfold. by rewrite Hf, Hid. Qed.

Lemma Get_missing id :
    WantGetError (mgr w) = false -> lookup_id id w = None ->
    Manager.Get id w = Normal (VNil, Some ErrNotFound) w.
  Proof. intros Hf Hid. unfold Manager.Get. munfold. by rewrite Hf, Hid. Qed.

Lemma Delete_found id p :
    WantDeleteError (mgr w) = false -> lookup_id id w = Some p ->
    Manager.Delete id w = Normal None (map_EntityList (delete id) w).
  Proof. intros Hf Hid. unfold Manager.Delete. munfold. by rewrite Hf, Hid. Qed.

Lemma Delete_missing id :
    WantDeleteError (mgr w) = false -> lookup_id id w = None ->
    Manager.Delete id w = Normal (Some ErrNotFound) w.
  Proof. intros Hf Hid. unfold Manager.Delete. munfold. by rewrite Hf, Hid. Qed.

Lemma Update_missing id v pl :
    WantUpdateError (mgr w) = false -> lookup_id id w = None ->
    Manager.Update id v pl w = Normal (VNil, Some ErrNotFound) w.
  Proof. intros Hf Hid. unfold Manager.Update. munfold. by rewrite Hf, Hid. Qed.

Lemma Update_found id q v pl :
    WantUpdateError (mgr w) = false -> lookup_id id w = Some q ->
    Manager.Update id v pl w =
      match v with
      | VEnt p => Normal (VEnt p, None) (map_EntityList <[id := p]> w)
      | _ => Normal (VErr ErrBadRequest, None) w
      end.
  Proof. intros Hf Hid. unfold Manager.Update. munfold. rewrite Hf, Hid. by destruct v. Qed.

(** A set [Want...Error] flag makes its method return a fresh
    [fmt.Errorf] value before it reads or writes anything. *)
Lemma Create_flag v pl :
    WantCreateError (mgr w) = true -> Manager.Create v pl w = Normal (VNil, Some (Errorf "Error create")) w.
  Proof. intros Hf. unfold Manager.Create. munfold. by rewrite Hf. Qed.

Lemma Delete_flag id :
    WantDeleteError (mgr w) = true -> Manager.Delete id w = Normal (Some (Errorf "Error delete")) w.
  Proof. intros Hf. unfold Manager.Delete. munfold. by rewrite Hf. Qed.

Lemma Get_flag id :
    WantGetError (mgr w) = true -> Manager.Get id w = Normal (VNil, Some (Errorf "Error get")) w.
  Proof. intros Hf. unfold Manager.Get. munfold. by rewrite Hf. Qed.

Lemma GetList_flag lm :
    WantGetListError (mgr w) = true -> Manager.GetList lm w = Normal (VNil, Some (Errorf "Error getlist")) w.
  Proof. intros Hf. unfold Manager.GetList. munfold. by rewrite Hf. Qed.

Lemma Update_flag id v pl :
    WantUpdateError (mgr w) = true -> Manager.Update id v pl w = Normal (VNil, Some (Errorf "Error update")) w.
  Proof. intros Hf. unfold Manager.Update. munfold. by rewrite Hf. Qed.

Lemma PartialUpdate_flag id pud pl :
    WantPartialUpdateError (mgr w) = true ->
    Manager.PartialUpdate id pud pl w = Normal (Some (Errorf "Error partial update")) w.
  Proof. intros Hf. unfold Manager.PartialUpdate. munfold. by rewrite Hf. Qed.
End Runs.

Section PartialUpdateRuns.
Context (w : World) (id : Z) (pud : gmap string json) (pl : string).
Hypothesis Hflag : WantPartialUpdateError (mgr w) = false.

(** C31: [PartialUpdate] refuses a patch without ["status_id"] with
    [ErrBadRequest], whether or not [id] is stored, and writes nothing:
    the key is checked before the id. *)
Theorem PartialUpdate_missing_key :
    pud !! "status_id" = None ->
    Manager.PartialUpdate id pud pl w = Normal (Some ErrBadRequest) w.
  Proof. intros Hk. unfold Manager.PartialUpdate. munfold. by rewrite Hflag, Hk. Qed.

Lemma PartialUpdate_unknown_id v :
    pud !! "status_id" = Some v -> lookup_id id w = None ->
    Manager.PartialUpdate id pud pl w = Normal (Some ErrNotFound) w.
  Proof. intros Hk Hid. unfold Manager.PartialUpdate. munfold. by rewrite Hflag, Hk, Hid. Qed.

(** A ["status_id"] that did not decode to a [float64] makes the type
    assertion panic before the assignment: the world is unchanged. *)
Lemma PartialUpdate_not_number v p :
    pud !! "status_id" = Some v -> lookup_id id w = Some p ->
    (forall f, v <> JNum f) ->
    exists msg, Manager.PartialUpdate id pud pl w = Panicked msg w.
  Proof.
    intros Hk Hid Hv. unfold Manager.PartialUpdate, assert_float64. munfold.
    rewrite Hflag, Hk, Hid. destruct v; try (eexists; reflexivity).
    by destruct (Hv n).
  Qed.

Lemma PartialUpdate_run f p ent :
    pud !! "status_id" = Some (JNum f) -> lookup_id id w = Some p -> heap w !! p = Some ent ->
    Manager.PartialUpdate id pud pl w =
      Normal None (set_heap (<[p := mkEntity (ID ent) (Numbers.f64_to_int f)]> (heap w)) w).
  Proof.
    intros Hk Hid Hp. unfold Manager.PartialUpdate, assert_float64, deref. munfold.
    by rewrite Hflag, Hk, Hid, Hp.
  Qed.

(** C26: a [status_id] at or beyond [2^63] (as a [float64]) does not fit
    an [int]: the amd64 conversion [int(f)] yields [math.MinInt64], which
    the patch stores without an error. *)
Theorem PartialUpdate_overflow f p ent :
    pud !! "status_id" = Some (JNum f) -> 2 ^ 63 <= f ->
    lookup_id id w = Some p -> heap w !! p = Some ent ->
    Manager.PartialUpdate id pud pl w =
      Normal None (set_heap (<[p := mkEntity (ID ent) (- 2 ^ 63)]> (heap w)) w).
  Proof.
    intros Hk Hf Hid Hp. rewrite (PartialUpdate_run f p ent Hk Hid Hp).
    unfold Numbers.f64_to_int. by rewrite (proj2 (Z.ltb_ge f _) Hf), andb_false_r.
  Qed.
End PartialUpdateRuns.

Section GetListRuns.
Context (w : World) (lm : gmap string (list string)).
Hypothesis Hflag : WantGetListError (mgr w) = false.

(** Listing an empty store is [ErrNotFound], not an empty list. *)
Lemma GetList_empty :
    EntityList (mgr w) = ∅ -> Manager.GetList lm w = Normal (VNil, Some ErrNotFound) w.
  Proof. intros He. unfold Manager.GetList. munfold. by rewrite Hflag, He. Qed.

(** C33: listing a non-empty store returns one pointer per stored id
    (an object stored under several ids is listed that many times),
    and exactly the pointers the map holds; the modifiers are ignored. *)
Theorem GetList_nonempty :
    EntityList (mgr w) <> ∅ ->
    exists ps, Manager.GetList lm w = Normal (VList ps, None) w /\
      length ps = size (EntityList (mgr w)) /\
      (forall p, p ∈ ps <-> exists id, EntityList (mgr w) !! id = Some p).
  Proof.
    intros Hne. unfold Manager.GetList. munfold. rewrite Hflag.
    rewrite bool_decide_false by (by rewrite map_size_empty_iff).
    eexists; split_and!; [reflexivity| |].
    - by rewrite length_map, length_map_to_list.
    - intros p. rewrite list_elem_of_fmap. split.
      + intros ([id p'] & -> & Hin). apply elem_of_map_to_list in Hin. by exists id.
      + intros [id Hid]. exists (id, p). split; [done|]. by apply elem_of_map_to_list.
  Qed.
End GetListRuns.
