(* ===== verification/Server.v ===== *)
(** * The handlers serving the reference manager

    [src/example/main.go] mounts the six handlers of [rest] on one
    [mock.NewMgr()].  This file instantiates [Handler.v] with the mock
    of [Mock.v] and proves what the spec (section 8) and the repository's
    tests expect of the whole: create then fetch returns the entity with
    its new id, delete then fetch is 404, listing an empty store is 404,
    and what a merge-patch does to [status_id]; it also pins down the
    behaviours that differ from the spec. *)

From stdpp Require Import base gmap strings list.
From Stdlib Require Import ZArith Lia.
From S2P Require Import Prelude Xid GoJson Http Crud ParseId ListModifiers Handler Mock MockFacts.

Open Scope Z_scope.
Import Status Xid.Encoding Xid.Generator Mock.Entity Mock.Manager Mock.Instances.

(** Replace the interface methods by the mock's. *)
Ltac mock_methods :=
  change (@Crud.NewEmptyEntity _ _ _ mock_MgrI) with Manager.NewEmptyEntity in *;
  change (@Crud.Create _ _ _ mock_MgrI) with Manager.Create in *;
  change (@Crud.Delete _ _ _ mock_MgrI) with Manager.Delete in *;
  change (@Crud.Get _ _ _ mock_MgrI) with Manager.Get in *;
  change (@Crud.GetList _ _ _ mock_MgrI) with Manager.GetList in *;
  change (@Crud.Update _ _ _ mock_MgrI) with Manager.Update in *;
  change (@Crud.PartialUpdate _ _ _ mock_MgrI) with Manager.PartialUpdate in *;
  change (@Crud.MapErrorToHTTPError _ _ _ mock_MgrI) with Manager.MapErrorToHTTPError in *;
  change (@Crud.ErrorString _ _ _ mock_MgrI) with Manager.Error in *;
  change (@DecodeInto _ _ mock_JSONValue) with decode_into in *;
  change (@Marshal _ _ mock_JSONValue) with marshal in *;
  change (@NilValue _ _ mock_JSONValue) with VNil in *.

(** The example server's initial state: [mock.NewMgr()], an empty heap,
    a generator and a clock reading. *)
Definition init_world (g : Gen) (t : Z) : World := mkWorld NewMgr ∅ 0 g t.

Definition flags_off (w : World) : Prop :=
  WantCreateError (mgr w) = false /\ WantDeleteError (mgr w) = false /\
  WantGetError (mgr w) = false /\ WantGetListError (mgr w) = false /\
  WantUpdateError (mgr w) = false /\ WantPartialUpdateError (mgr w) = false.

Section CreateFetch.
Context (w : World) (r : Request) (j : json) (e : Entity).
Hypothesis Hflags : flags_off w.
Hypothesis Hbody : ReqBody r = Some j.
Hypothesis Hdec : Entity.decode j zero = Some e.

Lemma POST_run :
    POSTHandler r w =
      Normal (mkResponse StatusCreated (JSONBody (marshal_ptr (created (set_heap (<[next_ptr w := e]>
                (heap (alloc w))) (alloc w)) (next_ptr w) e) (next_ptr w))))
             (created (set_heap (<[next_ptr w := e]> (heap (alloc w))) (alloc w)) (next_ptr w) e).
  Proof.
    destruct Hflags as (Hc & _).
    unfold POSTHandler. mock_methods.
    rewrite (bind_normal _ _ _ _ _ (NewEmptyEntity_run w)). cbv beta.
    rewrite (bind_normal _ _ _ _ _ (decode_entity_ok _ _ _ _ _ Hbody
      (decode_into_run (alloc w) j (next_ptr w) zero e ltac:(apply lookup_insert_eq) Hdec))).
    cbn [negb].
    rewrite (bind_normal _ _ _ _ _ (Create_run (set_heap (<[next_ptr w := e]> (heap (alloc w))) (alloc w))
      (next_ptr w) e (payload_of r) Hc
      ltac:(apply lookup_insert_eq))).
    reflexivity.
  Qed.

(** C9: creating an entity and fetching it by the identifier it was
    given returns the decoded fields with that identifier, which is not
    nil: [POST] answers 201 and [GET /{id}] 200 with the same body.  A
    client-supplied ["id"] in the body is overwritten. *)
Theorem POST_then_GET r' :
    0 < clock w mod 2 ^ 32 -> URLParamID r' = ID_String (new_id w) ->
    let body := to_json (mkEntity (new_id w) (StatusID e)) in
    ID_IsNil (new_id w) = false /\
    exists w1, POSTHandler r w = Normal (mkResponse StatusCreated (JSONBody body)) w1 /\
               GETHandler r' w1 = Normal (mkResponse StatusOK (JSONBody body)) w1.
  Proof.
    intros Ht Hid body.
    destruct (NewWithTime_valid_nonnil (clock w) (gen w) Ht) as [Hv Hn].
    fold (new_id w) in Hv, Hn. split; [done|].
    destruct Hflags as (_ & _ & Hg & _).
    rewrite POST_run. eexists; split.
    - do 3 f_equal. unfold marshal_ptr. rewrite created_heap, bool_decide_true by done.
      reflexivity.
    - unfold GETHandler. mock_methods.
      rewrite (ParseIdFacts.parseIDFromRequest_complete r' (new_id w)) by (rewrite ?Hid; done).
      assert (Hl : lookup_id (new_id w) (created (set_heap (<[next_ptr w:=e]> (heap (alloc w))) (alloc w))
        (next_ptr w) e) = Some (next_ptr w)) by (by rewrite created_lookup, bool_decide_true).
      mrun Get_found.
      unfold respond. munfold. simpl. unfold marshal_ptr. rewrite created_heap, bool_decide_true by done.
      reflexivity.
  Qed.
End CreateFetch.

Section DeleteFetch.
Context (w : World) (r : Request) (id p : Z).
Hypothesis Hflags : flags_off w.
Hypothesis Hparse : parseIDFromRequest r = inl id.
Hypothesis Hid : lookup_id id w = Some p.

(** C12: deleting a stored identifier answers 202 and a later fetch of
    it answers 404 with [gohttperror.ErrNotFound]. *)
Theorem DELETE_then_GET :
    exists w1, DELETEHandler r w = Normal (mkResponse StatusAccepted NoBody) w1 /\
               GETHandler r w1 = Normal (render_error gohttperror.ErrNotFound) w1.
  Proof.
    destruct Hflags as (_ & Hd & Hg & _).
    unfold DELETEHandler, GETHandler. mock_methods. rewrite Hparse.
    mrun Delete_found. eexists; split; [reflexivity|].
    assert (Hn : lookup_id id (map_EntityList (delete id) w) = None)
      by (apply lookup_delete_eq).
    mrun Get_missing. reflexivity.
  Qed.
End DeleteFetch.

(** C28: listing an empty store answers 404, not an empty 200 list. *)
Theorem GETList_empty_404 (w : World) r :
  WantGetListError (mgr w) = false -> EntityList (mgr w) = ∅ ->
  GETListHandler r w = Normal (render_error gohttperror.ErrNotFound) w.
Proof.
  intros Hf He. unfold GETListHandler. mock_methods. unfold Manager.GetList. munfold.
  by rewrite Hf, He.
Qed.

Section Patch.
Context (w : World) (r : Request) (id : Z).
Hypothesis Hflag : WantPartialUpdateError (mgr w) = false.
Hypothesis Hparse : parseIDFromRequest r = inl id.

(** C24: a merge-patch without ["status_id"] is answered 500, not 400:
    the manager returns [ErrBadRequest], which its
    [MapErrorToHTTPError] sends to [ErrInternal]; nothing is written. *)
Theorem PATCH_missing_key_500 pud :
    ReqBody r ≫= Decode.decode_map = Some pud -> pud !! "status_id" = None ->
    PATCHHandler r w =
      Normal (render_error (gohttperror.ErrInternal "bad request")) w.
  Proof.
    intros Hdec Hk. unfold PATCHHandler. mock_methods. rewrite Hparse, Hdec.
    unfold Manager.PartialUpdate. munfold. by rewrite Hflag, Hk.
  Qed.

(** C32: a merge-patch whose ["status_id"] is not a JSON number, on a
    stored id, makes the mock's type assertion panic: the server drops
    the connection without a response and the store is unchanged. *)
Theorem PATCH_not_number_drops pud v p :
    ReqBody r ≫= Decode.decode_map = Some pud -> pud !! "status_id" = Some v ->
    lookup_id id w = Some p -> (forall f, v <> JNum f) ->
    serve RPatch r w = (None, w).
  Proof.
    intros Hd Hk Hid Hv.
    destruct (PartialUpdate_not_number w id pud (payload_of r) Hflag v p Hk Hid Hv) as [msg Hm].
    unfold serve, handler_for, PATCHHandler. mock_methods. rewrite Hparse, Hd. cbv iota.
    by rewrite (bind_panicked _ _ _ _ _ Hm).
  Qed.

(** C25: [PATCH] with [{"status_id": n}] on a stored id answers 204 and
    stores the [int] conversion of the [float64] nearest to [n] in the
    object the id points to; its other field is kept. *)
Theorem PATCH_stores_float n f p ent :
    ReqBody r = Some (JObj [("status_id", JNum n)]) ->
    Numbers.ParseFloat n = Some f ->
    lookup_id id w = Some p -> heap w !! p = Some ent ->
    PATCHHandler r w =
      Normal (mkResponse StatusNoContent NoBody)
        (set_heap (<[p := mkEntity (ID ent) (Numbers.f64_to_int f)]> (heap w)) w).
  Proof.
    intros Hb Hf Hid Hp.
    assert (Hd : Decode.decode_map (JObj [("status_id", JNum n)]) =
                 Some (<["status_id" := JNum f]> ∅)) by (cbn; by rewrite Hf).
    assert (Hk : (<["status_id" := JNum f]> ∅ : gmap string json) !! "status_id" = Some (JNum f))
      by apply lookup_insert_eq.
    unfold PATCHHandler. mock_methods. rewrite Hparse, Hb. cbn [mbind option_bind].
    rewrite Hd. cbv iota. mrun PartialUpdate_run. reflexivity.
  Qed.
(** C27: a [status_id] literal whose [float64] rounding overflows makes
    the merge-patch decoding fail ([strconv.ParseFloat] range error): the
    PATCH is answered 400 and the manager is not called. *)
Theorem PATCH_number_overflow_400 n :
    ReqBody r = Some (JObj [("status_id", JNum n)]) -> 2 ^ 1024 <= Z.abs (Numbers.f64_round n) ->
    PATCHHandler r w = Normal (render_error (gohttperror.ErrBadRequest json_decode_error)) w.
  Proof.
    intros Hb Hn.
    assert (Hd : Decode.decode_map (JObj [("status_id", JNum n)]) = None).
    { cbn. unfold Numbers.ParseFloat. by rewrite (proj2 (Z.leb_le _ _) Hn). }
    unfold PATCHHandler. rewrite Hparse, Hb. cbn [mbind option_bind]. by rewrite Hd.
  Qed.
End Patch.

Section Put.
Context (w : World) (r : Request) (id q : Z).
Hypothesis Hflags : flags_off w.
Hypothesis Hparse : parseIDFromRequest r = inl id.
Hypothesis Hid : lookup_id id w = Some q.

(** C22: [PUT] with the body [null] on a stored id answers 200 with the
    body [{}] and replaces nothing: decoding [null] sets the entity to
    the nil interface, and [Update] then returns its [ErrBadRequest] as
    the result value with a nil error. *)
Theorem PUT_null_200 :
    ReqBody r = Some JNull ->
    PUTHandler r w = Normal (mkResponse StatusOK (JSONBody (JObj []))) (alloc w).
  Proof.
    intros Hb. destruct Hflags as (_ & _ & _ & _ & Hu & _).
    unfold PUTHandler. mock_methods. rewrite Hparse.
    mrun NewEmptyEntity_run. mrun decode_iface_null. mock_methods.
    assert (Hid' : lookup_id id (alloc w) = Some q) by exact Hid.
    mrun (Update_found (alloc w) id q VNil). reflexivity.
  Qed.

(** C23: [PUT] replaces the stored object by the decoded body, so a body
    without ["id"] leaves the id under its key but stores the nil id in
    the entity: the next [GET] of that id answers 200 with
    ["id": null]. *)
Theorem PUT_drops_id n :
    ReqBody r = Some (JObj [("status_id", JNum n)]) -> - 2 ^ 63 <= n < 2 ^ 63 ->
    let body := JObj [("id", JNull); ("status_id", JNum n)] in
    exists w1, PUTHandler r w = Normal (mkResponse StatusOK (JSONBody body)) w1 /\
               GETHandler r w1 = Normal (mkResponse StatusOK (JSONBody body)) w1.
  Proof.
    intros Hb Hn body. destruct Hflags as (_ & _ & Hg & _ & Hu & _).
    pose proof (decode_status_only n zero Hn) as Hdec.
    unfold PUTHandler, GETHandler. mock_methods. rewrite Hparse.
    mrun NewEmptyEntity_run.
    erewrite bind_normal by (apply (decode_iface_ok _ _ _ _ _ Hb); [discriminate|
      exact (decode_into_run (alloc w) _ (next_ptr w) zero _ (lookup_insert_eq _ _ _) Hdec)]).
    cbv beta iota.
    set (w2 := set_heap _ (alloc w)).
    assert (Hid' : lookup_id id w2 = Some q) by exact Hid.
    mrun (Update_found w2 id q (VEnt (next_ptr w))). eexists; split.
    - unfold respond. mock_methods. unfold marshal, marshal_ptr. munfold.
      cbn [heap map_EntityList set_mgr set_heap w2]. by rewrite lookup_insert_eq.
    - assert (Hl : lookup_id id (map_EntityList <[id := next_ptr w]> w2) = Some (next_ptr w))
        by apply lookup_insert_eq.
      mrun Get_found. unfold respond. mock_methods. unfold marshal, marshal_ptr. munfold.
      cbn [heap map_EntityList set_mgr set_heap w2]. by rewrite lookup_insert_eq.
  Qed.
End Put.
