(* ===== verification/Invariant.v ===== *)
(** * The invariant of the example server's world and its abstract view

    [src/example/main.go] serves one [mock.Mgr] through the six handlers.
    The mock keeps pointers ([EntityList : id -> address]) into a heap of
    [Entity] objects, so in general two ids may share one object and a
    write through one is seen through the other (the handler tests do
    this when they call [Create] directly).  Through the HTTP handlers
    alone this never happens: every object the manager stores is one the
    handler has just allocated with [NewEmptyEntity].  [wf] states it:

    - every allocated address is below [next_ptr] (allocation is fresh);
    - every stored address is allocated (no dangling pointer, so [deref]
      never panics);
    - no two ids share an address.

    Under [wf] the store is a plain map from id to entity, its [view];
    [Refinement.v] shows that the handlers act on the view as an
    abstract key-value store does.  This file holds [wf], [view] and how
    each write of the mock changes them. *)

From stdpp Require Import base gmap strings list.
From Stdlib Require Import ZArith Lia.
From S2P Require Import Prelude Xid GoJson Http Crud Mock MockFacts Server.

Open Scope Z_scope.
Import Xid.Generator Mock.Entity Mock.Manager.

Record wf (w : World) : Prop := {
  wf_fresh p : is_Some (heap w !! p) -> p < next_ptr w;
  wf_stored id p : lookup_id id w = Some p -> is_Some (heap w !! p);
  wf_inj id1 id2 p : lookup_id id1 w = Some p -> lookup_id id2 w = Some p -> id1 = id2
}.

(** The invariant of the served world: well-formed, and no failure
    injected (the handlers never set a [Want...Error] flag). *)
Definition inv (w : World) : Prop := wf w /\ flags_off w.

(** An address no id refers to: writing there is invisible. *)
Definition unreferenced (w : World) (p : Z) : Prop := forall id, lookup_id id w <> Some p.

(** The entity each stored id refers to. *)
Definition view (w : World) : gmap Z Entity :=
  (fun p => default zero (heap w !! p)) <$> EntityList (mgr w).

Create HintDb wf.

Lemma lookup_view w id :
    view w !! id = (fun p => default zero (heap w !! p)) <$> lookup_id id w.
  Proof. unfold view, lookup_id. by rewrite lookup_fmap. Qed.

Lemma view_found w id p e :
    lookup_id id w = Some p -> heap w !! p = Some e -> view w !! id = Some e.
  Proof. intros Hid Hp. rewrite lookup_view, Hid. simpl. by rewrite Hp. Qed.

Lemma view_missing w id : lookup_id id w = None -> view w !! id = None.
  Proof. intros Hid. by rewrite lookup_view, Hid. Qed.

Section WorldFacts.
Context (w : World).
Hypothesis Hwf : wf w.

Lemma fresh_unreferenced : unreferenced w (next_ptr w).
  Proof. intros id Hid. apply wf_stored in Hid; [|done]. apply wf_fresh in Hid; [lia|done]. Qed.

Lemma stored_entity id p : lookup_id id w = Some p -> exists e, heap w !! p = Some e.
  Proof. intros Hid. by destruct (wf_stored w Hwf id p Hid) as [e ->]; exists e. Qed.

(** A write through an allocated address keeps [wf]. *)
Lemma wf_write p e : is_Some (heap w !! p) -> wf (set_heap (<[p := e]> (heap w)) w).
  Proof.
    intros Hp. destruct Hwf as [Hf Hs Hi]. split; simpl; [ | | exact Hi].
    - intros q. rewrite lookup_insert_is_Some'. intros [<-|Hq]; eauto.
    - intros id q Hid. apply lookup_insert_is_Some'. eauto.
  Qed.

Lemma view_write_unref p e :
    unreferenced w p -> view (set_heap (<[p := e]> (heap w)) w) = view w.
  Proof.
    intros Hu. unfold view. simpl. apply map_fmap_ext. intros id q Hq.
    rewrite lookup_insert_ne; [done|]. intros ->. by apply (Hu id).
  Qed.

Lemma view_write id p e :
    lookup_id id w = Some p -> view (set_heap (<[p := e]> (heap w)) w) = <[id := e]> (view w).
  Proof.
    intros Hid. apply map_eq. intros id'. rewrite lookup_view.
    change (lookup_id id' (set_heap _ w)) with (lookup_id id' w).
    destruct (decide (id' = id)) as [->|Hne].
    - rewrite Hid, lookup_insert_eq. simpl. by rewrite lookup_insert_eq.
    - rewrite lookup_insert_ne, lookup_view by congruence.
      destruct (lookup_id id' w) as [q|] eqn:Hq; [|done]. simpl.
      rewrite lookup_insert_ne; [done|]. intros <-. by apply Hne, (wf_inj w Hwf _ _ p).
  Qed.

(** [NewEmptyEntity]'s allocation. *)
Lemma wf_alloc : wf (alloc w).
  Proof.
    destruct Hwf as [Hf Hs Hi]. split; simpl; [ | | exact Hi].
    - intros q. rewrite lookup_insert_is_Some'. intros [<-|Hq]; [lia|]. apply Hf in Hq. lia.
    - intros id q Hid. apply lookup_insert_is_Some'. eauto.
  Qed.

Lemma view_alloc : view (alloc w) = view w.
  Proof. apply (view_write_unref (next_ptr w) zero fresh_unreferenced). Qed.

Lemma alloc_fresh : unreferenced (alloc w) (next_ptr w) /\ heap (alloc w) !! next_ptr w = Some zero.
  Proof. split; [apply fresh_unreferenced|apply lookup_insert_eq]. Qed.
End WorldFacts.

(** [m.EntityList[id] = p], [delete(m.EntityList, id)] and the id
    generator's step, for any world. *)
Lemma view_store w id p :
    view (map_EntityList <[id := p]> w) = <[id := default zero (heap w !! p)]> (view w).
  Proof. unfold view. simpl. by rewrite fmap_insert. Qed.

Lemma view_delete w id : view (map_EntityList (delete id) w) = delete id (view w).
  Proof. unfold view. simpl. by rewrite fmap_delete. Qed.

Lemma wf_delete w id : wf w -> wf (map_EntityList (delete id) w).
  Proof.
    intros [Hf Hs Hi]. split; [exact Hf| |]; unfold lookup_id; simpl.
    - intros id' p. rewrite lookup_delete_Some. intros [_ Hp]. by apply (Hs id').
    - intros id1 id2 p. rewrite !lookup_delete_Some. intros [_ H1] [_ H2]. by apply (Hi _ _ p).
  Qed.

Lemma wf_store w id p :
    wf w -> is_Some (heap w !! p) -> unreferenced w p -> wf (map_EntityList <[id := p]> w).
  Proof.
    intros [Hf Hs Hi] Hp Hu. split; [exact Hf| |]; unfold lookup_id; simpl.
    - intros id' q. rewrite lookup_insert_Some. intros [[_ <-]|[_ Hq]]; [done|]. by apply (Hs id').
    - intros id1 id2 q. rewrite !lookup_insert_Some.
      intros [[<- <-]|[Hne1 H1]] [[<- Heq]|[Hne2 H2]]; subst; try done.
      + by destruct (Hu id2).
      + by destruct (Hu id1).
      + by apply (Hi _ _ q).
  Qed.

Lemma wf_set_gen w g : wf (set_gen g w) <-> wf w.
  Proof. split; intros []; by constructor. Qed.

Lemma view_set_gen w g : view (set_gen g w) = view w.
  Proof. done. Qed.

Section Created.
Context (w : World) (p : Z) (ec : Entity).
Hypothesis Hwf : wf w.
Hypothesis Hp : is_Some (heap w !! p).
Hypothesis Hu : unreferenced w p.

(** [Create] of the object at an unreferenced address [p]: the view
    gains the new id, holding the object with its new [ID]. *)
Lemma wf_created : wf (created w p ec).
  Proof.
    unfold created. destruct (NewWithTime _ _) as [id g'] eqn:Hn.
    apply wf_store; [by apply wf_set_gen, wf_write| |done].
    simpl. rewrite lookup_insert_eq. by eexists.
  Qed.

Lemma view_created :
    view (created w p ec) = <[new_id w := mkEntity (new_id w) (StatusID ec)]> (view w).
  Proof.
    unfold created, new_id. destruct (NewWithTime _ _) as [id g'] eqn:Hn. simpl.
    rewrite view_store, view_set_gen, view_write_unref by done. simpl.
    by rewrite lookup_insert_eq.
  Qed.
End Created.

(** The handlers never touch a [Want...Error] flag. *)
Lemma flags_off_store w f : flags_off (map_EntityList f w) <-> flags_off w.
Proof. apply iff_refl. Qed.

Lemma flags_off_heap w h : flags_off (set_heap h w) <-> flags_off w.
Proof. apply iff_refl. Qed.

Lemma flags_off_alloc w : flags_off (alloc w) <-> flags_off w.
Proof. apply iff_refl. Qed.

Lemma flags_off_created w p ec : flags_off (created w p ec) <-> flags_off w.
Proof. unfold created. destruct (NewWithTime _ _). apply iff_refl. Qed.

(** [inv] through each write of the handlers. *)
Lemma inv_alloc w : inv w -> inv (alloc w).
Proof. intros [Hwf Hf]. split; [by apply wf_alloc|by apply flags_off_alloc]. Qed.

Lemma inv_write w p e : inv w -> is_Some (heap w !! p) -> inv (set_heap (<[p := e]> (heap w)) w).
Proof. intros [Hwf Hf] Hp. split; [by apply wf_write|by apply flags_off_heap]. Qed.

Lemma inv_delete w id : inv w -> inv (map_EntityList (delete id) w).
Proof. intros [Hwf Hf]. split; [by apply wf_delete|by apply flags_off_store]. Qed.

Lemma inv_store w id p :
  inv w -> is_Some (heap w !! p) -> unreferenced w p -> inv (map_EntityList <[id := p]> w).
Proof. intros [Hwf Hf] Hp Hu. split; [by apply wf_store|by apply flags_off_store]. Qed.

Lemma inv_created w p ec :
  inv w -> is_Some (heap w !! p) -> unreferenced w p -> inv (created w p ec).
Proof. intros [Hwf Hf] Hp Hu. split; [by apply wf_created|by apply flags_off_created]. Qed.

#[export] Hint Resolve inv_alloc inv_write inv_delete inv_store inv_created : wf.
#[export] Hint Resolve mk_is_Some : wf.

Lemma unreferenced_heap w h p : unreferenced w p -> unreferenced (set_heap h w) p.
Proof. done. Qed.

Lemma write_is_Some w p e : is_Some (heap (set_heap (<[p := e]> (heap w)) w) !! p).
Proof. simpl. rewrite lookup_insert_eq. by eexists. Qed.

#[export] Hint Resolve unreferenced_heap write_is_Some : wf.
