(* ===== verification/Refinement.v ===== *)
(** * The example server refines an abstract key-value store

    The abstract state is the [view] of [Invariant.v]: a finite map from
    identifier to entity.  [spec_step A rt r o A'] is the contract of one
    request on the store [A]: the response [o] ([None] when the handler
    panics and the server drops the connection) and the store [A'] after
    it, one constructor per outcome of the code — bad identifier, bad
    body, unknown identifier, success — with the statuses the code
    answers (where they differ from the spec, [Server.v] states it).  The
    new identifier of a [POST] is any identifier: the abstract store does
    not choose it.

    [serve_sim] is the simulation diagram: from a world satisfying
    [inv], serving a request takes the view along a [spec_step] and ends
    in a world satisfying [inv].  The pointer structure of the mock is
    therefore invisible through HTTP: no two identifiers ever share an
    object and no request dereferences a dangling pointer. *)

From stdpp Require Import base gmap strings list.
From Stdlib Require Import ZArith Lia.
From S2P Require Import Prelude Xid GoJson Http Crud ParseId ListModifiers Handler Mock MockFacts Server Invariant.

Open Scope Z_scope.
Import Status Xid.Encoding Xid.Generator Mock.Entity Mock.Manager Mock.Instances.

Abbreviation Abs := (gmap Z Entity).

(** [json.Decode(&ent)] of a PUT body at the level of the store: [null]
    gives the nil interface, an object the decoded entity. *)
Definition put_decode (b : option json) : option (option Entity) :=
  match b with
  | Some JNull => Some None
  | Some j => Some <$> Entity.decode j zero
  | None => None
  end.

Inductive spec_step (A : Abs) : Route -> Request -> option Response -> Abs -> Prop :=
(* [GET /e] *)
| spec_list_empty r :
    A = ∅ -> spec_step A RGetList r (Some (render_error gohttperror.ErrNotFound)) A
| spec_list r l :
    A <> ∅ -> l ≡ₚ to_json <$> (snd <$> map_to_list A) ->
    spec_step A RGetList r (Some (mkResponse StatusOK (JSONBody (JArr l)))) A
(* every route with an [{ID}] parameter *)
| spec_bad_id rt r err :
    takes_id rt = true -> parseIDFromRequest r = inr err ->
    spec_step A rt r (Some (render_error (gohttperror.ErrBadRequest err))) A
(* [POST /e] *)
| spec_post_bad r :
    ReqBody r ≫= (fun j => Entity.decode j zero) = None ->
    spec_step A RPost r (Some (render_error (gohttperror.ErrBadRequest json_decode_error))) A
| spec_post r j e id :
    ReqBody r = Some j -> Entity.decode j zero = Some e ->
    spec_step A RPost r
      (Some (mkResponse StatusCreated (JSONBody (to_json (mkEntity id (StatusID e))))))
      (<[id := mkEntity id (StatusID e)]> A)
(* [GET /e/{ID}] *)
| spec_get_missing r id :
    parseIDFromRequest r = inl id -> A !! id = None ->
    spec_step A RGet r (Some (render_error gohttperror.ErrNotFound)) A
| spec_get r id e :
    parseIDFromRequest r = inl id -> A !! id = Some e ->
    spec_step A RGet r (Some (mkResponse StatusOK (JSONBody (to_json e)))) A
(* [DELETE /e/{ID}] *)
| spec_delete_missing r id :
    parseIDFromRequest r = inl id -> A !! id = None ->
    spec_step A RDelete r (Some (render_error gohttperror.ErrNotFound)) A
| spec_delete r id :
    parseIDFromRequest r = inl id -> is_Some (A !! id) ->
    spec_step A RDelete r (Some (mkResponse StatusAccepted NoBody)) (delete id A)
(* [PUT /e/{ID}] *)
| spec_put_bad r id :
    parseIDFromRequest r = inl id -> put_decode (ReqBody r) = None ->
    spec_step A RPut r (Some (render_error (gohttperror.ErrBadRequest json_decode_error))) A
| spec_put_missing r id d :
    parseIDFromRequest r = inl id -> put_decode (ReqBody r) = Some d -> A !! id = None ->
    spec_step A RPut r (Some (render_error gohttperror.ErrNotFound)) A
| spec_put_null r id :
    parseIDFromRequest r = inl id -> put_decode (ReqBody r) = Some None -> is_Some (A !! id) ->
    spec_step A RPut r (Some (mkResponse StatusOK (JSONBody (JObj [])))) A
| spec_put r id e :
    parseIDFromRequest r = inl id -> put_decode (ReqBody r) = Some (Some e) -> is_Some (A !! id) ->
    spec_step A RPut r (Some (mkResponse StatusOK (JSONBody (to_json e)))) (<[id := e]> A)
(* [PATCH /e/{ID}] *)
| spec_patch_bad r id :
    parseIDFromRequest r = inl id -> ReqBody r ≫= Decode.decode_map = None ->
    spec_step A RPatch r (Some (render_error (gohttperror.ErrBadRequest json_decode_error))) A
| spec_patch_no_key r id pud :
    parseIDFromRequest r = inl id -> ReqBody r ≫= Decode.decode_map = Some pud ->
    pud !! "status_id" = None ->
    spec_step A RPatch r (Some (render_error (gohttperror.ErrInternal "bad request"))) A
| spec_patch_missing r id pud v :
    parseIDFromRequest r = inl id -> ReqBody r ≫= Decode.decode_map = Some pud ->
    pud !! "status_id" = Some v -> A !! id = None ->
    spec_step A RPatch r (Some (render_error gohttperror.ErrNotFound)) A
| spec_patch_panic r id pud v :
    parseIDFromRequest r = inl id -> ReqBody r ≫= Decode.decode_map = Some pud ->
    pud !! "status_id" = Some v -> (forall f, v <> JNum f) -> is_Some (A !! id) ->
    spec_step A RPatch r None A
| spec_patch r id pud f e :
    parseIDFromRequest r = inl id -> ReqBody r ≫= Decode.decode_map = Some pud ->
    pud !! "status_id" = Some (JNum f) -> A !! id = Some e ->
    spec_step A RPatch r (Some (mkResponse StatusNoContent NoBody))
      (<[id := mkEntity (ID e) (Numbers.f64_to_int f)]> A).

(** One served request, as the simulation diagram requires it. *)
Definition step_ok (A : Abs) (rt : Route) (r : Request) (o : option Response * World) : Prop :=
  spec_step A rt r o.1 (view o.2) /\ inv o.2.

(** ** Running the handlers on a world that satisfies [inv] *)

Lemma serve_normal rt r w resp w' :
  handler_for rt r w = Normal resp w' -> serve rt r w = (Some resp, w').
Proof. intros H. unfold serve. by rewrite H. Qed.

Lemma serve_panicked rt r w msg w' :
  handler_for rt r w = Panicked msg w' -> serve rt r w = (None, w').
Proof. intros H. unfold serve. by rewrite H. Qed.

Lemma marshal_found w p e : heap w !! p = Some e -> marshal w (VEnt p) = to_json e.
Proof. intros Hp. simpl. unfold marshal_ptr. by rewrite Hp. Qed.

Lemma bad_id_run rt r w err :
  takes_id rt = true -> parseIDFromRequest r = inr err ->
  handler_for rt r w = Normal (render_error (gohttperror.ErrBadRequest err)) w.
Proof. intros Hrt Hp. destruct rt; try discriminate; unfold_handlers; by rewrite Hp. Qed.

Lemma bad_id_sim rt r w err :
  takes_id rt = true -> parseIDFromRequest r = inr err -> inv w ->
  step_ok (view w) rt r (serve rt r w).
Proof.
  intros Hrt Hp Hinv. rewrite (serve_normal _ _ _ _ _ (bad_id_run rt r w err Hrt Hp)).
  split; [by apply spec_bad_id|done].
Qed.

Lemma map_fmap_list {A B} (f : A -> B) (l : list A) : map f l = f <$> l.
Proof. induction l as [|x l IH]; [done|]. by rewrite fmap_cons, <- IH. Qed.

(** [json.Decode] into the object [NewEmptyEntity] just allocated. *)
Lemma decode_fresh w j :
  decode_into j (VEnt (next_ptr w)) (alloc w) =
    (fun e => set_heap (<[next_ptr w := e]> (heap (alloc w))) (alloc w)) <$> Entity.decode j zero.
Proof. unfold decode_into. simpl. by rewrite lookup_insert_eq. Qed.

(** [json.Decode(&ent)] into the interface holding the new object. *)
Lemma decode_iface_fresh w b :
  decode_iface b (VEnt (next_ptr w)) (alloc w) =
    match put_decode b with
    | None => Normal None (alloc w)
    | Some None => Normal (Some VNil) (alloc w)
    | Some (Some e) =>
        Normal (Some (VEnt (next_ptr w))) (set_heap (<[next_ptr w := e]> (heap (alloc w))) (alloc w))
    end.
Proof.
  destruct b as [j|]; [|done]. unfold decode_iface, put_decode.
  destruct j; try done; mock_methods; rewrite decode_fresh; by destruct (Entity.decode _ zero).
Qed.

(** [render] of the list [GetList] returns: the stored entities, in the
    order of [m.EntityList]. *)
Lemma GetList_marshal w :
  wf w ->
  marshal w (VList (map snd (map_to_list (EntityList (mgr w))))) =
    JArr (to_json <$> (snd <$> map_to_list (view w))).
Proof.
  intros Hwf. cbn [marshal]. f_equal.
  unfold view. rewrite map_to_list_fmap, !map_fmap_list, <- !list_fmap_compose.
  apply list_fmap_ext.
  intros i [id p] Hin. apply list_elem_of_lookup_2, elem_of_map_to_list in Hin.
  destruct (stored_entity w Hwf id p Hin) as [e He]. simpl. unfold marshal_ptr. by rewrite He.
Qed.

Lemma view_empty_iff w : view w = ∅ <-> size (EntityList (mgr w)) = 0%nat.
Proof. unfold view. by rewrite fmap_empty_iff, map_size_empty_iff. Qed.

(** Reduce [serve rt r w] to the handler's body at the parsed id. *)
Ltac serve_at Hp :=
  unfold serve, handler_for; unfold_handlers; mock_methods; rewrite Hp; cbv beta iota.

Section Sim.
Context (w : World) (r : Request).
Hypothesis Hinv : inv w.

Lemma GET_sim : step_ok (view w) RGet r (serve RGet r w).
  Proof.
    pose proof Hinv as [Hwf (_ & _ & Hg & _)].
    destruct (parseIDFromRequest r) as [id|err] eqn:Hp; [|by apply (bad_id_sim _ _ _ err)].
    serve_at Hp. destruct (lookup_id id w) as [q|] eqn:Hid.
    - destruct (stored_entity w Hwf id q Hid) as [e He]. mrun Get_found. munfold.
      split; [|done]. cbn [fst snd]. rewrite (marshal_found w q e He).
      eapply spec_get; [done|]. by apply (view_found w id q).
    - mrun Get_missing. munfold. split; [|done]. by eapply spec_get_missing, view_missing.
  Qed.

Lemma DELETE_sim : step_ok (view w) RDelete r (serve RDelete r w).
  Proof.
    pose proof Hinv as [Hwf (_ & Hd & _)].
    destruct (parseIDFromRequest r) as [id|err] eqn:Hp; [|by apply (bad_id_sim _ _ _ err)].
    serve_at Hp. destruct (lookup_id id w) as [q|] eqn:Hid.
    - destruct (stored_entity w Hwf id q Hid) as [e He]. mrun Delete_found. munfold.
      split; cbn [fst snd].
      + rewrite view_delete. eapply spec_delete; [done|]. erewrite view_found; eauto.
      + split; [by apply wf_delete|exact (proj2 Hinv)].
    - mrun Delete_missing. munfold. split; [|done]. by eapply spec_delete_missing, view_missing.
  Qed.

Lemma GETList_sim : step_ok (view w) RGetList r (serve RGetList r w).
  Proof.
    pose proof Hinv as [Hwf (_ & _ & _ & Hgl & _)].
    unfold serve, handler_for, GETListHandler, mapped_error, respond. mock_methods.
    unfold Manager.GetList. munfold. rewrite Hgl.
    case_bool_decide as Hs; split; try done; cbn [fst snd].
    - apply spec_list_empty. by apply view_empty_iff.
    - rewrite GetList_marshal by done. apply spec_list; [|done].
      by rewrite view_empty_iff.
  Qed.

Lemma POST_sim : step_ok (view w) RPost r (serve RPost r w).
  Proof.
    pose proof Hinv as [Hwf (Hc & _)]. destruct (alloc_fresh w Hwf) as [Hu Hp].
    unfold serve, handler_for; unfold_handlers; mock_methods.
    mrun NewEmptyEntity_run. munfold.
    destruct (ReqBody r) as [j|] eqn:Hb; cbn [option_bind];
      [rewrite decode_fresh; destruct (Entity.decode j zero) as [e|] eqn:Hd|];
      cbn [fmap option_fmap option_map negb]; cbv beta iota.
    - set (w2 := set_heap _ (alloc w)).
      assert (He : heap w2 !! next_ptr w = Some e) by apply lookup_insert_eq.
      rewrite (Create_run w2 (next_ptr w) e _ Hc He). split; cbn [fst snd].
      + rewrite (marshal_found _ _ (mkEntity (new_id w2) (StatusID e)))
          by (rewrite created_heap; by case_bool_decide).
        rewrite view_created by first [exact Hu | by eexists | apply wf_write; [by apply wf_alloc|by eexists]].
        unfold w2. rewrite view_write_unref, view_alloc by done. eapply spec_post; eauto.
      + eauto with wf.
    - split; cbn [fst snd]; [|by apply inv_alloc]. rewrite view_alloc by done.
      apply spec_post_bad. by rewrite Hb; cbn; try rewrite Hd.
    - split; cbn [fst snd]; [|by apply inv_alloc]. rewrite view_alloc by done.
      apply spec_post_bad. by rewrite Hb; cbn; try rewrite Hd.
  Qed.

Lemma PUT_sim : step_ok (view w) RPut r (serve RPut r w).
  Proof.
    pose proof Hinv as [Hwf (_ & _ & _ & _ & Hup & _)]. destruct (alloc_fresh w Hwf) as [Hu Hp0].
    destruct (parseIDFromRequest r) as [id|err] eqn:Hp; [|by apply (bad_id_sim _ _ _ err)].
    unfold serve, handler_for, PUTHandler, bad_request, mapped_error, respond. mock_methods.
    rewrite Hp. cbv beta iota. mrun NewEmptyEntity_run.
    destruct (put_decode (ReqBody r)) as [[e|]|] eqn:Hpd;
      erewrite bind_normal by (rewrite decode_iface_fresh, Hpd; reflexivity); cbv beta iota;
      [set (w2 := set_heap _ (alloc w)); assert (Hv : view w2 = view w)
         by (unfold w2; by rewrite view_write_unref, view_alloc)| |];
      [destruct (lookup_id id w) as [q|] eqn:Hid ..|].
    - mstep (Update_found w2 id q (VEnt (next_ptr w)) (payload_of r) Hup Hid).
      munfold. split; cbn [fst snd]; [|unfold w2; solve [eauto with wf]].
      rewrite (marshal_found _ _ e) by apply lookup_insert_eq.
      rewrite view_store, Hv. unfold w2. cbn [heap set_heap]. rewrite lookup_insert_eq.
      eapply spec_put; [done..|].
      by rewrite lookup_view, Hid.
    - mrun (Update_missing w2 id). munfold. split; cbn [fst snd]; [|unfold w2; solve [eauto with wf]].
      rewrite Hv. by eapply spec_put_missing, view_missing.
    - mstep (Update_found (alloc w) id q VNil (payload_of r) Hup Hid). munfold. split; cbn [fst snd]; [|solve [eauto with wf]].
      rewrite view_alloc by done. eapply spec_put_null; [done..|]. by rewrite lookup_view, Hid.
    - mrun (Update_missing (alloc w) id). munfold. split; cbn [fst snd]; [|solve [eauto with wf]].
      rewrite view_alloc by done. by eapply spec_put_missing, view_missing.
    - munfold. split; cbn [fst snd]; [|solve [eauto with wf]]. rewrite view_alloc by done.
      by eapply spec_put_bad.
  Qed.

Lemma PATCH_sim : step_ok (view w) RPatch r (serve RPatch r w).
  Proof.
    pose proof Hinv as [Hwf (_ & _ & _ & _ & _ & Hpu)].
    destruct (parseIDFromRequest r) as [id|err] eqn:Hp; [|by apply (bad_id_sim _ _ _ err)].
    destruct (ReqBody r ≫= Decode.decode_map) as [pud|] eqn:Hd.
    2:{ rewrite (serve_normal _ _ _ (render_error (gohttperror.ErrBadRequest json_decode_error)) w)
          by (unfold_handlers; by rewrite Hp, Hd).
        split; [by eapply spec_patch_bad|done]. }
    destruct (pud !! "status_id") as [v|] eqn:Hk.
    2:{ rewrite (serve_normal _ _ _ (render_error (gohttperror.ErrInternal "bad request")) w)
          by (unfold_handlers; mock_methods; rewrite Hp, Hd; unfold Manager.PartialUpdate;
              munfold; by rewrite Hpu, Hk).
        split; [by eapply spec_patch_no_key|done]. }
    destruct (lookup_id id w) as [p|] eqn:Hid.
    2:{ rewrite (serve_normal _ _ _ (render_error gohttperror.ErrNotFound) w)
          by (unfold_handlers; mock_methods; rewrite Hp, Hd; by mstep (PartialUpdate_unknown_id w id pud (payload_of r) Hpu v Hk Hid)).
        split; [by eapply spec_patch_missing, view_missing|done]. }
    destruct (stored_entity w Hwf id p Hid) as [e He].
    assert (Hv : (exists f, v = JNum f) \/ forall f, v <> JNum f)
      by (destruct v; eauto; right; discriminate).
    destruct Hv as [[f ->]|Hv].
    - rewrite (serve_normal _ _ _ (mkResponse StatusNoContent NoBody)
                (set_heap (<[p := mkEntity (ID e) (Numbers.f64_to_int f)]> (heap w)) w))
        by (unfold_handlers; mock_methods; rewrite Hp, Hd; by mstep (PartialUpdate_run w id pud (payload_of r) Hpu f p e Hk Hid He)).
      split; cbn [fst snd]; [|by apply inv_write; [|eexists]].
      rewrite (view_write w Hwf id p) by done. eapply spec_patch; eauto using view_found.
    - destruct (PartialUpdate_not_number w id pud (payload_of r) Hpu v p Hk Hid Hv) as [msg Hm].
      rewrite (serve_panicked _ _ _ msg w)
        by (unfold_handlers; mock_methods; rewrite Hp, Hd; by rewrite (bind_panicked _ _ _ _ _ Hm)).
      split; [|done]. cbn [fst snd]. eapply spec_patch_panic; eauto. by rewrite lookup_view, Hid.
  Qed.
End Sim.

Lemma serve_sim w rt r : inv w -> step_ok (view w) rt r (serve rt r w).
Proof.
  intros Hinv. destruct rt;
    [apply GETList_sim|apply POST_sim|apply GET_sim|apply PATCH_sim|apply PUT_sim|apply DELETE_sim];
    exact Hinv.
Qed.

(** The initial world of [src/example/main.go]: [mock.NewMgr()]. *)
Lemma inv_init g t : inv (init_world g t).
Proof.
  split; [|repeat split]. split; unfold lookup_id; simpl.
  - intros p [e He]. by rewrite lookup_empty in He.
  - intros id p Hp. by rewrite lookup_empty in Hp.
  - intros id1 id2 p Hp. by rewrite lookup_empty in Hp.
Qed.

Lemma view_init g t : view (init_world g t) = ∅.
Proof. unfold view. simpl. by rewrite fmap_empty. Qed.

(** ** Sequences of requests *)

(** The server handling requests one after the other. *)
Fixpoint serve_all (reqs : list (Route * Request)) (w : World) : list (option Response) * World :=
  match reqs with
  | [] => ([], w)
  | (rt, r) :: rs =>
      let '(o, w1) := serve rt r w in
      let '(os, w2) := serve_all rs w1 in
      (o :: os, w2)
  end.

(** The abstract store answering the same requests. *)
Inductive spec_trace : Abs -> list (Route * Request) -> list (option Response) -> Abs -> Prop :=
| trace_nil A : spec_trace A [] [] A
| trace_cons A A1 A2 rt r o rs os :
    spec_step A rt r o A1 -> spec_trace A1 rs os A2 ->
    spec_trace A ((rt, r) :: rs) (o :: os) A2.

Lemma serve_all_sim reqs w :
  inv w ->
  spec_trace (view w) reqs (serve_all reqs w).1 (view (serve_all reqs w).2) /\
  inv (serve_all reqs w).2.
Proof.
  revert w. induction reqs as [|[rt r] rs IH]; intros w Hinv; [split; [constructor|done]|].
  simpl. destruct (serve_sim w rt r Hinv) as [Hs Hi].
  destruct (serve rt r w) as [o w1] eqn:Hserve. simpl in Hs, Hi.
  destruct (IH w1 Hi) as [Ht Hi']. destruct (serve_all rs w1) as [os w2]. simpl in *.
  split; [econstructor; eauto|done].
Qed.

(** The world of the running server: it starts from [NewMgr], serves
    requests, and the clock [time.Now()] reads moves on. *)
Definition tick (t : Z) (w : World) : World := mkWorld (mgr w) (heap w) (next_ptr w) (gen w) t.

Inductive reachable : World -> Prop :=
| reach_init g t : reachable (init_world g t)
| reach_serve w rt r : reachable w -> reachable (serve rt r w).2
| reach_tick w t : reachable w -> reachable (tick t w).

Lemma reachable_inv w : reachable w -> inv w.
Proof.
  induction 1 as [g t|w rt r _ IH|w t _ [[Hf Hs Hi] Hfl]].
  - apply inv_init.
  - exact (proj2 (serve_sim w rt r IH)).
  - split; [split|]; assumption.
Qed.

(** ** The refinement theorems *)

(** C2: serving one request from a world satisfying [inv] moves the
    abstract store along the contract [spec_step]: the response and the
    new map of identifiers to entities are those the abstract store
    allows. *)
Theorem serve_refines w rt r :
  inv w -> spec_step (view w) rt r (serve rt r w).1 (view (serve rt r w).2).
Proof. intros Hinv. exact (proj1 (serve_sim w rt r Hinv)). Qed.

(** C5: every handler keeps the invariant: allocation stays fresh, no
    stored pointer dangles, no two identifiers share an object, and no
    failure flag is set. *)
Theorem serve_preserves_inv w rt r : inv w -> inv (serve rt r w).2.
Proof. intros Hinv. exact (proj2 (serve_sim w rt r Hinv)). Qed.

(** C1: any sequence of requests served from [mock.NewMgr()] is a run of
    the abstract store from the empty map: each response is one the
    contract allows at the abstract state reached so far. *)
Theorem server_refines g t reqs :
  spec_trace ∅ reqs (serve_all reqs (init_world g t)).1
    (view (serve_all reqs (init_world g t)).2).
Proof. rewrite <- (view_init g t). exact (proj1 (serve_all_sim reqs _ (inv_init g t))). Qed.

(** C8: in every world the running server reaches, no two identifiers
    point to the same object, so a write through one id (PATCH) is never
    seen through another. *)
Theorem reachable_no_aliasing w id1 id2 p :
  reachable w -> lookup_id id1 w = Some p -> lookup_id id2 w = Some p -> id1 = id2.
Proof. intros Hr. apply wf_inj, (reachable_inv w Hr). Qed.

(** C7: in a reachable world, the only request the server drops without
    a response is a PATCH whose ["status_id"] is not a JSON number (the
    mock's type assertion); in particular no handler dereferences a
    dangling pointer. *)
Theorem only_patch_drops w rt r :
  reachable w -> (serve rt r w).1 = None ->
  rt = RPatch /\ exists id pud v, parseIDFromRequest r = inl id /\
    ReqBody r ≫= Decode.decode_map = Some pud /\ pud !! "status_id" = Some v /\
    (forall f, v <> JNum f).
Proof.
  intros Hr Hn. destruct (serve_sim w rt r (reachable_inv w Hr)) as [Hs _].
  rewrite Hn in Hs. inversion Hs; subst. split; [done|]. eauto 10.
Qed.
