(* ===== verification/Uniqueness.v ===== *)
(** * How many entities a burst of POSTs creates

    [mock.Mgr.Create] keys the new entity by [xid.New()], and
    [m.EntityList[ec.ID] = ec] overwrites whatever the map held under that
    id.  The ids [xid.New] returns in one second differ only in the
    24-bit counter, so the store keeps every created entity for up to
    [2^24] POSTs in one second, and the next one overwrites the first. *)

From stdpp Require Import base gmap strings list.
From Stdlib Require Import ZArith Lia.
From S2P Require Import Prelude Xid GoJson Http Crud ParseId ListModifiers Handler Mock MockFacts Server Invariant Refinement.

Open Scope Z_scope.
Import Status Xid.Encoding Xid.Generator Mock.Entity Mock.Manager Mock.Instances.

Section Posts.
Context (r : Request) (j : json) (e : Entity).
Hypothesis Hbody : ReqBody r = Some j.
Hypothesis Hdec : Entity.decode j zero = Some e.

(** One POST of the body [j]: 201, the view gains the new id, the
    generator steps once and the clock is unchanged. *)
Lemma POST_serve w :
    inv w ->
    exists w', serve RPost r w =
        (Some (mkResponse StatusCreated (JSONBody (to_json (mkEntity (new_id w) (StatusID e))))), w') /\
      inv w' /\ view w' = <[new_id w := mkEntity (new_id w) (StatusID e)]> (view w) /\
      gen w' = next (clock w) (gen w) /\ clock w' = clock w.
  Proof.
    intros Hinv. pose proof Hinv as [Hwf Hfl]. destruct (alloc_fresh w Hwf) as [Hu Hp].
    set (w2 := set_heap (<[next_ptr w := e]> (heap (alloc w))) (alloc w)).
    exists (created w2 (next_ptr w) e). split_and!.
    - rewrite (serve_normal RPost r w _ _ (POST_run w r j e Hfl Hbody Hdec)). do 4 f_equal.
      unfold marshal_ptr. rewrite created_heap, bool_decide_true by done. reflexivity.
    - unfold w2. eauto with wf.
    - rewrite view_created by first [exact Hu | by eexists | apply wf_write; [by apply wf_alloc|by eexists]].
      unfold w2. by rewrite view_write_unref, view_alloc.
    - unfold created, next. change (clock w2) with (clock w). change (gen w2) with (gen w).
      by destruct (NewWithTime (clock w) (gen w)).
    - unfold created. by destruct (NewWithTime _ _).
  Qed.

(** [k] POSTs in a row: the generator steps [k] times and the ids of the
    view are the old ones and the [k] ids [xid.New] returned. *)
Lemma posts_run k w :
    inv w ->
    let w' := (serve_all (repeat (RPost, r) k) w).2 in
    inv w' /\ clock w' = clock w /\ gen w' = Nat.iter k (next (clock w)) (gen w) /\
    dom (view w') = dom (view w) ∪ list_to_set (fst (News (repeat (clock w) k) (gen w))).
  Proof.
    revert w. induction k as [|k IH]; intros w Hinv; [split_and!; simpl; set_solver|].
    destruct (POST_serve w Hinv) as (w1 & Hs & Hi1 & Hv1 & Hg1 & Hc1).
    cbn [repeat serve_all]. rewrite Hs.
    destruct (IH w1 Hi1) as (Hi2 & Hc2 & Hg2 & Hd2).
    destruct (serve_all (repeat (RPost, r) k) w1) as [os w2]. cbn [fst snd] in *.
    rewrite Hc1 in Hc2, Hg2, Hd2. rewrite Hg1 in Hg2, Hd2.
    split_and!; [done|done|by rewrite Hg2, Nat.iter_succ_r|].
    rewrite Hd2, Hv1, dom_insert_L. cbn [repeat]. rewrite News_cons. simpl. set_solver.
  Qed.

(** The ids of a burst of [k] POSTs from the initial world. *)
Lemma posts_dom g t k :
    dom (view (serve_all (repeat (RPost, r) k) (init_world g t)).2) =
      list_to_set (fst (News (repeat t k) g)).
  Proof.
    destruct (posts_run k (init_world g t) (inv_init g t)) as (_ & _ & _ & Hd).
    rewrite Hd, view_init, dom_empty_L. apply union_empty_l_L.
  Qed.

(** C10: up to [2^24] POSTs of a decodable body in one second, from
    [mock.NewMgr()], leave exactly that many entities in the store: no
    [Create] overwrites another's entry. *)
Theorem POSTs_distinct g t k :
    Z.of_nat k <= 2 ^ 24 ->
    size (view (serve_all (repeat (RPost, r) k) (init_world g t)).2) = k.
  Proof.
    intros Hk. rewrite <- size_dom, posts_dom, size_list_to_set.
    - by rewrite News_length, repeat_length.
    - apply News_NoDup. by rewrite repeat_length.
  Qed.

(** C11: the [2^24 + 1]-th POST in one second gets the id of the first
    one, and [m.EntityList[ec.ID] = ec] silently replaces the first
    entity: the store holds [2^24] entities after [2^24 + 1] answers 201. *)
Theorem POSTs_wrap g t :
    size (view (serve_all (repeat (RPost, r) (Z.to_nat (2 ^ 24) + 1)) (init_world g t)).2)
      = Z.to_nat (2 ^ 24).
  Proof.
    rewrite <- size_dom, posts_dom, repeat_app, News_app, News_repeat_gen.
    pose proof (NewWithTime_wraps t t g) as Hw.
    assert (Hn : Z.of_nat (Z.to_nat (2 ^ 24)) = 2 ^ 24) by (apply Z2Nat.id; lia).
    set (N := Z.to_nat (2 ^ 24)) in *. clearbody N.
    assert (Hnd : NoDup (fst (News (repeat t N) g))) by (apply News_NoDup; rewrite repeat_length; lia).
    cbn [repeat]. rewrite News_cons. cbn [News fst]. rewrite Hw, list_to_set_app_L.
    destruct N as [|N]; [lia|]. cbn [repeat] in Hnd |- *. rewrite News_cons in Hnd |- *.
    cbn [fst list_to_set] in *.
    assert (Hs : forall (X : gset Z) x, {[x]} ∪ X ∪ ({[x]} ∪ ∅) = {[x]} ∪ X) by set_solver.
    rewrite Hs. apply NoDup_cons in Hnd as [Hx Hnd].
    rewrite size_union, size_singleton, size_list_to_set, News_length, repeat_length by set_solver.
    done.
  Qed.
End Posts.
