(* ===== verification/Failures.v ===== *)
(** * Injected failures

    Each method of [mock.Mgr] has a [Want...Error] flag that makes it
    return an [fmt.Errorf] error before it reads or writes the map; the
    handler tests set them to reach the handlers' error branches.  With
    the flag of its method set, a handler answers 400 (bad id or body,
    found before the manager is called) or 500, and the stored entities
    are unchanged: [MapErrorToHTTPError] sends every [fmt.Errorf] value
    to [ErrInternal], and POST wraps every [Create] error in it. *)

From stdpp Require Import base gmap strings list.
From Stdlib Require Import ZArith Lia.
From S2P Require Import Prelude Xid GoJson Http Crud ParseId ListModifiers Handler Mock MockFacts Server Invariant Refinement.

Open Scope Z_scope.
Import Status Xid.Encoding Xid.Generator Mock.Entity Mock.Manager Mock.Instances.

(** The flag of the manager method a route calls. *)
Definition flag_of (rt : Route) (m : Mgr) : bool :=
  match rt with
  | RGetList => WantGetListError m
  | RPost => WantCreateError m
  | RGet => WantGetError m
  | RPatch => WantPartialUpdateError m
  | RPut => WantUpdateError m
  | RDelete => WantDeleteError m
  end.

(** A response of status 400 or 500, the view kept. *)
Definition fails_cleanly (w : World) (o : option Response * World) : Prop :=
  exists resp, o.1 = Some resp /\
    (StatusCode resp = StatusBadRequest \/ StatusCode resp = StatusInternalServerError) /\
    view o.2 = view w.

Lemma fails_run rt r w resp w' :
  handler_for rt r w = Normal resp w' ->
  StatusCode resp = StatusBadRequest \/ StatusCode resp = StatusInternalServerError ->
  view w' = view w -> fails_cleanly w (serve rt r w).
Proof. intros Hh Hs Hv. rewrite (serve_normal _ _ _ _ _ Hh). by exists resp. Qed.

Section Failures.
Context (w : World) (r : Request).
Hypothesis Hwf : wf w.

Lemma bad_id_fails rt err :
    takes_id rt = true -> parseIDFromRequest r = inr err -> fails_cleanly w (serve rt r w).
  Proof.
    intros Hrt Hp. apply (fails_run _ _ _ _ _ (bad_id_run rt r w err Hrt Hp)); [by left|done].
  Qed.

Lemma GETList_fails : WantGetListError (mgr w) = true -> fails_cleanly w (serve RGetList r w).
  Proof.
    intros Hf. apply (fails_run _ _ _ (render_error (gohttperror.ErrInternal "Error getlist")) w);
      [|by right|done].
    unfold_handlers. mock_methods. by mstep (GetList_flag w (ListModifiersFromURL r) Hf).
  Qed.

Lemma GET_fails : WantGetError (mgr w) = true -> fails_cleanly w (serve RGet r w).
  Proof.
    intros Hf. destruct (parseIDFromRequest r) as [id|err] eqn:Hp; [|by apply (bad_id_fails RGet err)].
    apply (fails_run _ _ _ (render_error (gohttperror.ErrInternal "Error get")) w); [|by right|done].
    unfold_handlers. mock_methods. rewrite Hp. cbv beta iota. by mstep (Get_flag w id Hf).
  Qed.

Lemma DELETE_fails : WantDeleteError (mgr w) = true -> fails_cleanly w (serve RDelete r w).
  Proof.
    intros Hf. destruct (parseIDFromRequest r) as [id|err] eqn:Hp; [|by apply (bad_id_fails RDelete err)].
    apply (fails_run _ _ _ (render_error (gohttperror.ErrInternal "Error delete")) w); [|by right|done].
    unfold_handlers. mock_methods. rewrite Hp. cbv beta iota. by mstep (Delete_flag w id Hf).
  Qed.

Lemma PATCH_fails : WantPartialUpdateError (mgr w) = true -> fails_cleanly w (serve RPatch r w).
  Proof.
    intros Hf. destruct (parseIDFromRequest r) as [id|err] eqn:Hp; [|by apply (bad_id_fails RPatch err)].
    destruct (ReqBody r ≫= Decode.decode_map) as [pud|] eqn:Hd.
    - apply (fails_run _ _ _ (render_error (gohttperror.ErrInternal "Error partial update")) w);
        [|by right|done].
      unfold_handlers. mock_methods. rewrite Hp, Hd. cbv beta iota.
      by mstep (PartialUpdate_flag w id pud (payload_of r) Hf).
    - apply (fails_run _ _ _ (render_error (gohttperror.ErrBadRequest json_decode_error)) w);
        [|by left|done].
      unfold_handlers. by rewrite Hp, Hd.
  Qed.

Lemma POST_fails : WantCreateError (mgr w) = true -> fails_cleanly w (serve RPost r w).
  Proof.
    intros Hf. destruct (alloc_fresh w Hwf) as [Hu _].
    destruct (ReqBody r ≫= fun j => Entity.decode j zero) as [e|] eqn:Hd.
    - apply (fails_run _ _ _ (render_error (gohttperror.ErrInternal "Error create"))
               (set_heap (<[next_ptr w := e]> (heap (alloc w))) (alloc w)));
        [|by right|by rewrite view_write_unref, view_alloc].
      unfold_handlers. mock_methods. mrun NewEmptyEntity_run. munfold.
      destruct (ReqBody r) as [j|]; [|discriminate]. cbn [option_bind] in *.
      rewrite decode_fresh, Hd. cbn [fmap option_fmap option_map negb].
      by rewrite Create_flag by exact Hf.
    - apply (fails_run _ _ _ (render_error (gohttperror.ErrBadRequest json_decode_error)) (alloc w));
        [|by left|by apply view_alloc].
      unfold_handlers. mock_methods. mrun NewEmptyEntity_run. munfold.
      destruct (ReqBody r) as [j|]; [|done]. cbn [option_bind] in *.
      by rewrite decode_fresh, Hd.
  Qed.

Lemma PUT_fails : WantUpdateError (mgr w) = true -> fails_cleanly w (serve RPut r w).
  Proof.
    intros Hf. destruct (alloc_fresh w Hwf) as [Hu _].
    destruct (parseIDFromRequest r) as [id|err] eqn:Hp; [|by apply (bad_id_fails RPut err)].
    destruct (put_decode (ReqBody r)) as [[e|]|] eqn:Hpd;
      [apply (fails_run _ _ _ (render_error (gohttperror.ErrInternal "Error update"))
                (set_heap (<[next_ptr w := e]> (heap (alloc w))) (alloc w)));
         [|by right|by rewrite view_write_unref, view_alloc]
      |apply (fails_run _ _ _ (render_error (gohttperror.ErrInternal "Error update")) (alloc w));
         [|by right|by apply view_alloc]
      |apply (fails_run _ _ _ (render_error (gohttperror.ErrBadRequest json_decode_error)) (alloc w));
         [|by left|by apply view_alloc]];
      unfold handler_for, PUTHandler, bad_request, mapped_error; mock_methods;
      rewrite Hp; cbv beta iota; mrun NewEmptyEntity_run;
      erewrite bind_normal by (rewrite decode_iface_fresh, Hpd; reflexivity); cbv beta iota;
      [by mstep (Update_flag (set_heap (<[next_ptr w := e]> (heap (alloc w))) (alloc w)) id
                  (VEnt (next_ptr w)) (payload_of r) Hf)
      |by mstep (Update_flag (alloc w) id VNil (payload_of r) Hf)|done].
  Qed.

(** C13: with the failure flag of the method it calls set, every handler
    answers 400 (a bad id or body, rejected before the manager runs) or
    500, and the stored entities are as they were. *)
Theorem injected_failure rt : flag_of rt (mgr w) = true -> fails_cleanly w (serve rt r w).
  Proof.
    destruct rt; simpl;
      [apply GETList_fails|apply POST_fails|apply GET_fails|apply PATCH_fails|apply PUT_fails
      |apply DELETE_fails].
  Qed.
End Failures.
