(* ===== verification/Typing.v ===== *)
(** * The Go types of the stored entities

    The model keeps Go's [int] and [xid.ID] as integers.  This file shows
    that the running server only ever stores values of those types: every
    [Entity] object in the heap has a 96-bit [ID] and a [StatusID] that
    fits a 64-bit [int].  The [ID] comes from [xid.New] or from
    [ID.UnmarshalJSON]; the [StatusID] from the decoder's [int] check or,
    for a PATCH, from the amd64 conversion [int(float64)], whose
    out-of-range result is [math.MinInt64].

    The proof goes through the interface: each method of [mock.Mgr] and
    the decoder keep [heap_typed], so [Handler.handlers_preserve] gives
    it for every handler. *)

From stdpp Require Import base gmap strings list.
From Stdlib Require Import ZArith Lia.
From S2P Require Import Prelude Xid GoJson Http Crud ParseId ListModifiers Handler Mock MockFacts Server Invariant Refinement.

Open Scope Z_scope.
Import Xid.Encoding Xid.Generator Xid.Roundtrip Mock.Entity Mock.Manager Mock.Instances.

Definition int64_ok (z : Z) : Prop := - 2 ^ 63 <= z < 2 ^ 63.

(** An [Entity] value of the Go type: [ID xid.ID], [StatusID int]. *)
Definition entity_typed (e : Entity) : Prop := valid_id (ID e) /\ int64_ok (StatusID e).

Definition heap_typed (w : World) : Prop := map_Forall (fun _ e => entity_typed e) (heap w).

(** ** The values the code computes are of their Go types *)

Lemma zero_typed : entity_typed zero.
Proof. unfold entity_typed, valid_id, int64_ok, ID_bound. simpl. lia. Qed.

Lemma f64_to_int_ok f : int64_ok (Numbers.f64_to_int f).
Proof.
  unfold int64_ok, Numbers.f64_to_int.
  destruct (Z.leb_spec (- 2 ^ 63) f), (Z.ltb_spec f (2 ^ 63)); simpl; lia.
Qed.

Lemma ParseInt64_ok n z : Numbers.ParseInt64 n = Some z -> int64_ok z.
Proof.
  unfold Numbers.ParseInt64, int64_ok.
  destruct (Z.leb_spec (- 2 ^ 63) n), (Z.ltb_spec n (2 ^ 63)); simpl; intros [=]; lia.
Qed.

Lemma decode_member_typed e kv e' :
  entity_typed e -> decode_member e kv = Some e' -> entity_typed e'.
Proof.
  intros [Hid Hs]. unfold decode_member.
  destruct (Decode.field_matches "id" kv.1).
  - destruct (ID_UnmarshalJSON _) as [id|] eqn:Hj; intros [= <-].
    split; [by eapply ID_UnmarshalJSON_valid|done].
  - destruct (Decode.field_matches "status_id" kv.1); [|by intros [= <-]].
    destruct kv.2; try discriminate; [by intros [= <-]|].
    destruct (Numbers.ParseInt64 n) eqn:Hn; intros [= <-].
    split; [done|by eapply ParseInt64_ok].
Qed.

Lemma decode_typed j e e' : entity_typed e -> Entity.decode j e = Some e' -> entity_typed e'.
Proof.
  unfold Entity.decode. destruct j as [| | | | |kvs]; try (by intros ? [= <-]); try discriminate.
  revert e. induction kvs as [|kv kvs IH]; intros e He; simpl; [by intros [= <-]|].
  destruct (decode_member e kv) as [e1|] eqn:Hm; [|discriminate].
  apply IH. by eapply decode_member_typed.
Qed.

Lemma heap_typed_write w p e :
  heap_typed w -> entity_typed e -> heap_typed (set_heap (<[p := e]> (heap w)) w).
Proof. intros Hw He. by apply map_Forall_insert_2. Qed.

Lemma heap_typed_lookup w p e : heap_typed w -> heap w !! p = Some e -> entity_typed e.
Proof. intros Hw Hp. exact (Hw p e Hp). Qed.

(** ** Every method of [mock.Mgr] and the decoder keep [heap_typed] *)

(** A field of an object read from a typed heap. *)
Ltac typed_from_heap Hw := cbn [ID StatusID];
  match goal with
  | H : heap _ !! _ = Some ?e |- valid_id (ID ?e) => exact (proj1 (heap_typed_lookup _ _ _ Hw H))
  | H : heap _ !! _ = Some ?e |- int64_ok (StatusID ?e) => exact (proj2 (heap_typed_lookup _ _ _ Hw H))
  end.

(** Run a method to its end, case by case; the branches that do not
    write the heap are closed here. *)
Ltac run_method := munfold; repeat case_match; simplify_eq/=; try done.

Lemma NewEmptyEntity_typed : preserves heap_typed Manager.NewEmptyEntity.
Proof. intros w Hw. apply map_Forall_insert_2; [apply zero_typed|done]. Qed.

Lemma Create_typed v pl : preserves heap_typed (Manager.Create v pl).
Proof.
  intros w Hw. unfold Manager.Create, deref, store_new. run_method.
  apply map_Forall_insert_2; [|done]. split.
  - match goal with H : NewWithTime ?t ?g = (?id, _) |- valid_id ?id =>
      pose proof (NewWithTime_valid t g) as Hv; by rewrite H in Hv end.
  - typed_from_heap Hw.
Qed.

Lemma Delete_typed id : preserves heap_typed (Manager.Delete id).
Proof. intros w Hw. unfold Manager.Delete. by run_method. Qed.

Lemma Get_typed id : preserves heap_typed (Manager.Get id).
Proof. intros w Hw. unfold Manager.Get. by run_method. Qed.

Lemma GetList_typed lm : preserves heap_typed (Manager.GetList lm).
Proof. intros w Hw. unfold Manager.GetList. by run_method. Qed.

Lemma Update_typed id v pl : preserves heap_typed (Manager.Update id v pl).
Proof. intros w Hw. unfold Manager.Update. by run_method. Qed.

Lemma PartialUpdate_typed id pud pl : preserves heap_typed (Manager.PartialUpdate id pud pl).
Proof.
  intros w Hw. unfold Manager.PartialUpdate, assert_float64, deref. run_method.
  apply map_Forall_insert_2; [|done]. split; [typed_from_heap Hw|apply f64_to_int_ok].
Qed.

Lemma decode_into_typed j v w w' : heap_typed w -> decode_into j v w = Some w' -> heap_typed w'.
Proof.
  intros Hw. unfold decode_into. destruct v as [|p| |]; try discriminate.
  destruct (heap w !! p) as [e|] eqn:Hp; [|discriminate].
  destruct (Entity.decode j e) as [e'|] eqn:Hd; intros [= <-].
  apply heap_typed_write; [done|]. eapply decode_typed; [|exact Hd]. by eapply heap_typed_lookup.
Qed.

(** ** The running server stores values of the Go types *)

Lemma serve_final rt r w : (serve rt r w).2 = final_state (handler_for rt r w).
Proof. unfold serve. by destruct (handler_for rt r w). Qed.

Lemma serve_typed rt r w : heap_typed w -> heap_typed (serve rt r w).2.
Proof.
  intros Hw. rewrite serve_final.
  exact (handlers_preserve heap_typed NewEmptyEntity_typed Create_typed Delete_typed Get_typed
           GetList_typed Update_typed PartialUpdate_typed decode_into_typed rt r w Hw).
Qed.

Lemma reachable_heap_typed w : reachable w -> heap_typed w.
Proof.
  induction 1 as [g t|w rt r _ IH|w t _ IH].
  - apply map_Forall_empty.
  - by apply serve_typed.
  - exact IH.
Qed.

(** A check of the model against Go's types: in every world the
    running server reaches, every stored entity is a value of its Go
    type: a 96-bit [xid.ID] and an [int] status
    that fits 64 bits, whatever the requests sent (a PATCH with a
    [status_id] beyond the [int] range stores [math.MinInt64]). *)
Lemma reachable_entities_typed w :
  reachable w -> map_Forall (fun _ e => entity_typed e) (view w).
Proof.
  intros Hr id e. rewrite lookup_view. destruct (lookup_id id w) as [p|]; [|discriminate].
  simpl. intros [= <-]. destruct (heap w !! p) as [e|] eqn:Hp; simpl; [|apply zero_typed].
  exact (reachable_heap_typed w Hr p e Hp).
Qed.
