(* ===== verification/Observation.v ===== *)
(** * What a client of the example server observes

    [spec_step] of [Refinement.v] is a relation: it leaves open the id a
    POST draws and the order GET lists in.  The model fixes both: the id
    is [xid.NewWithTime] of the clock and the generator, as in the code,
    and the list follows the key order in which the model iterates
    [m.EntityList] (Go leaves the order of [range] over a map
    unspecified, so for the running program the list is determined up
    to permutation only).  This file gives the
    contract as a function, [spec_serve], on an abstract state of three
    parts: the map of ids to entities, the id generator and the clock.
    [spec_serve] is one of the behaviours [spec_step] allows, and the
    handlers on the mock compute exactly it from every world satisfying
    [inv].  So what a client sees depends on the abstract state alone:
    two worlds with the same store, generator and clock answer every
    sequence of requests alike, however their heaps lay the objects
    out. *)

From stdpp Require Import base gmap strings list.
From Stdlib Require Import ZArith Lia.
From S2P Require Import Prelude Xid GoJson Http Crud ParseId ListModifiers Handler Mock MockFacts Server Invariant Refinement Typing.

Open Scope Z_scope.
Import Status Xid.Generator Mock.Entity Mock.Manager Mock.Instances.

(** The abstract state: the store, [xid]'s generator and the clock. *)
Record AState := mkAState { astore : Abs; agen : Gen; aclock : Z }.

Definition abs_of (w : World) : AState := mkAState (view w) (gen w) (clock w).

Definition set_store (A : Abs) (a : AState) : AState := mkAState A (agen a) (aclock a).

(** The four [{ID}] routes: a parameter that does not parse is 400. *)
Definition with_id (r : Request) (a : AState) (k : Z -> option Response * AState)
    : option Response * AState :=
  match parseIDFromRequest r with
  | inr err => (Some (render_error (gohttperror.ErrBadRequest err)), a)
  | inl id => k id
  end.

(** The contract as a function: the response and the next state. *)
Definition spec_serve (rt : Route) (r : Request) (a : AState) : option Response * AState :=
  let A := astore a in
  let answer resp := (Some resp, a) in
  match rt with
  | RGetList =>
      if bool_decide (A = ∅) then answer (render_error gohttperror.ErrNotFound)
      else answer (mkResponse StatusOK (JSONBody (JArr (to_json <$> (snd <$> map_to_list A)))))
  | RPost =>
      match ReqBody r ≫= (fun j => Entity.decode j zero) with
      | None => answer (render_error (gohttperror.ErrBadRequest json_decode_error))
      | Some e =>
          let (id, g') := NewWithTime (aclock a) (agen a) in
          (Some (mkResponse StatusCreated (JSONBody (to_json (mkEntity id (StatusID e))))),
           mkAState (<[id := mkEntity id (StatusID e)]> A) g' (aclock a))
      end
  | RGet => with_id r a (fun id =>
      match A !! id with
      | None => answer (render_error gohttperror.ErrNotFound)
      | Some e => answer (mkResponse StatusOK (JSONBody (to_json e)))
      end)
  | RDelete => with_id r a (fun id =>
      match A !! id with
      | None => answer (render_error gohttperror.ErrNotFound)
      | Some _ => (Some (mkResponse StatusAccepted NoBody), set_store (delete id A) a)
      end)
  | RPut => with_id r a (fun id =>
      match put_decode (ReqBody r), A !! id with
      | None, _ => answer (render_error (gohttperror.ErrBadRequest json_decode_error))
      | Some _, None => answer (render_error gohttperror.ErrNotFound)
      | Some None, Some _ => answer (mkResponse StatusOK (JSONBody (JObj [])))
      | Some (Some e), Some _ => (Some (mkResponse StatusOK (JSONBody (to_json e))), set_store (<[id := e]> A) a)
      end)
  | RPatch => with_id r a (fun id =>
      match ReqBody r ≫= Decode.decode_map with
      | None => answer (render_error (gohttperror.ErrBadRequest json_decode_error))
      | Some pud =>
          match pud !! "status_id", A !! id with
          | None, _ => answer (render_error (gohttperror.ErrInternal "bad request"))
          | Some _, None => answer (render_error gohttperror.ErrNotFound)
          | Some (JNum f), Some e =>
              (Some (mkResponse StatusNoContent NoBody),
               set_store (<[id := mkEntity (ID e) (Numbers.f64_to_int f)]> A) a)
          | Some _, Some _ => (None, a)
          end
      end)
  end.

(** A sequence of requests. *)
Fixpoint spec_serve_all (reqs : list (Route * Request)) (a : AState) : list (option Response) * AState :=
  match reqs with
  | [] => ([], a)
  | (rt, r) :: rs =>
      let '(o, a1) := spec_serve rt r a in
      let '(os, a2) := spec_serve_all rs a1 in
      (o :: os, a2)
  end.

(** ** [spec_serve] is one behaviour of [spec_step] *)

Lemma spec_serve_step rt r a :
  spec_step (astore a) rt r (spec_serve rt r a).1 (astore (spec_serve rt r a).2).
Proof.
  destruct a as [A g t]. unfold spec_serve, with_id; cbn [astore agen aclock].
  destruct rt; cycle 2.
  1-4: destruct (parseIDFromRequest r) as [id|err] eqn:Hp; [|by apply spec_bad_id];
    repeat case_match; simplify_eq/=; try (by econstructor; eauto);
    by eapply spec_patch_panic; eauto; intros ? ?; simplify_eq.
  - case_bool_decide; [by constructor|]. by apply spec_list.
  - destruct (ReqBody r) as [j|] eqn:Hb; cbn [mbind option_bind];
      [destruct (Entity.decode j zero) eqn:Hd; [destruct (NewWithTime t g)|]|];
      [eapply spec_post; eauto|apply spec_post_bad; by rewrite Hb..].
Qed.

(** On the four [{ID}] routes [spec_step] leaves no choice: its only
    behaviour is [spec_serve]'s. *)
Lemma spec_step_by_id a rt r o A' :
  takes_id rt = true -> spec_step (astore a) rt r o A' ->
  o = (spec_serve rt r a).1 /\ A' = astore (spec_serve rt r a).2.
Proof.
  destruct a as [A g t]. cbn [astore]. intros Hrt Hs.
  inversion Hs; subst; try discriminate; unfold spec_serve, with_id; cbn [astore];
    repeat match goal with
           | H : is_Some _ |- _ => destruct H as [? H]
           | H : ?x = _ |- context [?x] => rewrite H
           end; try done; try (by repeat case_match).
  match goal with H : forall f, ?v <> JNum f |- _ => destruct v; try done; by destruct (H _ eq_refl) end.
Qed.

Lemma AState_eq a b : astore a = astore b -> agen a = agen b -> aclock a = aclock b -> a = b.
Proof. destruct a, b. cbn. by intros -> -> ->. Qed.

(** Only POST moves the abstract generator; no route moves the clock. *)
Lemma spec_serve_keeps rt r a :
  rt <> RPost -> agen (spec_serve rt r a).2 = agen a /\ aclock (spec_serve rt r a).2 = aclock a.
Proof. intros Hrt. destruct rt; try done; unfold spec_serve, with_id; by repeat case_match. Qed.

(** ** The clock and the generator through a request *)

(** Run a mock method on a state, in a [preserves] goal. *)
Ltac mock_preserves :=
  intros; intros w' Hw'; mock_methods;
  unfold Manager.NewEmptyEntity, Manager.Create, Manager.Delete, Manager.Get, Manager.GetList,
    Manager.Update, Manager.PartialUpdate, store_new, deref, assert_float64; run_method.

(** [json.Decode] into a pointer writes the heap alone. *)
Lemma decode_into_fields j v w w' :
  decode_into j v w = Some w' -> mgr w' = mgr w /\ gen w' = gen w /\ clock w' = clock w.
Proof.
  intros Hd. unfold decode_into in Hd. repeat case_match; try discriminate.
  destruct (Entity.decode _ _); simplify_eq/=. by split_and!.
Qed.

Lemma serve_clock rt r w : clock (serve rt r w).2 = clock w.
Proof.
  rewrite serve_final.
  refine (handlers_preserve (fun w' => clock w' = clock w) _ _ _ _ _ _ _ _ rt r w eq_refl).
  8: { intros j v s s' Hs Hd. mock_methods. rewrite <- Hs. apply (decode_into_fields _ _ _ _ Hd). }
  all: mock_preserves.
Qed.

(** Only POST draws an id: the other routes leave the generator. *)
Lemma serve_gen rt r w : rt <> RPost -> gen (serve rt r w).2 = gen w.
Proof.
  intros Hrt. rewrite serve_final.
  refine (handlers_preserve_no_create (fun w' => gen w' = gen w) _ _ _ _ _ _ _ rt r Hrt w eq_refl).
  7: { intros j v s s' Hs Hd. mock_methods. rewrite <- Hs. apply (decode_into_fields _ _ _ _ Hd). }
  all: mock_preserves.
Qed.

(** ** The handlers on the mock compute [spec_serve] *)

(** The response and the abstract state after one request, as
    [spec_serve] gives them. *)
Definition obs_ok (w : World) (rt : Route) (r : Request) : Prop :=
  (serve rt r w).1 = (spec_serve rt r (abs_of w)).1 /\
  abs_of (serve rt r w).2 = (spec_serve rt r (abs_of w)).2.

Section Functional.
Context (w : World) (r : Request).
Hypothesis Hinv : inv w.

Lemma GETList_functional : obs_ok w RGetList r.
  Proof.
    pose proof Hinv as [Hwf (_ & _ & _ & Hgl & _)].
    unfold obs_ok, serve, handler_for, GETListHandler, mapped_error, respond. mock_methods.
    unfold Manager.GetList. munfold. rewrite Hgl. unfold spec_serve. cbn [abs_of astore].
    rewrite (bool_decide_ext _ _ (view_empty_iff w)).
    case_bool_decide; [done|]. by rewrite GetList_marshal.
  Qed.

Lemma POST_functional : obs_ok w RPost r.
  Proof.
    pose proof Hinv as [Hwf Hfl]. destruct (alloc_fresh w Hwf) as [Hu Hp].
    unfold obs_ok, spec_serve. cbn [abs_of astore agen aclock].
    destruct (ReqBody r) as [j|] eqn:Hb; cbn [mbind option_bind];
      [destruct (Entity.decode j zero) as [e|] eqn:Hd|].
    2,3: rewrite (serve_normal RPost r w (render_error (gohttperror.ErrBadRequest json_decode_error)) (alloc w));
      [split; [done|cbn [snd]; unfold abs_of; by rewrite view_alloc]|].
    2,3: unfold_handlers; mock_methods; mrun NewEmptyEntity_run; munfold; rewrite Hb;
      cbn [mbind option_bind]; try rewrite decode_fresh, Hd; reflexivity.
    rewrite (serve_normal RPost r w _ _ (POST_run w r j e Hfl Hb Hd)). cbn [fst snd].
    destruct (NewWithTime (clock w) (gen w)) as [id g'] eqn:Hn.
    assert (Hid : new_id (set_heap (<[next_ptr w:=e]> (heap (alloc w))) (alloc w)) = id)
      by (unfold new_id; cbn; by rewrite Hn).
    split.
    - unfold marshal_ptr. by rewrite created_heap, bool_decide_true, Hid.
    - unfold abs_of. rewrite view_created, Hid
        by first [exact Hu | by eexists | apply wf_write; [by apply wf_alloc|by eexists]].
      rewrite view_write_unref, view_alloc by done.
      unfold created. cbn [gen clock set_heap alloc]. by rewrite Hn.
  Qed.

Lemma by_id_functional rt : takes_id rt = true -> obs_ok w rt r.
  Proof.
    intros Hrt. assert (Hp : rt <> RPost) by (by intros ->).
    destruct (serve_sim w rt r Hinv) as [Hs _].
    destruct (spec_step_by_id (abs_of w) rt r _ _ Hrt Hs) as [Ho Hv].
    destruct (spec_serve_keeps rt r (abs_of w) Hp) as [Hg Hc].
    split; [done|]. apply AState_eq; cbn [abs_of astore agen aclock] in *.
    - done.
    - by rewrite Hg, serve_gen.
    - by rewrite Hc, serve_clock.
  Qed.
End Functional.

Lemma serve_functional_all w rt r : inv w -> obs_ok w rt r.
Proof.
  intros Hinv. destruct rt; [apply GETList_functional|apply POST_functional|apply by_id_functional..]; done.
Qed.

Lemma serve_all_functional reqs w :
  inv w ->
  (serve_all reqs w).1 = (spec_serve_all reqs (abs_of w)).1 /\
  abs_of (serve_all reqs w).2 = (spec_serve_all reqs (abs_of w)).2.
Proof.
  revert w. induction reqs as [|[rt r] rs IH]; intros w Hinv; [done|]. cbn [serve_all spec_serve_all].
  destruct (serve_functional_all w rt r Hinv) as [Ho Ha].
  pose proof (proj2 (serve_sim w rt r Hinv)) as Hinv1.
  destruct (serve rt r w) as [o w1], (spec_serve rt r (abs_of w)) as [o' a1]. cbn [fst snd] in *. subst o' a1.
  destruct (IH w1 Hinv1) as [Hos Ha2].
  destruct (serve_all rs w1) as [os w2], (spec_serve_all rs (abs_of w1)) as [os' a2]. cbn [fst snd] in *.
  by subst.
Qed.

(** ** What a client observes *)

(** C3: the example server, started on [mock.NewMgr()] with generator
    [g] and clock [t], answers any sequence of requests exactly as the
    functional contract [spec_serve] does from the empty store, the ids
    POST draws included; GET lists in the model's iteration order of
    [m.EntityList]. *)
Theorem server_functional g t reqs :
  (serve_all reqs (init_world g t)).1 = (spec_serve_all reqs (mkAState ∅ g t)).1.
Proof.
  rewrite <- (view_init g t). exact (proj1 (serve_all_functional reqs _ (inv_init g t))).
Qed.

(** C4: the layout of the heap is not observable: two worlds satisfying
    [inv] with the same store, generator and clock answer every
    sequence of requests with the same responses, wherever their
    objects lie and whatever unreferenced objects they hold. *)
Theorem representation_independence w1 w2 reqs :
  inv w1 -> inv w2 -> abs_of w1 = abs_of w2 ->
  (serve_all reqs w1).1 = (serve_all reqs w2).1.
Proof.
  intros H1 H2 Ha.
  rewrite (proj1 (serve_all_functional reqs w1 H1)), (proj1 (serve_all_functional reqs w2 H2)).
  by rewrite Ha.
Qed.
