(* ===== verification/Walkthrough.v ===== *)
(** * The spec's walk-through and the field-name case, from any world

    Section 8 of the spec walks one entity through POST, PATCH, GET,
    DELETE and GET.  The theorems below run that walk-through, and the
    POST/PATCH pair with the key spelt [STATUS_ID], from every world of
    the example server that satisfies [inv] and whose clock has left the
    epoch (so the id [xid.New] draws is non-nil).  They are proved on
    the functional contract of [Observation.v], which the handlers on
    the mock compute. *)

From stdpp Require Import base gmap strings list.
From Stdlib Require Import ZArith Lia.
From S2P Require Import Prelude Xid GoJson Http Crud ParseId ListModifiers Handler Mock MockFacts Server Invariant Refinement Typing Observation.

Open Scope Z_scope.
Import Status Xid.Encoding Xid.Generator Mock.Entity Mock.Manager Mock.Instances.

(** [json.Decode(&updates)] of a one-member object with a number. *)
Lemma decode_map_single k m f :
  Numbers.ParseFloat m = Some f -> Decode.decode_map (JObj [(k, JNum m)]) = Some {[k := JNum f]}.
Proof. intros Hf. cbn -[Numbers.ParseFloat]. rewrite Hf. reflexivity. Qed.

(** The body [to_json] renders for an entity with a non-nil id. *)
Lemma to_json_nonnil id n :
  ID_IsNil id = false -> to_json (mkEntity id n) = JObj [("id", JStr (ID_String id)); ("status_id", JNum n)].
Proof. intros Hn. unfold to_json. cbn [ID StatusID]. by rewrite Hn. Qed.

Section Walk.
Context (w : World).
Hypothesis Hinv : inv w.
Hypothesis Ht : 0 < clock w mod 2 ^ 32.

(** Reduce a run to [spec_serve_all], with the id [xid.New] draws named
    [id] and the request parameter [ID_String id] parsed. *)
Ltac walk_start :=
  cbv zeta; rewrite (proj1 (serve_all_functional _ w Hinv));
  destruct (NewWithTime_valid_nonnil (clock w) (gen w) Ht) as [Hv Hn];
  unfold new_id in *; destruct (NewWithTime (clock w) (gen w)) as [id g'] eqn:Hid; cbn [fst] in *;
  let Hp := fresh "Hp" in
  assert (Hp : forall b, parseIDFromRequest (mkRequest (ID_String id) "" b) = inl id)
    by (intros b; by apply ParseIdFacts.parseIDFromRequest_complete);
  unfold spec_serve_all, spec_serve, with_id;
  cbn [abs_of astore agen aclock ReqBody mbind option_bind]; rewrite !Hp.

(** C20: the walk-through of the spec, section 8, from any world
    satisfying [inv] after the epoch: POST [{"status_id":1}] answers 201
    with the new non-nil id and status 1; PATCH [{"status_id":2}] on
    that id 204; GET 200 with status 2; DELETE 202; GET again 404. *)
Theorem spec_walkthrough_any :
  let req b := mkRequest (ID_String (new_id w)) "" b in
  let body n := JObj [("id", JStr (ID_String (new_id w))); ("status_id", JNum n)] in
  (serve_all [(RPost, mkRequest "" "" (Some (JObj [("status_id", JNum 1)])));
              (RPatch, req (Some (JObj [("status_id", JNum 2)])));
              (RGet, req None); (RDelete, req None); (RGet, req None)] w).1 =
  [Some (mkResponse StatusCreated (JSONBody (body 1))); Some (mkResponse StatusNoContent NoBody);
   Some (mkResponse StatusOK (JSONBody (body 2))); Some (mkResponse StatusAccepted NoBody);
   Some (render_error gohttperror.ErrNotFound)].
Proof.
  walk_start. rewrite decode_status_only, Hid by lia.
  cbn [astore agen aclock set_store ReqBody StatusID ID mbind option_bind].
  rewrite (decode_map_single _ 2 2 eq_refl), lookup_singleton_eq, lookup_insert_eq.
  cbn [astore set_store StatusID ID]. rewrite lookup_insert_eq. cbn [astore set_store].
  rewrite lookup_insert_eq. cbn [astore set_store].
  rewrite lookup_delete_eq, !to_json_nonnil by done. reflexivity.
Qed.

(** C21: the struct decoder of POST matches [STATUS_ID] to the field
    [status_id] without regard to case, the merge-patch map of PATCH
    keeps the key as written: from any world satisfying [inv] after the
    epoch, POST [{"STATUS_ID": n}] creates an entity with status [n],
    PATCH [{"STATUS_ID": m}] on it answers 500, and GET still shows
    status [n]. *)
Theorem field_case_mismatch_any n m :
  - 2 ^ 63 <= n < 2 ^ 63 -> is_Some (Numbers.ParseFloat m) ->
  let req b := mkRequest (ID_String (new_id w)) "" b in
  let body := JObj [("id", JStr (ID_String (new_id w))); ("status_id", JNum n)] in
  (serve_all [(RPost, mkRequest "" "" (Some (JObj [("STATUS_ID", JNum n)])));
              (RPatch, req (Some (JObj [("STATUS_ID", JNum m)])));
              (RGet, req None)] w).1 =
  [Some (mkResponse StatusCreated (JSONBody body));
   Some (render_error (gohttperror.ErrInternal "bad request"));
   Some (mkResponse StatusOK (JSONBody body))].
Proof.
  intros Hn' [f Hf]. walk_start. rewrite (decode_status_key "STATUS_ID"), Hid by (done || lia).
  cbn [astore agen aclock set_store ReqBody StatusID ID mbind option_bind].
  rewrite (decode_map_single _ _ _ Hf), lookup_singleton_ne by done.
  cbn [astore]. rewrite lookup_insert_eq, !to_json_nonnil by done. reflexivity.
Qed.
End Walk.
