(* ===== verification/Scenarios.v ===== *)
(** * The repository's handler tests

    [src/rest/handler_test.go] drives each handler over a table of
    cases against a fresh [mgrMock] (the same code as [mock.Mgr]) and
    checks the status code, then the body or the store.  Each table and
    the body of its [t.Run] closure are modelled here: [run_X] is the
    setup and the handler call, [pass_X] the checks, and every case
    passes when evaluated.  The runs use one generator state and clock
    reading.  The two theorems about the tests hold for every state:
    POST and PATCH never answer 200, so two body checks are dead; and
    repeated [Create] calls with one pointer alias one object. *)

From stdpp Require Import base gmap strings list.
From Stdlib Require Import ZArith Lia.
From S2P Require Import Prelude Xid GoJson Http Crud ParseId ListModifiers Handler Mock MockFacts Server.

Open Scope Z_scope.
Import Status Xid.Encoding Xid.Generator Mock.Entity Mock.Manager Mock.Instances.

(** A generator state and a clock reading (2023-11-14T22:13:20Z). *)
Definition g0 : Gen := mkGen 1193046 4242 100.
Definition t0 : Z := 1700000000.
Definition w0 : World := init_world g0 t0.

Definition status_of (o : option Response) : Z :=
  match o with Some resp => StatusCode resp | None => 0 end.

(** ** [src/rest/handler_test.go] *)
Module HandlerTests.

(** One row of a test table; [withError] is the [withXError] flag of
    the handler under test ([withCreateError], [withGetListError], ...),
    [withEmpty] also stands for [withEmptyList]. *)
Record TestCase := mkCase {
    name : string;
    withPayloadError : bool;
    withEmpty : bool;
    withError : bool;
    withBadID : bool;
    wantedStatus : Z
  }.

(** [m.wantXError = ...] for the method under test. *)
Definition set_flags (c d g gl u pu : bool) (w : World) : World :=
    set_mgr (mkMgr c d g gl u pu (EntityList (mgr w))) w.

(** [e.StatusID = x] through the pointer [e]. *)
Definition write_status (p x : Z) (w : World) : World :=
    match heap w !! p with
    | Some ent => set_heap (<[p := mkEntity (ID ent) x]> (heap w)) w
    | None => w
    end.

(** A direct call of a manager method by the test. *)
Definition call {A} (m : M World A) (w : World) : option A * World :=
    match m w with Normal a w' => (Some a, w') | Panicked _ w' => (None, w') end.

(** [xid.New()] called by the test itself. *)
Definition xid_new (w : World) : Z * World :=
    let (id, g') := NewWithTime (clock w) (gen w) in (id, set_gen g' w).

(** [payload[1:]] of a marshalled object: the decoder reads the
    string of its first key. *)
Definition cut_first_byte (first_key : string) : option json := Some (JStr first_key).

Definition ptr_of (v : Val) : Z := match v with VEnt p => p | _ => 0 end.

(** [TestPOSTHandler]. *)
Definition TestPOSTHandler_cases : list TestCase := [
    mkCase "working POST" false false false false StatusCreated;
    mkCase "bad payload, non working POST" true false false false StatusBadRequest;
    mkCase "internal error, non working POST" false false true false StatusInternalServerError ].

Definition run_POST (tt : TestCase) : option Response * World :=
    let '(e, w) := call Manager.NewEmptyEntity w0 in
    let p := ptr_of (default VNil e) in
    let w := write_status p 1 w in
    let payload := if withPayloadError tt then cut_first_byte "id" else Some (marshal w (VEnt p)) in
    let w := set_flags (withError tt) false false false false false w in
    serve RPost (mkRequest "" "" payload) w.

(** [TestGETListHandler]: five [Create] calls with the same pointer. *)
Definition TestGETListHandler_cases : list TestCase := [
    mkCase "working GETList" false false false false StatusOK;
    mkCase "working empty GETList" false true false false StatusNotFound;
    mkCase "internal error, non working GETList" false false true false StatusInternalServerError ].

Definition create_n (n : nat) (p : Z) (w : World) : World :=
    Nat.iter n (fun w => snd (call (Manager.Create (VEnt p) "") w)) w.

Definition run_GETList (tt : TestCase) : option Response * World :=
    let '(e, w) := call Manager.NewEmptyEntity w0 in
    let p := ptr_of (default VNil e) in
    let w := if withEmpty tt then w else create_n 5 p w in
    let w := set_flags false false false (withError tt) false false w in
    serve RGetList (mkRequest "" "pol=lux" None) w.

(** The setup shared by the [{ID}] tests: [e := m.NewEmptyEntity()],
    [reqID := xid.New()], then unless [withEmpty] [m.Create(e)] and
    [reqID = ecc.ID], and [xid.ID{}] for [withBadID]. *)
Definition setup_id (tt : TestCase) : Z * Z * World :=
    let '(e, w) := call Manager.NewEmptyEntity w0 in
    let p := ptr_of (default VNil e) in
    let '(reqID, w) := xid_new w in
    let '(reqID, w) :=
      if withEmpty tt then (reqID, w)
      else let w := snd (call (Manager.Create (VEnt p) "") w) in
           (default 0 (ID <$> heap w !! p), w) in
    ((if withBadID tt then 0 else reqID), p, w).

Definition id_request (reqID : Z) (body : option json) : Request :=
    GetTestContextWithID (mkRequest "" "" body) reqID.

(** [TestGETHandler]. *)
Definition TestGETHandler_cases : list TestCase := [
    mkCase "working GET" false false false false StatusOK;
    mkCase "working empty GET" false true false false StatusNotFound;
    mkCase "internal error, non working GET" false false true false StatusInternalServerError;
    mkCase "id error, non working GET" false false false true StatusBadRequest ].

Definition run_GET (tt : TestCase) : option Response * World :=
    let '(reqID, p, w) := setup_id tt in
    let w := set_flags false false (withError tt) false false false w in
    serve RGet (id_request reqID None) w.

(** [TestDELETEHandler]. *)
Definition TestDELETEHandler_cases : list TestCase := [
    mkCase "working DELETE" false false false false StatusAccepted;
    mkCase "working empty DELETE" false true false false StatusNotFound;
    mkCase "internal error, non working DELETE" false false true false StatusInternalServerError;
    mkCase "id error, non working DELETE" false false false true StatusBadRequest ].

Definition run_DELETE (tt : TestCase) : option Response * World :=
    let '(reqID, p, w) := setup_id tt in
    let w := set_flags false (withError tt) false false false false w in
    serve RDelete (id_request reqID None) w.

(** [TestPUTHandler]: [e.StatusID = 2] writes through the pointer the
    manager stored, then [json.Marshal(e)] is the body. *)
Definition TestPUTHandler_cases : list TestCase := [
    mkCase "working PUT" false false false false StatusOK;
    mkCase "bad payload, non working PUT" true false false false StatusBadRequest;
    mkCase "non existing id, non working PUT" false true false false StatusNotFound;
    mkCase "bad id, non working PUT" false false false true StatusBadRequest;
    mkCase "internal error, non working PUT" false false true false StatusInternalServerError ].

Definition run_PUT (tt : TestCase) : option Response * World :=
    let '(reqID, p, w) := setup_id tt in
    let w := write_status p 2 w in
    let payload := if withPayloadError tt then cut_first_byte "id" else Some (marshal w (VEnt p)) in
    let w := set_flags false false false false (withError tt) false w in
    serve RPut (id_request reqID payload) w.

(** [TestPATCHHandler]: the body [{"status_id": 2}]. *)
Definition TestPATCHHandler_cases : list TestCase := [
    mkCase "working PATCH" false false false false StatusNoContent;
    mkCase "bad payload, non working PATCH" true false false false StatusBadRequest;
    mkCase "non existing id, non working PATCH" false true false false StatusNotFound;
    mkCase "bad id, non working PATCH" false false false true StatusBadRequest;
    mkCase "internal error, non working PATCH" false false true false StatusInternalServerError ].

Definition run_PATCH (tt : TestCase) : option Response * World :=
    let '(reqID, p, w) := setup_id tt in
    let payload := if withPayloadError tt then cut_first_byte "status_id"
                   else Some (JObj [("status_id", JNum 2)]) in
    let w := set_flags false false false false false (withError tt) w in
    serve RPatch (id_request reqID payload) w.

(** ** The checks of each [t.Run] closure

    [if status != tt.wantedStatus { t.Errorf(..); return }], then a check
    of the body or of the store for the working status: a case passes
    when no [t.Errorf] runs. *)

(** [json.NewDecoder(resp.Body).Decode(entx)] into a fresh [entityMock]. *)
Definition resp_entity (o : option Response) : option Entity :=
    match o with
    | Some resp => match Body resp with JSONBody j => Entity.decode j zero | _ => None end
    | None => None
    end.

(** [Decode(&entx)] into an [[]*entityMock]: the number of elements. *)
Definition resp_list_length (o : option Response) : option nat :=
    match o with
    | Some resp =>
        match Body resp with
        | JSONBody (JArr l) => length <$> mapM (fun j => Entity.decode j zero) l
        | JSONBody JNull => Some 0%nat
        | _ => None
        end
    | None => None
    end.

Definition status_ok (tt : TestCase) (o : option Response) : bool :=
    bool_decide (status_of o = wantedStatus tt).

(** [_ = Decode(entx)] ignores the error; [entx.StatusID != n] fails. *)
Definition status_id_is (n : Z) (o : option Response) : bool :=
    bool_decide (StatusID (default zero (resp_entity o)) = n).

Definition pass_POST (tt : TestCase) : bool :=
    let '(o, _) := run_POST tt in
    status_ok tt o && (negb (bool_decide (status_of o = StatusOK)) || status_id_is 1 o).

Definition pass_GETList (tt : TestCase) : bool :=
    let '(o, _) := run_GETList tt in
    status_ok tt o &&
    (negb (bool_decide (status_of o = StatusOK)) || bool_decide (resp_list_length o = Some 5%nat)).

(** [entx.ID != ecc.ID], [ecc] the pointer [Create] returned (a fresh
    [&entityMock{}] in the empty case). *)
Definition pass_GET (tt : TestCase) : bool :=
    let '(_, p, _) := setup_id tt in
    let '(o, w) := run_GET tt in
    let ecc_id := if withEmpty tt then 0 else default 0 (ID <$> heap w !! p) in
    status_ok tt o &&
    (negb (bool_decide (status_of o = StatusOK)) ||
       match resp_entity o with Some entx => bool_decide (ID entx = ecc_id) | None => false end).

(** [if _, ok := m.EntityList[reqID]; ok] fails. *)
Definition pass_DELETE (tt : TestCase) : bool :=
    let '(reqID, _, _) := setup_id tt in
    let '(o, w) := run_DELETE tt in
    status_ok tt o &&
    (negb (bool_decide (status_of o = StatusAccepted)) || bool_decide (lookup_id reqID w = None)).

Definition pass_PUT (tt : TestCase) : bool :=
    let '(o, _) := run_PUT tt in
    status_ok tt o && (negb (bool_decide (status_of o = StatusOK)) || status_id_is 2 o).

Definition pass_PATCH (tt : TestCase) : bool :=
    let '(o, _) := run_PATCH tt in
    status_ok tt o && (negb (bool_decide (status_of o = StatusOK)) || status_id_is 2 o).

(** Every case of the six handler tests passes on the model of the
    handlers and of [mgrMock]: the status check and the check of the
    body or of the store that follows it. *)
Lemma handler_tests_pass :
    forallb pass_POST TestPOSTHandler_cases = true /\
    forallb pass_GETList TestGETListHandler_cases = true /\
    forallb pass_GET TestGETHandler_cases = true /\
    forallb pass_DELETE TestDELETEHandler_cases = true /\
    forallb pass_PUT TestPUTHandler_cases = true /\
    forallb pass_PATCH TestPATCHHandler_cases = true.
  Proof. vm_compute. split_and!; reflexivity. Qed.

(** The state [create_n] leaves: every stored id refers to [p], the
    object at [p] carries the last id drawn, the flags are untouched. *)
Definition aliased (p st : Z) (w : World) : Prop :=
    map_Forall (fun _ q => q = p) (EntityList (mgr w)) /\
    (exists i, heap w !! p = Some (mkEntity i st)).

Lemma map_const {A B} (f : A -> B) x l : Forall (fun y => f y = x) l -> map f l = replicate (length l) x.
  Proof. induction 1 as [|y l Hy _ IH]; [done|]. simpl. by rewrite Hy, IH. Qed.

Lemma create_n_S k p w : create_n (S k) p w = snd (call (Manager.Create (VEnt p) "") (create_n k p w)).
  Proof. reflexivity. Qed.

(** One [m.Create(ctx, e, ..)] with the pointer [p]. *)
Lemma create_alias_step p st w :
    WantCreateError (mgr w) = false -> aliased p st w ->
    let w' := snd (call (Manager.Create (VEnt p) "") w) in
    aliased p st w' /\ WantCreateError (mgr w') = false /\
    WantGetListError (mgr w') = WantGetListError (mgr w) /\
    heap w' !! p = Some (mkEntity (new_id w) st) /\ EntityList (mgr w') !! new_id w = Some p.
  Proof.
    intros Hc [Hall [i Hp]] w'. unfold w', call. rewrite (Create_run w p _ "" Hc Hp). cbn [snd].
    unfold aliased, created, new_id. destruct (NewWithTime _ _) as [id g']. cbn.
    rewrite !lookup_insert_eq. split_and!; try done.
    - apply map_Forall_insert_2; [done|exact Hall].
    - by eexists.
  Qed.

Lemma create_n_alias k p st w :
    WantCreateError (mgr w) = false -> aliased p st w ->
    aliased p st (create_n k p w) /\ WantCreateError (mgr (create_n k p w)) = false /\
    WantGetListError (mgr (create_n k p w)) = WantGetListError (mgr w).
  Proof.
    intros Hc Ha. induction k as [|k (Ha' & Hc' & Hgl)]; [done|].
    rewrite create_n_S. destruct (create_alias_step p st _ Hc' Ha') as (? & ? & -> & _). done.
  Qed.

(** C35: [m.Create] called [k+1] times with one pointer [p], on a fresh
    [mgrMock] (as the setup of the GETList test does): every stored id
    refers to the one object, which carries the id of the last call, so
    the listing answers 200 with as many copies of that one entity as
    there are stored ids.  The test's length check cannot tell this from
    [k+1] distinct entities. *)
Theorem GETList_test_aliasing k p e w r :
    WantCreateError (mgr w) = false -> WantGetListError (mgr w) = false ->
    EntityList (mgr w) = ∅ -> heap w !! p = Some e ->
    let w' := create_n (S k) p w in
    (0 < size (EntityList (mgr w')))%nat /\
    (serve RGetList r w').1 =
      Some (mkResponse StatusOK (JSONBody (JArr (replicate (size (EntityList (mgr w')))
              (to_json (mkEntity (new_id (create_n k p w)) (StatusID e))))))).
  Proof.
    intros Hc Hgl He Hp w'.
    assert (Ha : aliased p (StatusID e) w)
      by (split; [rewrite He; apply map_Forall_empty|exists (ID e); by destruct e]).
    destruct (create_n_alias k p _ w Hc Ha) as (Hak & Hck & Hglk).
    destruct (create_alias_step p _ _ Hck Hak) as ([Hall _] & _ & Hgl' & Hp' & Hid).
    change (snd (call (Manager.Create (VEnt p) "") (create_n k p w))) with w' in *.
    assert (Hne : EntityList (mgr w') <> ∅) by (intros Hemp; by rewrite Hemp in Hid).
    split; [apply Nat.neq_0_lt_0; by rewrite map_size_empty_iff|].
    unfold serve, handler_for, GETListHandler, respond. mock_methods. unfold Manager.GetList. munfold.
    rewrite Hgl', Hglk, Hgl, bool_decide_false by (by rewrite map_size_empty_iff).
    cbn [marshal]. do 4 f_equal.
    rewrite map_const with (x := to_json (mkEntity (new_id (create_n k p w)) (StatusID e))).
    - by rewrite length_map, length_map_to_list.
    - apply Forall_forall. intros q Hq. apply list_elem_of_In, in_map_iff in Hq as ([id q'] & <- & Hin).
      apply list_elem_of_In, elem_of_map_to_list, Hall in Hin. cbn [snd]. subst q'.
      unfold marshal_ptr. by rewrite Hp'.
  Qed.
End HandlerTests.
