(* ===== verification/Drain.v ===== *)
(** * Draining the store through the HTTP surface

    A client empties the example server by listing ([GET /e]) and
    deleting ([DELETE /e/{ID}]) the first entity the listing shows, until
    the listing answers 404.  [drain] is that loop, with fuel.  It uses
    only what the server renders: the ["id"] text of a listed entity is
    the route parameter of the DELETE, so the loop composes the
    rendering of [Mock.Entity.to_json] with [parseIDFromRequest].

    Every entity a POST creates is stored under its own id, which is
    non-nil once the clock has left the epoch ([ids_ok]).  From such a
    store the loop deletes one entity per round, so it stops by itself
    after [size] rounds and leaves the store empty.  A PUT whose body has
    no ["id"] breaks [ids_ok]: the entity is then listed with
    ["id": null] and the loop stops with the entity still stored. *)

From stdpp Require Import base gmap strings list.
From Stdlib Require Import ZArith Lia.
From S2P Require Import Prelude Xid GoJson Http Crud ParseId ListModifiers Handler Mock MockFacts Server Invariant Refinement Typing Observation Scenarios.

Open Scope Z_scope.
Import Status Xid.Encoding Xid.Generator Mock.Entity Mock.Manager Mock.Instances.

Definition list_request : Request := mkRequest "" "" None.

Definition delete_request (s : string) : Request := mkRequest s "" None.

(** The ["id"] text of the first entity of a listing. *)
Definition first_listed_id (o : option Response) : option string :=
  match o with
  | Some (mkResponse _ (JSONBody (JArr (JObj ((k, JStr s) :: _) :: _)))) =>
      if bool_decide (k = "id") then Some s else None
  | _ => None
  end.

(** List, then delete the first listed entity, until the listing shows
    no id: the responses, and the world at the end. *)
Fixpoint drain (fuel : nat) (w : World) : list (option Response) * World :=
  match fuel with
  | O => ([], w)
  | S n =>
      let '(o, w1) := serve RGetList list_request w in
      match first_listed_id o with
      | None => ([o], w1)
      | Some s =>
          let '(o', w2) := serve RDelete (delete_request s) w1 in
          let '(os, w3) := drain n w2 in
          (o :: o' :: os, w3)
      end
  end.

(** Every stored entity carries its key as its id, a non-nil id. *)
Definition ids_ok (A : Abs) : Prop :=
  map_Forall (fun id e => ID e = id /\ valid_id id /\ ID_IsNil id = false) A.

Lemma ids_ok_delete A id : ids_ok A -> ids_ok (delete id A).
Proof. apply map_Forall_delete. Qed.

(** ** One round *)

Section Round.
Context (w : World).
Hypothesis Hinv : inv w.

(** A listing changes nothing the client can see. *)
Lemma list_keeps :
  (serve RGetList list_request w).1 = (spec_serve RGetList list_request (abs_of w)).1 /\
  inv (serve RGetList list_request w).2 /\ view (serve RGetList list_request w).2 = view w.
Proof.
  destruct (GETList_functional w list_request Hinv) as [Ho Ha].
  split_and!; [done|exact (proj2 (serve_sim w _ _ Hinv))|].
  apply (f_equal astore) in Ha. cbn [abs_of astore] in Ha. rewrite Ha. unfold spec_serve. by case_bool_decide.
Qed.

Lemma list_empty :
  view w = ∅ ->
  (serve RGetList list_request w).1 = Some (render_error gohttperror.ErrNotFound) /\
  first_listed_id (serve RGetList list_request w).1 = None.
Proof.
  intros He. destruct list_keeps as [-> _]. unfold spec_serve. cbn [abs_of astore].
  by rewrite bool_decide_true.
Qed.

(** On a non-empty store satisfying [ids_ok], the listing shows the id
    of a stored entity, and its DELETE answers 202 and removes it. *)
Lemma list_then_delete :
  ids_ok (view w) -> view w <> ∅ ->
  exists id, is_Some (view w !! id) /\
    first_listed_id (serve RGetList list_request w).1 = Some (ID_String id) /\
    (serve RDelete (delete_request (ID_String id)) (serve RGetList list_request w).2).1 =
      Some (mkResponse StatusAccepted NoBody) /\
    inv (serve RDelete (delete_request (ID_String id)) (serve RGetList list_request w).2).2 /\
    view (serve RDelete (delete_request (ID_String id)) (serve RGetList list_request w).2).2 =
      delete id (view w).
Proof.
  intros Hok Hne. destruct list_keeps as (Ho & Hi1 & Hv1).
  destruct (map_to_list (view w)) as [|[id e] l] eqn:Hl; [by apply map_to_list_empty_iff in Hl|].
  assert (He : view w !! id = Some e) by (apply elem_of_map_to_list; rewrite Hl; left).
  destruct (Hok id e He) as (Hid & Hv & Hn).
  assert (Hp : parseIDFromRequest (delete_request (ID_String id)) = inl id)
    by (by apply ParseIdFacts.parseIDFromRequest_complete).
  destruct (by_id_functional _ (delete_request (ID_String id)) Hi1 RDelete eq_refl) as [Hd Ha].
  apply (f_equal astore) in Ha. cbn [abs_of astore] in Ha.
  exists id. split_and!; [by eexists| | | |].
  - rewrite Ho. unfold spec_serve. cbn [abs_of astore]. rewrite bool_decide_false by done.
    rewrite Hl. cbn. rewrite Hid, Hn. reflexivity.
  - rewrite Hd. unfold spec_serve, with_id. rewrite Hp. cbn [abs_of astore]. by rewrite Hv1, He.
  - exact (proj2 (serve_sim _ _ _ Hi1)).
  - rewrite Ha. unfold spec_serve, with_id. rewrite Hp. cbn [abs_of astore]. by rewrite Hv1, He.
Qed.
End Round.

Lemma last_cons2 {A} (x y : A) l : l <> [] -> last (x :: y :: l) = last l.
Proof. destruct l; [done|]. intros _. by rewrite !last_cons_cons. Qed.

(** ** The loop *)

Section Loop.

Lemma drain_unfold n w :
  drain (S n) w =
    let '(o, w1) := serve RGetList list_request w in
    match first_listed_id o with
    | None => ([o], w1)
    | Some s =>
        let '(o', w2) := serve RDelete (delete_request s) w1 in
        let '(os, w3) := drain n w2 in
        (o :: o' :: os, w3)
    end.
Proof. reflexivity. Qed.

(** C17: liveness of the drain loop: from a world satisfying [inv] whose
    store satisfies [ids_ok], given more rounds than stored entities,
    the list-and-delete loop deletes one entity per round through the
    HTTP surface, ends on the 404 of an empty listing, and leaves the
    store empty. *)
Theorem drain_empties n w :
  inv w -> ids_ok (view w) -> (size (view w) < n)%nat ->
  view (drain n w).2 = ∅ /\ length (drain n w).1 = (2 * size (view w) + 1)%nat /\
  last (drain n w).1 = Some (Some (render_error gohttperror.ErrNotFound)).
Proof.
  revert w. induction n as [|n IH]; intros w Hinv Hok Hn; [lia|]. cbn [drain].
  destruct (decide (view w = ∅)) as [He|Hne].
  - destruct (list_empty w Hinv He) as [Ho Hf]. destruct (list_keeps w Hinv) as (_ & _ & Hv).
    destruct (serve RGetList list_request w) as [o w1]. cbn [fst snd] in *. rewrite Hf.
    subst o. rewrite He in Hv |- *. by rewrite map_size_empty.
  - destruct (list_then_delete w Hinv Hok Hne) as (id & [e He] & Hf & Hd & Hi2 & Hv2).
    destruct (serve RGetList list_request w) as [o w1]. cbn [fst snd] in *. rewrite Hf.
    destruct (serve RDelete _ w1) as [o' w2]. cbn [fst snd] in *.
    pose proof (map_size_delete_Some id (view w) ltac:(by eexists)) as Hs.
    assert (Hpos : size (view w) <> 0%nat) by (rewrite map_size_empty_iff; done).
    rewrite <- Hv2 in Hs.
    destruct (IH w2 Hi2 ltac:(rewrite Hv2; by apply ids_ok_delete) ltac:(lia)) as (He2 & Hl & Hlast).
    destruct (drain n w2) as [os w3]. cbn [fst snd length] in *.
    split_and!; [done|lia|]. rewrite last_cons2; [done|]. intros ->. done.
Qed.

(** Fuel beyond the size of the store changes nothing: the loop stops
    on its own. *)
Lemma drain_S n w :
  inv w -> ids_ok (view w) -> (size (view w) < n)%nat -> drain (S n) w = drain n w.
Proof.
  revert w. induction n as [|n IH]; intros w Hinv Hok Hn; [lia|].
  rewrite (drain_unfold (S n) w), (drain_unfold n w).
  destruct (decide (view w = ∅)) as [He|Hne].
  - destruct (list_empty w Hinv He) as [_ Hf].
    destruct (serve RGetList list_request w) as [o w1]. cbn [fst snd] in *. by rewrite Hf.
  - destruct (list_then_delete w Hinv Hok Hne) as (id & [e He] & Hf & Hd & Hi2 & Hv2).
    destruct (serve RGetList list_request w) as [o w1]. cbn [fst snd] in *. rewrite Hf.
    destruct (serve RDelete _ w1) as [o' w2]. cbn [fst snd] in *.
    pose proof (map_size_delete_Some id (view w) ltac:(by eexists)) as Hs.
    assert (Hpos : size (view w) <> 0%nat) by (rewrite map_size_empty_iff; done).
    rewrite <- Hv2 in Hs.
    rewrite (IH w2 Hi2 ltac:(rewrite Hv2; by apply ids_ok_delete) ltac:(lia)). done.
Qed.

(** C18: the drain loop terminates by itself: once the fuel exceeds the
    number of stored entities, more fuel gives the same responses and
    the same final world. *)
Theorem drain_stops n m w :
  inv w -> ids_ok (view w) -> (size (view w) < n)%nat -> (n <= m)%nat -> drain m w = drain n w.
Proof.
  intros Hinv Hok Hn Hm. induction Hm as [|m Hm IH]; [done|].
  rewrite drain_S by (done || lia). exact IH.
Qed.
End Loop.

(** ** An entity listed with a nil id stops the loop *)

(** C19: in any world satisfying [inv], when the first entity of the
    listing carries the nil id (as a PUT whose body has no ["id"] leaves
    it, [PUT_drops_id]), the listing renders it with ["id": null]: the drain loop
    stops after that one listing, whatever its fuel, with the store
    unchanged and non-empty. *)
Theorem drain_stuck_at_nil_id n w id e l :
  inv w -> map_to_list (view w) = (id, e) :: l -> ID_IsNil (ID e) = true ->
  (drain (S n) w).1 =
    [Some (mkResponse StatusOK (JSONBody (JArr (to_json <$> (snd <$> map_to_list (view w))))))] /\
  view (drain (S n) w).2 = view w /\ view w <> ∅.
Proof.
  intros Hinv Hl Hnil.
  assert (Hne : view w <> ∅) by (intros He; by rewrite He, map_to_list_empty in Hl).
  destruct (list_keeps w Hinv) as (Ho & _ & Hv).
  assert (Hf : first_listed_id (serve RGetList list_request w).1 = None).
  { rewrite Ho. unfold spec_serve. cbn [abs_of astore]. rewrite bool_decide_false by done.
    rewrite Hl. cbn. by rewrite Hnil. }
  rewrite drain_unfold. destruct (serve RGetList list_request w) as [o w1]. cbn [fst snd] in *.
  rewrite Hf. cbn [fst snd]. split_and!; [|done|done].
  rewrite Ho. unfold spec_serve. cbn [abs_of astore]. by rewrite bool_decide_false.
Qed.
