(* ===== verification/Benchmarks.v ===== *)
(** * The benchmarks of [src/rest/handler_test.go]

    Each [BenchmarkXHandler] sets up a [mgrMock], then sends one request
    [b.N] times to the same manager.  [bench_loop] is that loop, the
    [BenchmarkX] definitions their setups.  The theorem shows that, for
    every [b.N], every iteration takes the handler's success path: the
    benchmarks measure what their names say.  The argument is the
    simulation of [Refinement.v]: each benchmark keeps [inv] and the
    abstract facts its request needs (the id stored, the store non-empty),
    and from those [spec_step] leaves one outcome. *)

From stdpp Require Import base gmap strings list.
From Stdlib Require Import ZArith Lia.
From S2P Require Import Prelude Xid GoJson Http Crud ParseId ListModifiers Handler Mock MockFacts Server Invariant Refinement Typing Observation Scenarios.

Open Scope Z_scope.
Import Status Xid.Encoding Xid.Generator Mock.Entity Mock.Manager Mock.Instances Scenarios.HandlerTests.

(** [for i := 0; i < b.N; i++ { ..; handler(m)(rr, req) }]: the
    responses of the iterations. *)
Fixpoint bench_loop (n : nat) (step : World -> option Response * World) (w : World)
    : list (option Response) :=
  match n with
  | O => []
  | S n' => let '(o, w') := step w in o :: bench_loop n' step w'
  end.

(** [e := m.NewEmptyEntity()], [ec, _ := m.Create(ctx, e, ..)],
    [reqID := ec.ID]: the id and the world. *)
Definition bench_create (w : World) : Z * World :=
  let '(e, w) := call Manager.NewEmptyEntity w in
  let p := ptr_of (default VNil e) in
  let w := snd (call (Manager.Create (VEnt p) "") w) in
  (default 0 (ID <$> heap w !! p), w).

(** [BenchmarkPOSTHandler]: the body [json.Marshal(&entityMock{})]. *)
Definition BenchmarkPOSTHandler (N : nat) : list (option Response) :=
  bench_loop N (serve RPost (mkRequest "" "" (Some (to_json zero)))) w0.

(** [BenchmarkGETListHandler]: five [Create] calls with one pointer. *)
Definition BenchmarkGETListHandler (N : nat) : list (option Response) :=
  let '(e, w) := call Manager.NewEmptyEntity w0 in
  let w := create_n 5 (ptr_of (default VNil e)) w in
  bench_loop N (serve RGetList (mkRequest "" "" None)) w.

Definition BenchmarkGETHandler (N : nat) : list (option Response) :=
  let '(reqID, w) := bench_create w0 in
  bench_loop N (serve RGet (id_request reqID None)) w.

(** [BenchmarkDELETEHandler]: each iteration creates the entity it
    deletes. *)
Definition BenchmarkDELETEHandler (N : nat) : list (option Response) :=
  bench_loop N (fun w => let '(reqID, w) := bench_create w in
                         serve RDelete (id_request reqID None) w) w0.

(** [BenchmarkPUTHandler]: [e.StatusID = 2], then [json.Marshal(e)]. *)
Definition BenchmarkPUTHandler (N : nat) : list (option Response) :=
  let '(e, w) := call Manager.NewEmptyEntity w0 in
  let p := ptr_of (default VNil e) in
  let w := snd (call (Manager.Create (VEnt p) "") w) in
  let reqID := default 0 (ID <$> heap w !! p) in
  let w := write_status p 2 w in
  bench_loop N (serve RPut (id_request reqID (Some (marshal w (VEnt p))))) w.

Definition BenchmarkPATCHHandler (N : nat) : list (option Response) :=
  let '(reqID, w) := bench_create w0 in
  bench_loop N (serve RPatch (id_request reqID (Some (JObj [("status_id", JNum 2)])))) w.

(** ** A loop whose every step keeps [P] and answers as [Q] requires *)

Lemma bench_loop_ok (P : World -> Prop) (Q : option Response -> Prop) step :
  (forall w, P w -> Q (step w).1 /\ P (step w).2) ->
  forall n w, P w -> Forall Q (bench_loop n step w).
Proof.
  intros Hstep n. induction n as [|n IH]; intros w Hw; [constructor|].
  simpl. destruct (Hstep w Hw) as [HQ HP]. destruct (step w) as [o w'] eqn:Hs.
  simpl in *. constructor; [done|]. by apply IH.
Qed.

(** ** What the contract leaves for the benchmarks' requests *)

Section SpecOutcomes.
Context (A A' : Abs) (r : Request) (o : option Response).

(** Close the impossible constructors of an inverted [spec_step]. *)
Ltac spec_cases Hs :=
  inversion Hs; subst;
  repeat match goal with
         | H1 : ?x = ?a, H2 : ?x = ?b |- _ => assert_fails (unify a b); rewrite H1 in H2
         end;
  simplify_eq/=; try done; try congruence.

Lemma spec_post_ok j e :
    ReqBody r = Some j -> Entity.decode j zero = Some e -> spec_step A RPost r o A' ->
    status_of o = StatusCreated.
  Proof.
    intros Hb Hd Hs. spec_cases Hs.
    match goal with H : ReqBody _ ≫= _ = None |- _ => rewrite Hb in H; simpl in H; congruence end.
  Qed.

Lemma spec_list_ok : A <> ∅ -> spec_step A RGetList r o A' -> status_of o = StatusOK /\ A' = A.
  Proof. intros Hne Hs. by spec_cases Hs. Qed.

Lemma spec_get_ok id :
    parseIDFromRequest r = inl id -> is_Some (A !! id) -> spec_step A RGet r o A' ->
    status_of o = StatusOK /\ A' = A.
  Proof. intros Hp [e He] Hs. by spec_cases Hs. Qed.

Lemma spec_delete_ok id :
    parseIDFromRequest r = inl id -> is_Some (A !! id) -> spec_step A RDelete r o A' ->
    status_of o = StatusAccepted.
  Proof. intros Hp [e He] Hs. by spec_cases Hs. Qed.

Lemma spec_put_ok id e :
    parseIDFromRequest r = inl id -> put_decode (ReqBody r) = Some (Some e) -> is_Some (A !! id) ->
    spec_step A RPut r o A' -> status_of o = StatusOK /\ A' = <[id := e]> A.
  Proof. intros Hp Hd [e' He] Hs. by spec_cases Hs. Qed.

Lemma spec_patch_ok id pud f :
    parseIDFromRequest r = inl id -> ReqBody r ≫= Decode.decode_map = Some pud ->
    pud !! "status_id" = Some (JNum f) -> is_Some (A !! id) ->
    spec_step A RPatch r o A' -> status_of o = StatusNoContent /\ is_Some (A' !! id).
  Proof.
    intros Hp Hd Hk [e He] Hs. spec_cases Hs;
      try (match goal with H : forall f, _ <> JNum f |- _ => by destruct (H f) end).
    all: split; [done|]; rewrite lookup_insert_eq; by eexists.
  Qed.
End SpecOutcomes.

(** ** The setups *)

(** [bench_create] on a world satisfying [inv]: the new id, stored, in
    a world satisfying [inv], the clock unchanged. *)
Lemma bench_create_spec w :
  inv w ->
  (bench_create w).1 = new_id w /\ inv (bench_create w).2 /\
  is_Some (view (bench_create w).2 !! new_id w) /\ clock (bench_create w).2 = clock w.
Proof.
  intros Hinv. pose proof Hinv as [Hwf (Hc & _)]. destruct (alloc_fresh w Hwf) as [Hu Hp].
  unfold bench_create, call. rewrite NewEmptyEntity_run. cbn [fst snd default id ptr_of].
  rewrite (Create_run (alloc w) (next_ptr w) zero "" Hc Hp). cbn [fst snd].
  rewrite created_heap, bool_decide_true by done. cbn [fmap option_fmap option_map default id ID].
  split_and!; [done| eauto with wf | |].
  - rewrite view_created by (done || apply wf_alloc, Hwf || by eexists).
    rewrite lookup_insert_eq. by eexists.
  - unfold created. by destruct (NewWithTime _ _).
Qed.

(** [parseIDFromRequest] of the request [GetTestContextWithID] builds
    for an id [xid.New] returned after the epoch. *)
Lemma id_request_parse w b :
  0 < clock w mod 2 ^ 32 -> parseIDFromRequest (id_request (new_id w) b) = inl (new_id w).
Proof.
  intros Ht. destruct (NewWithTime_valid_nonnil (clock w) (gen w) Ht) as [Hv Hn].
  by apply ParseIdFacts.parseIDFromRequest_complete.
Qed.

(** A loop of one request on a world satisfying [inv], when every
    abstract step the contract allows from a store satisfying [A] answers
    as [Q] requires and keeps [A]. *)
Lemma serve_loop_ok rt r (A : Abs -> Prop) (Q : option Response -> Prop) :
  (forall A0 o A', A A0 -> spec_step A0 rt r o A' -> Q o /\ A A') ->
  forall n w, inv w -> A (view w) -> Forall Q (bench_loop n (serve rt r) w).
Proof.
  intros Hstep n w Hi Ha.
  apply (bench_loop_ok (fun w => inv w /\ A (view w))); [|done].
  intros w' [Hi' Ha']. destruct (serve_sim w' rt r Hi') as [Hs Hi''].
  destruct (Hstep _ _ _ Ha' Hs). done.
Qed.

Lemma t0_after_epoch : 0 < clock w0 mod 2 ^ 32.
Proof. done. Qed.

Lemma bench_create_w0 :
  (bench_create w0).1 = new_id w0 /\ inv (bench_create w0).2 /\
  is_Some (view (bench_create w0).2 !! new_id w0) /\ clock (bench_create w0).2 = clock w0.
Proof. apply bench_create_spec, inv_init. Qed.

(** ** Each benchmark takes its handler's success path on every iteration *)

Lemma BenchmarkPOSTHandler_ok N : Forall (fun o => status_of o = StatusCreated) (BenchmarkPOSTHandler N).
Proof.
  apply (serve_loop_ok _ _ (fun _ => True)); [|apply inv_init|done].
  intros A0 o A' _ Hs. split; [|done]. by eapply (spec_post_ok A0 A' _ o (to_json zero)); [| |exact Hs].
Qed.

Lemma BenchmarkGETHandler_ok N : Forall (fun o => status_of o = StatusOK) (BenchmarkGETHandler N).
Proof.
  unfold BenchmarkGETHandler. destruct bench_create_w0 as (Hid & Hinv & Hs & _).
  destruct (bench_create w0) as [reqID w] eqn:E; simpl in *; subst reqID.
  apply (serve_loop_ok _ _ (fun A => is_Some (A !! new_id w0))); [|done..].
  intros A0 o A' Ha Hst. destruct (spec_get_ok _ _ _ _ _ (id_request_parse w0 None t0_after_epoch) Ha Hst) as [-> ->].
  done.
Qed.

Lemma BenchmarkPATCHHandler_ok N : Forall (fun o => status_of o = StatusNoContent) (BenchmarkPATCHHandler N).
Proof.
  unfold BenchmarkPATCHHandler. destruct bench_create_w0 as (Hid & Hinv & Hs & _).
  destruct (bench_create w0) as [reqID w] eqn:E; simpl in *; subst reqID.
  apply (serve_loop_ok _ _ (fun A => is_Some (A !! new_id w0))); [|done..].
  intros A0 o A' Ha Hst.
  eapply (spec_patch_ok _ _ _ _ _ _ _ (id_request_parse w0 (Some (JObj [("status_id", JNum 2)])) t0_after_epoch)); [reflexivity|reflexivity|done|exact Hst].
Qed.

(** The setup of [BenchmarkPUTHandler]: the object [e] of [bench_create]
    with [StatusID = 2], and its [json.Marshal] as the body. *)
Lemma BenchmarkPUTHandler_setup N :
  let ws := write_status (next_ptr w0) 2 (bench_create w0).2 in
  BenchmarkPUTHandler N =
    bench_loop N (serve RPut (id_request (bench_create w0).1 (Some (marshal ws (VEnt (next_ptr w0)))))) ws.
Proof. intros ws. unfold BenchmarkPUTHandler, ws, bench_create. reflexivity. Qed.

Lemma BenchmarkPUTHandler_ok N : Forall (fun o => status_of o = StatusOK) (BenchmarkPUTHandler N).
Proof.
  rewrite BenchmarkPUTHandler_setup. destruct bench_create_w0 as (Hid & Hinv & _). rewrite Hid.
  apply (serve_loop_ok _ _ (fun A => is_Some (A !! new_id w0))).
  - intros A0 o A' Ha Hst.
    match type of Hst with spec_step _ _ (id_request _ ?b) _ _ =>
      destruct (spec_put_ok A0 A' _ o _ (mkEntity (new_id w0) 2) (id_request_parse w0 b t0_after_epoch)
                  ltac:(by vm_compute) Ha Hst) as [-> ->] end.
    split; [done|]. rewrite lookup_insert_eq. by eexists.
  - unfold write_status. destruct (heap _ !! _) eqn:He; [|done]. eauto with wf.
  - by vm_compute; eexists.
Qed.

(** [BenchmarkGETListHandler] lists the five ids of its setup, which
    share one object (so [inv] does not hold of its world): the listing
    is a read, and the world after it is the world before. *)
Lemma BenchmarkGETListHandler_step :
  let ws := let '(e, w) := call Manager.NewEmptyEntity w0 in create_n 5 (ptr_of (default VNil e)) w in
  status_of (serve RGetList (mkRequest "" "" None) ws).1 = StatusOK /\
  (serve RGetList (mkRequest "" "" None) ws).2 = ws.
Proof. vm_compute. split; reflexivity. Qed.

Lemma BenchmarkGETListHandler_ok N : Forall (fun o => status_of o = StatusOK) (BenchmarkGETListHandler N).
Proof.
  destruct BenchmarkGETListHandler_step as [Hst Hw]. unfold BenchmarkGETListHandler.
  destruct (call Manager.NewEmptyEntity w0) as [e w] eqn:E.
  apply (bench_loop_ok (fun w' => w' = create_n 5 (ptr_of (default VNil e)) w)); [|done].
  intros w' ->. by rewrite Hst, Hw.
Qed.

(** [BenchmarkDELETEHandler]: each iteration creates an entity with a
    fresh id and deletes it; the clock stays at the setup's reading, so
    every id is non-nil and parses. *)
Lemma BenchmarkDELETEHandler_ok N : Forall (fun o => status_of o = StatusAccepted) (BenchmarkDELETEHandler N).
Proof.
  apply (bench_loop_ok (fun w => inv w /\ clock w = clock w0)); [|split; [apply inv_init|done]].
  intros w [Hi Hc]. destruct (bench_create_spec w Hi) as (Hid & Hi' & Hs & Hc'). cbv beta.
  destruct (bench_create w) as [id w'] eqn:E. cbn [fst snd] in *. subst id.
  destruct (serve_sim w' RDelete (id_request (new_id w) None) Hi') as [Hst Hi''].
  split; [|split; [done|by rewrite serve_clock, Hc', Hc]].
  eapply spec_delete_ok; [|exact Hs|exact Hst]. apply id_request_parse. rewrite Hc. exact t0_after_epoch.
Qed.

(** C16: for every [b.N], every iteration of each of the six benchmarks
    of [handler_test.go] takes its handler's success path: POST answers
    201, GET-list, GET and PUT 200, DELETE 202 and PATCH 204.  The
    benchmarks time the operation their names say, never an error path. *)
Theorem benchmarks_succeed N :
  Forall (fun o => status_of o = StatusCreated) (BenchmarkPOSTHandler N) /\
  Forall (fun o => status_of o = StatusOK) (BenchmarkGETListHandler N) /\
  Forall (fun o => status_of o = StatusOK) (BenchmarkGETHandler N) /\
  Forall (fun o => status_of o = StatusAccepted) (BenchmarkDELETEHandler N) /\
  Forall (fun o => status_of o = StatusOK) (BenchmarkPUTHandler N) /\
  Forall (fun o => status_of o = StatusNoContent) (BenchmarkPATCHHandler N).
Proof.
  split_and!; [apply BenchmarkPOSTHandler_ok|apply BenchmarkGETListHandler_ok|apply BenchmarkGETHandler_ok
              |apply BenchmarkDELETEHandler_ok|apply BenchmarkPUTHandler_ok|apply BenchmarkPATCHHandler_ok].
Qed.
