(* ===== verification/Witnesses.v ===== *)
(** * Concrete instances of the theorems with hypotheses

    Each lemma below applies one theorem of the development to a
    concrete world and request (the example server of [Scenarios.v]),
    discharging its hypotheses by evaluation: the hypotheses are
    satisfiable and the conclusions are about reachable runs. *)

From stdpp Require Import base gmap strings list.
From Stdlib Require Import ZArith Lia.
From S2P Require Import Prelude Xid GoJson Http Crud ParseId ListModifiers Handler Mock MockFacts Server Invariant Refinement Uniqueness Failures Typing Observation Walkthrough Scenarios Drain.

Open Scope Z_scope.
Import Status Xid.Encoding Xid.Generator Mock.Entity Mock.Manager Mock.Instances.

Definition status_body (n : Z) : json := JObj [("status_id", JNum n)].

(** The world after one [POST {"status_id": 1}]. *)
Definition w1 : World := Eval vm_compute in snd (serve RPost (mkRequest "" "" (Some (status_body 1))) w0).
Definition id1 : Z := Eval vm_compute in new_id (alloc w0).
Definition req1 (b : option json) : Request := mkRequest (ID_String id1) "" b.

Lemma flags_off_w0 : flags_off w0.
Proof. repeat split. Qed.

Lemma flags_off_w1 : flags_off w1.
Proof. vm_compute. repeat split. Qed.

Lemma POST_then_GET_witness :
  flags_off w0 /\ 0 < clock w0 mod 2 ^ 32 /\
  ID_IsNil (new_id w0) = false /\
  exists w', POSTHandler (mkRequest "" "" (Some (status_body 1))) w0 =
               Normal (mkResponse StatusCreated (JSONBody (to_json (mkEntity (new_id w0) 1)))) w' /\
             GETHandler (mkRequest (ID_String (new_id w0)) "" None) w' =
               Normal (mkResponse StatusOK (JSONBody (to_json (mkEntity (new_id w0) 1)))) w'.
Proof.
  split; [exact flags_off_w0|]. split; [reflexivity|].
  exact (POST_then_GET w0 (mkRequest "" "" (Some (status_body 1))) (status_body 1)
           (mkEntity 0 1) flags_off_w0 eq_refl eq_refl
           (mkRequest (ID_String (new_id w0)) "" None) eq_refl eq_refl).
Defined.

Lemma parse_req1 b : parseIDFromRequest (req1 b) = inl id1.
Proof. vm_compute. reflexivity. Qed.

Lemma DELETE_then_GET_witness :
  exists w', DELETEHandler (req1 None) w1 = Normal (mkResponse StatusAccepted NoBody) w' /\
             GETHandler (req1 None) w' = Normal (render_error gohttperror.ErrNotFound) w'.
Proof.
  refine (DELETE_then_GET w1 (req1 None) id1 0 flags_off_w1 (parse_req1 None)
           _).
  all: vm_compute; reflexivity.
Defined.

Definition mock_codes (c : Z) : Prop := c = 403 \/ c = 404 \/ c = 500.

Lemma mock_codes_ok (e : MockErr) : mock_codes (HTTPStatusCode (Manager.MapErrorToHTTPError e)).
Proof. unfold mock_codes. destruct e; simpl; auto. Qed.

Lemma handler_status_witness :
  status_allowed mock_codes RPatch StatusNoContent.
Proof.
  refine (handler_status mock_codes RPatch (req1 (Some (status_body 2))) w1
           (mkResponse StatusNoContent NoBody) _ mock_codes_ok
           _).
  all: vm_compute; reflexivity.
Defined.

Lemma malformed_id_rejected_witness :
  exists err, GETHandler (mkRequest "hello" "" None) w0 =
    Normal (mkResponse StatusBadRequest (ErrBody (gohttperror.ErrBadRequest err))) w0.
Proof.
  refine (malformed_id_rejected RGet (mkRequest "hello" "" None) w0 eq_refl _).
  intros id Hv _ Hs. pose proof (Roundtrip.FromString_ID_String id Hv) as Hf.
  simpl in Hs. rewrite Hs in Hf. vm_compute in Hf. discriminate.
Defined.

Lemma GETList_empty_404_witness :
  GETListHandler (mkRequest "" "pol=lux" None) w0 = Normal (render_error gohttperror.ErrNotFound) w0.
Proof. exact (GETList_empty_404 w0 (mkRequest "" "pol=lux" None) eq_refl eq_refl). Defined.

Lemma PATCH_missing_key_500_witness :
  PATCHHandler (req1 (Some (JObj [("status", JNum 2)]))) w1 =
    Normal (render_error (gohttperror.ErrInternal "bad request")) w1.
Proof.
  refine (PATCH_missing_key_500 w1 (req1 (Some (JObj [("status", JNum 2)]))) id1 eq_refl
           (parse_req1 _) ({[ "status" := JNum 2 ]} : gmap string json)
           _ _).
  all: vm_compute; reflexivity.
Defined.

(** [2^53 + 1] is stored as [2^53]. *)
Lemma PATCH_stores_float_witness :
  PATCHHandler (req1 (Some (status_body (2 ^ 53 + 1)))) w1 =
    Normal (mkResponse StatusNoContent NoBody)
      (set_heap (<[0 := mkEntity id1 (2 ^ 53)]> (heap w1)) w1).
Proof.
  refine (PATCH_stores_float w1 (req1 (Some (status_body (2 ^ 53 + 1)))) id1 eq_refl (parse_req1 _) (2 ^ 53 + 1) (2 ^ 53) 0
           (mkEntity id1 1) eq_refl _
           _ _).
  all: vm_compute; reflexivity.
Defined.


Lemma PUT_null_200_witness :
  PUTHandler (req1 (Some JNull)) w1 = Normal (mkResponse StatusOK (JSONBody (JObj []))) (alloc w1).
Proof.
  refine (PUT_null_200 w1 (req1 (Some JNull)) id1 0 flags_off_w1 (parse_req1 _) _ eq_refl).
  all: vm_compute; reflexivity.
Defined.

Lemma PUT_drops_id_witness :
  exists w', PUTHandler (req1 (Some (status_body 2))) w1 =
               Normal (mkResponse StatusOK (JSONBody (JObj [("id", JNull); ("status_id", JNum 2)]))) w' /\
             GETHandler (req1 (Some (status_body 2))) w' =
               Normal (mkResponse StatusOK (JSONBody (JObj [("id", JNull); ("status_id", JNum 2)]))) w'.
Proof.
  refine (PUT_drops_id w1 (req1 (Some (status_body 2))) id1 0 flags_off_w1 (parse_req1 _) _
           2 eq_refl ltac:(lia)).
  all: vm_compute; reflexivity.
Defined.


Lemma PartialUpdate_missing_key_witness :
  Manager.PartialUpdate id1 ∅ "" w1 = Normal (Some ErrBadRequest) w1.
Proof. exact (PartialUpdate_missing_key w1 id1 ∅ "" eq_refl eq_refl). Defined.

Lemma PATCH_not_number_drops_witness :
  serve RPatch (req1 (Some (JObj [("status_id", JStr "two")]))) w1 = (None, w1).
Proof.
  refine (PATCH_not_number_drops w1 (req1 (Some (JObj [("status_id", JStr "two")]))) id1 eq_refl
           (parse_req1 _) ({[ "status_id" := JStr "two" ]} : gmap string json) (JStr "two") 0
           _ _ _ ltac:(discriminate)).
  all: vm_compute; reflexivity.
Defined.

Lemma GetList_nonempty_witness :
  exists ps, Manager.GetList ∅ w1 = Normal (VList ps, None) w1 /\
    length ps = size (EntityList (mgr w1)) /\
    (forall p, p ∈ ps <-> exists id, EntityList (mgr w1) !! id = Some p).
Proof.
  apply (GetList_nonempty w1 ∅ eq_refl). intros H.
  assert (Hl : EntityList (mgr w1) !! id1 = Some 0) by (vm_compute; reflexivity).
  rewrite H, lookup_empty in Hl. discriminate.
Defined.

Lemma POST_bad_body_witness :
  POSTHandler (mkRequest "" "" (Some (JStr "id"))) w0 =
    Normal (render_error (gohttperror.ErrBadRequest json_decode_error)) (alloc w0).
Proof. exact (POST_bad_body (mkRequest "" "" (Some (JStr "id"))) w0 (VEnt 0) (alloc w0) eq_refl eq_refl). Defined.

Lemma PATCH_bad_body_witness :
  PATCHHandler (req1 (Some (JArr []))) w1 =
    Normal (render_error (gohttperror.ErrBadRequest json_decode_error)) w1.
Proof. exact (PATCH_bad_body (req1 (Some (JArr []))) w1 id1 (parse_req1 _) eq_refl). Defined.

(** [w1] is a world of the running server. *)
Lemma reachable_w1 : reachable w1.
Proof.
  assert (H : (serve RPost (mkRequest "" "" (Some (status_body 1))) w0).2 = w1)
    by (vm_compute; reflexivity).
  rewrite <- H. apply reach_serve, reach_init.
Qed.

Lemma serve_refines_witness :
  inv w1 /\ spec_step (view w1) RPatch (req1 (Some (status_body 2)))
    (serve RPatch (req1 (Some (status_body 2))) w1).1
    (view (serve RPatch (req1 (Some (status_body 2))) w1).2).
Proof.
  pose proof (reachable_inv w1 reachable_w1) as Hinv.
  exact (conj Hinv (serve_refines w1 RPatch (req1 (Some (status_body 2))) Hinv)).
Defined.

Lemma serve_preserves_inv_witness :
  inv w1 /\ inv (serve RPut (req1 (Some JNull)) w1).2.
Proof.
  pose proof (reachable_inv w1 reachable_w1) as Hinv.
  exact (conj Hinv (serve_preserves_inv w1 RPut (req1 (Some JNull)) Hinv)).
Defined.

Lemma reachable_no_aliasing_witness :
  reachable w1 /\ lookup_id id1 w1 = Some 0 /\ id1 = id1.
Proof.
  assert (Hl : lookup_id id1 w1 = Some 0) by (vm_compute; reflexivity).
  exact (conj reachable_w1 (conj Hl (reachable_no_aliasing w1 id1 id1 0 reachable_w1 Hl Hl))).
Defined.

Lemma only_patch_drops_witness :
  RPatch = RPatch /\ exists id pud v,
    parseIDFromRequest (req1 (Some (JObj [("status_id", JStr "two")]))) = inl id /\
    (ReqBody (req1 (Some (JObj [("status_id", JStr "two")]))) ≫= Decode.decode_map) = Some pud /\
    pud !! "status_id" = Some v /\ (forall f, v <> JNum f).
Proof.
  refine (only_patch_drops w1 RPatch (req1 (Some (JObj [("status_id", JStr "two")]))) reachable_w1 _).
  vm_compute. reflexivity.
Defined.

Lemma POSTs_distinct_witness :
  size (view (serve_all (repeat (RPost, mkRequest "" "" (Some (status_body 1))) 3) w0).2) = 3%nat.
Proof.
  refine (POSTs_distinct (mkRequest "" "" (Some (status_body 1))) (status_body 1) (mkEntity 0 1)
            eq_refl _ g0 t0 3 _); [vm_compute; reflexivity | lia].
Defined.

Lemma POSTs_wrap_witness :
  size (view (serve_all (repeat (RPost, mkRequest "" "" (Some (status_body 1))) (Z.to_nat (2 ^ 24) + 1)) w0).2)
    = Z.to_nat (2 ^ 24).
Proof.
  refine (POSTs_wrap (mkRequest "" "" (Some (status_body 1))) (status_body 1) (mkEntity 0 1)
            eq_refl _ g0 t0). vm_compute. reflexivity.
Defined.

(** [w1] with every failure flag set. *)
Definition w1_failing : World := set_mgr (mkMgr true true true true true true (EntityList (mgr w1))) w1.

Lemma wf_w1_failing : wf w1_failing.
Proof. destruct (proj1 (reachable_inv w1 reachable_w1)) as [Hf Hs Hi]. by split. Qed.

Lemma injected_failure_witness :
  fails_cleanly w1_failing (serve RPut (req1 (Some (status_body 2))) w1_failing).
Proof. exact (injected_failure w1_failing (req1 (Some (status_body 2))) wf_w1_failing RPut eq_refl). Defined.

Lemma PartialUpdate_overflow_witness :
  Manager.PartialUpdate id1 {[ "status_id" := JNum (2 ^ 63) ]} "" w1 =
    Normal None (set_heap (<[0 := mkEntity id1 (- 2 ^ 63)]> (heap w1)) w1).
Proof.
  refine (PartialUpdate_overflow w1 id1 ({[ "status_id" := JNum (2 ^ 63) ]} : gmap string json) ""
            eq_refl (2 ^ 63) 0 (mkEntity id1 1) _ ltac:(lia) _ _).
  all: vm_compute; reflexivity.
Defined.

Lemma PATCH_number_overflow_400_witness :
  PATCHHandler (req1 (Some (status_body (2 ^ 1024)))) w1 =
    Normal (render_error (gohttperror.ErrBadRequest json_decode_error)) w1.
Proof.
  refine (PATCH_number_overflow_400 w1 (req1 (Some (status_body (2 ^ 1024)))) id1 (parse_req1 _)
            (2 ^ 1024) eq_refl _).
  vm_compute. discriminate.
Defined.

(** The same POST on a world whose first address already holds an
    unreferenced object: the entity lands at address 1, not 0. *)
Definition w1_shifted : World :=
  Eval vm_compute in snd (serve RPost (mkRequest "" "" (Some (status_body 1))) (alloc w0)).

Lemma inv_w1_shifted : inv w1_shifted.
Proof.
  assert (H : (serve RPost (mkRequest "" "" (Some (status_body 1))) (alloc w0)).2 = w1_shifted)
    by (vm_compute; reflexivity).
  rewrite <- H. apply (serve_sim (alloc w0)), inv_alloc, inv_init.
Qed.

Lemma representation_independence_witness :
  lookup_id id1 w1 = Some 0 /\ lookup_id id1 w1_shifted = Some 1 /\
  (serve_all [(RGetList, mkRequest "" "" None); (RPatch, req1 (Some (status_body 5)));
              (RGet, req1 None); (RPost, mkRequest "" "" (Some (status_body 2)))] w1).1 =
  (serve_all [(RGetList, mkRequest "" "" None); (RPatch, req1 (Some (status_body 5)));
              (RGet, req1 None); (RPost, mkRequest "" "" (Some (status_body 2)))] w1_shifted).1.
Proof.
  split; [vm_compute; reflexivity|]. split; [vm_compute; reflexivity|].
  apply (representation_independence w1 w1_shifted); [exact (reachable_inv w1 reachable_w1)|exact inv_w1_shifted|].
  vm_compute. reflexivity.
Defined.

Lemma ids_ok_w1 : ids_ok (view w1).
Proof.
  assert (Hv : view w1 = {[id1 := mkEntity id1 1]}) by (vm_compute; reflexivity).
  rewrite Hv. apply map_Forall_singleton. split_and!; [done| |vm_compute; reflexivity].
  unfold valid_id. split; vm_compute; congruence.
Qed.

Lemma drain_empties_witness :
  view (drain 2 w1).2 = ∅ /\ length (drain 2 w1).1 = 3%nat /\
  last (drain 2 w1).1 = Some (Some (render_error gohttperror.ErrNotFound)).
Proof.
  refine (drain_empties 2 w1 (reachable_inv w1 reachable_w1) ids_ok_w1 _); vm_compute; lia.
Defined.

Lemma drain_stops_witness : drain 100 w1 = drain 2 w1.
Proof.
  refine (drain_stops 2 100 w1 (reachable_inv w1 reachable_w1) ids_ok_w1 _ _); [vm_compute|]; lia.
Defined.

(** POST [{"status_id": 1}], then PUT [{"status_id": 3}] on its id: the
    entity is stored with the nil id. *)
Definition put_no_id_world : World :=
  Eval vm_compute in
  (serve_all [(RPost, mkRequest "" "" (Some (status_body 1)));
              (RPut, mkRequest (ID_String (new_id w0)) "" (Some (status_body 3)))] w0).2.

Lemma inv_put_no_id_world : inv put_no_id_world.
Proof.
  assert (H : (serve_all [(RPost, mkRequest "" "" (Some (status_body 1)));
              (RPut, mkRequest (ID_String (new_id w0)) "" (Some (status_body 3)))] w0).2 = put_no_id_world)
    by (vm_compute; reflexivity).
  rewrite <- H. apply serve_all_sim, inv_init.
Qed.

Lemma drain_stuck_at_nil_id_witness :
  (drain 7 put_no_id_world).1 =
    [Some (mkResponse StatusOK (JSONBody (JArr [JObj [("id", JNull); ("status_id", JNum 3)]])))].
Proof.
  refine (eq_trans (proj1 (drain_stuck_at_nil_id 6 put_no_id_world id1 (mkEntity 0 3) []
            inv_put_no_id_world _ _)) _); vm_compute; reflexivity.
Defined.

Lemma spec_walkthrough_any_witness :
  inv w0 /\ 0 < clock w0 mod 2 ^ 32 /\
  (serve_all [(RPost, mkRequest "" "" (Some (JObj [("status_id", JNum 1)])));
              (RPatch, mkRequest (ID_String (new_id w0)) "" (Some (JObj [("status_id", JNum 2)])));
              (RGet, mkRequest (ID_String (new_id w0)) "" None);
              (RDelete, mkRequest (ID_String (new_id w0)) "" None);
              (RGet, mkRequest (ID_String (new_id w0)) "" None)] w0).1 =
  [Some (mkResponse StatusCreated (JSONBody (JObj [("id", JStr (ID_String (new_id w0))); ("status_id", JNum 1)])));
   Some (mkResponse StatusNoContent NoBody);
   Some (mkResponse StatusOK (JSONBody (JObj [("id", JStr (ID_String (new_id w0))); ("status_id", JNum 2)])));
   Some (mkResponse StatusAccepted NoBody); Some (render_error gohttperror.ErrNotFound)].
Proof.
  split; [apply inv_init|]. split; [reflexivity|].
  exact (spec_walkthrough_any w0 (inv_init g0 t0) eq_refl).
Defined.

Lemma field_case_mismatch_any_witness :
  (serve_all [(RPost, mkRequest "" "" (Some (JObj [("STATUS_ID", JNum 5)])));
              (RPatch, mkRequest (ID_String (new_id w0)) "" (Some (JObj [("STATUS_ID", JNum 6)])));
              (RGet, mkRequest (ID_String (new_id w0)) "" None)] w0).1 =
  [Some (mkResponse StatusCreated (JSONBody (JObj [("id", JStr (ID_String (new_id w0))); ("status_id", JNum 5)])));
   Some (render_error (gohttperror.ErrInternal "bad request"));
   Some (mkResponse StatusOK (JSONBody (JObj [("id", JStr (ID_String (new_id w0))); ("status_id", JNum 5)])))].
Proof.
  refine (field_case_mismatch_any w0 (inv_init g0 t0) eq_refl 5 6 _ _); [lia|by eexists].
Defined.

Lemma GETList_test_aliasing_witness :
  (0 < size (EntityList (mgr (HandlerTests.create_n 5 0 (alloc w0)))))%nat /\
  (serve RGetList (mkRequest "" "" None) (HandlerTests.create_n 5 0 (alloc w0))).1 =
    Some (mkResponse StatusOK (JSONBody (JArr (replicate (size (EntityList (mgr (HandlerTests.create_n 5 0 (alloc w0)))))
      (to_json (mkEntity (new_id (HandlerTests.create_n 4 0 (alloc w0))) 0)))))).
Proof.
  exact (HandlerTests.GETList_test_aliasing 4 0 zero (alloc w0) (mkRequest "" "" None)
           eq_refl eq_refl eq_refl eq_refl).
Defined.
